(** * Timetable model formulation (solver3.py): embedding and verification

    The Python function [solve_timetable_debug] builds a CP-SAT model
    (boolean decision variables, one bounded slack per constraint
    instance, an additive objective), hands it to the external solver
    and turns the answer into a diagnostic report and a table.

    The embedding keeps the shape of the source: the three mutable
    locals [model], [x] and [slack_vars] form the state of a small
    state-and-exception monad, every [for] loop is a monadic loop over the
    same list, every [x[...]] is a dictionary lookup that can raise
    [KeyError], and the solver is a parameter returning a status and a
    valuation of the variables. *)

From Stdlib Require Import ZArith Lia Sorted.
From stdpp Require Import base tactics option list strings pretty gmap.

Local Open Scope string_scope.
Local Open Scope list_scope.
Local Open Scope Z_scope.

(** ** Data model *)

(** Key of the dictionary [x]: the tuple (batch, subj, d, s, r). *)
Abbreviation Key := (string * string * string * Z * string)%type.

Definition key_batch (k : Key) : string := k.1.1.1.1.
Definition key_subj (k : Key) : string := k.1.1.1.2.
Definition key_day (k : Key) : string := k.1.1.2.
Definition key_slot (k : Key) : Z := k.1.2.
Definition key_room (k : Key) : string := k.2.

(** Values of the [subjects] and [teachers] dictionaries; [batch_of] and
    [teacher_of] are the entries ["batch"] and ["teacher"]. *)
Record SubjectInfo : Type := MkSubject
  { sessions_per_week : Z; teacher_of : string; batch_of : string }.

Record TeacherInfo : Type := MkTeacher { max_load : Z }.

(** A Python dict iterated with [.items()]: its entries in insertion
    order.  Keys of a dict are unique; theorems that depend on it assume
    [NoDup (d.*1)]. *)
Abbreviation Dict V := (list (string * V)).

Definition days : list string := ["Mon"; "Tue"; "Wed"; "Thu"; "Fri"].
Definition slots : list Z := [1; 2; 3; 4; 5].

(** ** The CP-SAT model object *)

(** Variables are identified by their index in the model, in creation
    order. *)
Abbreviation Var := nat.

Inductive VarDecl : Type :=
  | BoolVar (name : string)
  | IntVar (lo hi : Z) (name : string).

(** A linear expression: a sum of coefficient-times-variable terms plus a
    constant. *)
Record LinExpr : Type := MkLin { terms : list (Z * Var); offset : Z }.

Inductive Constraint : Type :=
  | CEq (l r : LinExpr)
  | CLe (l r : LinExpr).

Record CpModel : Type := MkModel
  { variables : list VarDecl;
    constraints : list Constraint;
    objective : option LinExpr }.

Definition lin_const (c : Z) : LinExpr := MkLin [] c.
Definition lin_var (v : Var) : LinExpr := MkLin [(1, v)] 0.
Definition lin_add (a b : LinExpr) : LinExpr :=
  MkLin (terms a ++ terms b) (offset a + offset b).

(** Python's [sum(...)] over variables: a left fold of [+] from [0]. *)
Definition lin_sum (vs : list Var) : LinExpr :=
  foldl (fun acc v => lin_add acc (lin_var v)) (lin_const 0) vs.

(** ** Valuations and satisfaction *)

Definition Valuation : Type := Var -> Z.

Definition eval_terms (v : Valuation) (ts : list (Z * Var)) : Z :=
  foldr (fun t acc => t.1 * v t.2 + acc) 0 ts.

Definition eval (v : Valuation) (e : LinExpr) : Z :=
  eval_terms v (terms e) + offset e.

Definition in_domain (d : VarDecl) (z : Z) : bool :=
  match d with
  | BoolVar _ => (0 <=? z) && (z <=? 1)
  | IntVar lo hi _ => (lo <=? z) && (z <=? hi)
  end.

Definition holds (v : Valuation) (c : Constraint) : bool :=
  match c with
  | CEq l r => eval v l =? eval v r
  | CLe l r => eval v l <=? eval v r
  end.

(** [v] satisfies [m]: every variable lies in its domain and every
    constraint holds. *)
Definition satisfiesb (m : CpModel) (v : Valuation) : bool :=
  forallb (fun '(i, d) => in_domain d (v i)) (imap pair (variables m))
  && forallb (holds v) (constraints m).

Definition satisfies (m : CpModel) (v : Valuation) : Prop :=
  satisfiesb m v = true.

(** ** State-and-exception monad *)

Inductive Exc : Type :=
  | KeyError (k : Key)           (* a lookup [x[k]] on a missing key *)
  | KeyErrorLabel (l : string).  (* pandas: an unknown column label *)

(** A computation returns a value or raises; the state reached so far
    (what was printed, what was appended) survives an exception. *)
Inductive Res (S A : Type) : Type :=
  | Ok (a : A) (s : S)
  | Raise (e : Exc) (s : S).
Arguments Ok {S A} a s.
Arguments Raise {S A} e s.

Definition M (S A : Type) : Type := S -> Res S A.

Definition ret {S A} (a : A) : M S A := fun s => Ok a s.

Definition bind {S A B} (c : M S A) (k : A -> M S B) : M S B :=
  fun s => match c s with
           | Ok a s' => k a s'
           | Raise e s' => Raise e s'
           end.

Notation "x <- c ;; k" := (bind c (fun x => k))
  (at level 100, c at next level, right associativity).
Notation "c ;;; k" := (bind c (fun _ => k))
  (at level 100, right associativity).

Definition raise {S A} (e : Exc) : M S A := fun s => Raise e s.
Definition gets {S A} (f : S -> A) : M S A := fun s => Ok (f s) s.
Definition modify {S} (f : S -> S) : M S unit := fun s => Ok tt (f s).

(** [for a in l: body a] *)
Fixpoint for_ {S A} (l : list A) (body : A -> M S unit) : M S unit :=
  match l with
  | [] => ret tt
  | a :: l' => body a ;;; for_ l' body
  end.

(** [[f a for a in l]] where [f] can raise. *)
Fixpoint mapM {S A B} (f : A -> M S B) (l : list A) : M S (list B) :=
  match l with
  | [] => ret []
  | a :: l' => b <- f a ;; bs <- mapM f l' ;; ret (b :: bs)
  end.

(** ** The state of one call of [solve_timetable_debug] *)

(** One entry of [slack_vars]: (kind, who, when, slack). *)
Abbreviation SlackEntry := (string * string * string * Var)%type.

Definition entry_kind (e : SlackEntry) : string := e.1.1.1.
Definition entry_who (e : SlackEntry) : string := e.1.1.2.
Definition entry_when (e : SlackEntry) : string := e.1.2.
Definition entry_slack (e : SlackEntry) : Var := e.2.

(** One row of the timetable: the dict appended at lines 124-133. *)
Record Row : Type := MkRow
  { Day : string; Slot : Z; Batch : string;
    Subject : string; Teacher : string; Room : string }.

(** The mutable locals [model], [x], [slack_vars] and [timetable], and
    the lines printed so far. *)
Record Locals : Type := MkLocals
  { model : CpModel;
    x : gmap Key Var;
    slack_vars : list SlackEntry;
    timetable : list Row;
    stdout : list string }.

Definition init : Locals := MkLocals (MkModel [] [] None) ∅ [] [] [].

Definition set_model (m : CpModel) (st : Locals) : Locals :=
  MkLocals m (x st) (slack_vars st) (timetable st) (stdout st).

(** [model.NewBoolVar(name)] and [model.NewIntVar(lo, hi, name)]: the new
    variable gets the next index. *)
Definition add_var (d : VarDecl) : M Locals Var := fun st =>
  let m := model st in
  Ok (length (variables m))
     (set_model (MkModel (variables m ++ [d]) (constraints m) (objective m)) st).

Definition NewBoolVar (name : string) : M Locals Var := add_var (BoolVar name).

Definition NewIntVar (lo hi : Z) (name : string) : M Locals Var :=
  add_var (IntVar lo hi name).

(** The range of the library.  CP-SAT keeps the constants of a constraint
    as signed 64-bit integers and reads the two extreme values as infinite
    bounds: [model.Add] raises on a constant outside the range, and a
    constraint written with an extreme one is not stored as written.  A
    constant strictly inside the range is stored as it is. *)
Definition int64_min : Z := - 2 ^ 63.
Definition int64_max : Z := 2 ^ 63 - 1.

Definition int64_const (z : Z) : Prop := int64_min < z < int64_max.

(** The inputs whose integer constants (lines 35, 74 and 87) are all
    strictly inside the range. *)
Definition int64_inputs (subjects : Dict SubjectInfo)
    (teachers : Dict TeacherInfo) (max_classes_per_day : Z) : Prop :=
  Forall (fun si => int64_const si.2.(sessions_per_week)) subjects
  /\ Forall (fun ti => int64_const ti.2.(max_load)) teachers
  /\ int64_const max_classes_per_day.

(** The constants a constraint is written with. *)
Definition constraint_consts (c : Constraint) : list Z :=
  match c with CEq l r | CLe l r => [offset l; offset r] end.

(** [model.Add(c)] for a constraint whose constants are strictly inside the
    range, where the library stores [c] as written and does not raise.  On
    [int64_inputs] every call of the function is of this kind
    ([added_constants_in_range]); for other inputs [Add] is the constraint
    over the integers, which the library does not keep. *)
Definition Add (c : Constraint) : M Locals unit := modify (fun st =>
  let m := model st in
  set_model (MkModel (variables m) (constraints m ++ [c]) (objective m)) st).

(** [model.Minimize(e)] *)
Definition Minimize (e : LinExpr) : M Locals unit := modify (fun st =>
  let m := model st in
  set_model (MkModel (variables m) (constraints m) (Some e)) st).

(** [x[k] = v] *)
Definition x_set (k : Key) (v : Var) : M Locals unit := modify (fun st =>
  MkLocals (model st) (<[k := v]> (x st)) (slack_vars st)
           (timetable st) (stdout st)).

(** [x[k]] *)
Definition x_get (k : Key) : M Locals Var := fun st =>
  match x st !! k with
  | Some v => Ok v st
  | None => Raise (KeyError k) st
  end.

(** [slack_vars.append(e)] *)
Definition slack_append (e : SlackEntry) : M Locals unit := modify (fun st =>
  MkLocals (model st) (x st) (slack_vars st ++ [e])
           (timetable st) (stdout st)).

(** [timetable.append(row)] *)
Definition timetable_append (row : Row) : M Locals unit := modify (fun st =>
  MkLocals (model st) (x st) (slack_vars st)
           (timetable st ++ [row]) (stdout st)).

(** [print(line)] *)
Definition print (line : string) : M Locals unit := modify (fun st =>
  MkLocals (model st) (x st) (slack_vars st)
           (timetable st) (stdout st ++ [line])).

(** [sum(x[k] for k in keys)] *)
Definition sum_x (keys : list Key) : M Locals LinExpr :=
  vs <- mapM x_get keys ;; ret (lin_sum vs).

(** The line feed of ["\n..."]. *)
Definition newline : string := String (Ascii.ascii_of_nat 10) "".

(** [str(n)] for an integer, as the f-strings print it. *)
Definition str (n : Z) : string := pretty n.

(** ** The external solver and pandas *)

(** [cp_model]'s solve statuses. *)
Inductive Status : Type :=
  | UNKNOWN | MODEL_INVALID | FEASIBLE | INFEASIBLE | OPTIMAL.

Definition status_eqb (a b : Status) : bool :=
  match a, b with
  | UNKNOWN, UNKNOWN | MODEL_INVALID, MODEL_INVALID | FEASIBLE, FEASIBLE
  | INFEASIBLE, INFEASIBLE | OPTIMAL, OPTIMAL => true
  | _, _ => false
  end.

(** The solver is a black box: from the model, a status and the value of
    every variable ([solver.Value]). *)
Definition Solver : Type := CpModel -> Status * Valuation.

(** Order of two rows under [sort_values(["Batch", "Day", "Slot"])]:
    lexicographic, strings by code point. *)
Definition row_leb (a b : Row) : bool :=
  match String.compare (Batch a) (Batch b) with
  | Lt => true
  | Gt => false
  | Eq =>
      match String.compare (Day a) (Day b) with
      | Lt => true
      | Gt => false
      | Eq => Slot a <=? Slot b
      end
  end.

Fixpoint insert_row (r : Row) (l : list Row) : list Row :=
  match l with
  | [] => [r]
  | r' :: l' => if row_leb r r' then r :: l else r' :: insert_row r l'
  end.

(** [pd.DataFrame(timetable).sort_values(["Batch", "Day", "Slot"])]: a
    frame built from an empty list has no columns, and sorting it by a
    column label raises [KeyError]; otherwise the rows are sorted, rows
    with equal keys keeping their order. *)
Definition sort_values : M Locals (list Row) := fun st =>
  match timetable st with
  | [] => Raise (KeyErrorLabel "Batch") st
  | rows => Ok (foldr insert_row [] rows) st
  end.

(** ** solve_timetable_debug *)

Section SolveTimetable.

Context (solver : Solver).
Context (rooms batches : list string).
Context (subjects : Dict SubjectInfo) (teachers : Dict TeacherInfo).
Context (fixed_classes : option (list Key)).
Context (max_classes_per_day : Z).

(** Lines 19-26: one boolean variable per subject, day, slot and room,
    under the subject's own batch. *)
Definition create_variables : M Locals unit :=
  for_ subjects (fun '(subj, info) =>
    let batch := info.(batch_of) in
    for_ days (fun d =>
      for_ slots (fun s =>
        for_ rooms (fun r =>
          v <- NewBoolVar ("x_" +:+ batch +:+ "_" +:+ subj +:+ "_" +:+ d
                           +:+ "_" +:+ str s +:+ "_" +:+ r) ;;
          x_set (batch, subj, d, s, r) v)))).

(** Lines 31-36: subject weekly requirements. *)
Definition subject_weekly : M Locals unit :=
  for_ subjects (fun '(subj, info) =>
    let batch := info.(batch_of) in
    lhs <- sum_x (d ← days; s ← slots; r ← rooms; [(batch, subj, d, s, r)]) ;;
    slack <- NewIntVar 0 10 ("slack_subject_" +:+ subj +:+ "_" +:+ batch) ;;
    Add (CEq (lin_add lhs (lin_var slack))
             (lin_const info.(sessions_per_week))) ;;;
    slack_append ("Subject", subj, batch, slack)).

(** Lines 39-50: batch clash. *)
Definition batch_clash : M Locals unit :=
  for_ batches (fun batch =>
    for_ days (fun d =>
      for_ slots (fun s =>
        lhs <- sum_x ('(subj, info) ← subjects;
                      if decide (info.(batch_of) = batch)
                      then r ← rooms; [(batch, subj, d, s, r)]
                      else []) ;;
        slack <- NewIntVar 0 1 ("slack_batch_" +:+ batch +:+ "_" +:+ d
                                +:+ "_" +:+ str s) ;;
        Add (CLe lhs (lin_add (lin_const 1) (lin_var slack))) ;;;
        slack_append ("BatchClash", batch, d +:+ "-" +:+ str s, slack)))).

(** Lines 53-61: room clash. *)
Definition room_clash : M Locals unit :=
  for_ rooms (fun r =>
    for_ days (fun d =>
      for_ slots (fun s =>
        lhs <- sum_x ('(subj, info) ← subjects;
                      [(info.(batch_of), subj, d, s, r)]) ;;
        slack <- NewIntVar 0 1 ("slack_room_" +:+ r +:+ "_" +:+ d
                                +:+ "_" +:+ str s) ;;
        Add (CLe lhs (lin_add (lin_const 1) (lin_var slack))) ;;;
        slack_append ("RoomClash", r, d +:+ "-" +:+ str s, slack)))).

(** Lines 64-88: teacher weekly load and, nested in the same loop, teacher
    daily load. *)
Definition teacher_load : M Locals unit :=
  for_ teachers (fun '(teacher, tinfo) =>
    lhs <- sum_x ('(subj, info) ← subjects;
                  if decide (info.(teacher_of) = teacher)
                  then d ← days; s ← slots; r ← rooms;
                       [(info.(batch_of), subj, d, s, r)]
                  else []) ;;
    slack <- NewIntVar 0 20 ("slack_teacher_week_" +:+ teacher) ;;
    Add (CLe lhs (lin_add (lin_const tinfo.(max_load)) (lin_var slack))) ;;;
    slack_append ("TeacherWeek", teacher, "All", slack) ;;;
    for_ days (fun d =>
      lhs <- sum_x ('(subj, info) ← subjects;
                    if decide (info.(teacher_of) = teacher)
                    then s ← slots; r ← rooms;
                         [(info.(batch_of), subj, d, s, r)]
                    else []) ;;
      slack <- NewIntVar 0 5 ("slack_teacher_day_" +:+ teacher
                              +:+ "_" +:+ d) ;;
      Add (CLe lhs (lin_add (lin_const max_classes_per_day)
                            (lin_var slack))) ;;;
      slack_append ("TeacherDay", teacher, d, slack))).

(** Lines 91-96: fixed classes; [if fixed_classes:] skips [None] and the
    empty list. *)
Definition fixed_class_pins : M Locals unit :=
  match fixed_classes with
  | None | Some [] => ret tt
  | Some fcs =>
      for_ fcs (fun '(batch, subj, d, s, r) =>
        lhs <- x_get (batch, subj, d, s, r) ;;
        slack <- NewIntVar 0 1 ("slack_fixed_" +:+ batch +:+ "_" +:+ subj
                                +:+ "_" +:+ d +:+ "_" +:+ str s) ;;
        Add (CEq (lin_add (lin_var lhs) (lin_var slack)) (lin_const 1)) ;;;
        slack_append ("FixedClass", batch,
                      subj +:+ "-" +:+ d +:+ "-" +:+ str s, slack))
  end.

(** Line 99: the objective. *)
Definition declare_objective : M Locals unit :=
  svs <- gets slack_vars ;;
  Minimize (lin_sum (map (fun '(_, _, _, s) => s) svs)).

(** Lines 13-99: the model handed to the solver. *)
Definition build_model : M Locals unit :=
  create_variables ;;;
  subject_weekly ;;;
  batch_clash ;;;
  room_clash ;;;
  teacher_load ;;;
  fixed_class_pins ;;;
  declare_objective.

(** Lines 110-114: the report of violated constraints. *)
Definition report_violations (Value : Valuation) : M Locals unit :=
  print (newline +:+ "🔍 Constraint check:") ;;;
  svs <- gets slack_vars ;;
  for_ svs (fun '(kind, who, when, slack) =>
    let val := Value slack in
    if 0 <? val
    then print ("⚠️ Violation -> " +:+ kind +:+ " | " +:+ who +:+ " | "
                +:+ when +:+ " | slack=" +:+ str val)
    else ret tt).

(** Lines 117-133: the timetable rows. *)
Definition build_timetable (Value : Valuation) : M Locals unit :=
  for_ days (fun d =>
    for_ slots (fun s =>
      for_ batches (fun batch =>
        for_ subjects (fun '(subj, info) =>
          for_ rooms (fun r =>
            v <- x_get (batch, subj, d, s, r) ;;
            if negb (Value v =? 0)
            then timetable_append
                   (MkRow d s batch subj info.(teacher_of) r)
            else ret tt))))).

(** The whole function.  [None] is Python's [None]. *)
Definition solve_timetable_debug : M Locals (option (list Row)) :=
  build_model ;;;
  m <- gets model ;;
  let '(status, Value) := solver m in
  if negb (status_eqb status OPTIMAL || status_eqb status FEASIBLE)
  then print "❌ Still no solution." ;;; ret None
  else
    report_violations Value ;;;
    build_timetable Value ;;;
    df <- sort_values ;;
    ret (Some df).

End SolveTimetable.

(** * Verification *)

(** ** Reasoning about the monad *)

Lemma bind_Ok {S A B} (c : M S A) (k : A -> M S B) s a s' :
  c s = Ok a s' -> bind c k s = k a s'.
Proof. intros H. unfold bind. by rewrite H. Qed.

Lemma bind_Raise {S A B} (c : M S A) (k : A -> M S B) s e s' :
  c s = Raise e s' -> bind c k s = Raise e s'.
Proof. intros H. unfold bind. by rewrite H. Qed.

Lemma bind_Ok_inv {S A B} (c : M S A) (k : A -> M S B) s b s2 :
  bind c k s = Ok b s2 -> exists a s1, c s = Ok a s1 /\ k a s1 = Ok b s2.
Proof. unfold bind. destruct (c s) as [a s1|e s1]; [eauto | done]. Qed.

(** The loop rule: [R done s] relates the state to the work items already
    emitted; a body that emits [g a] for the element [a] makes the loop emit
    [l ≫= g]. *)
Lemma for_spec {S A K} (R : list K -> S -> Prop) (g : A -> list K)
    (body : A -> M S unit) (l : list A) :
  (forall a done s, a ∈ l -> R done s ->
     exists s', body a s = Ok tt s' /\ R (done ++ g a) s') ->
  forall done s, R done s ->
    exists s', for_ l body s = Ok tt s' /\ R (done ++ (l ≫= g)) s'.
Proof.
  induction l as [|a l IH]; intros Hbody done s HR; simpl.
  - exists s. by rewrite app_nil_r.
  - destruct (Hbody a done s) as (s1 & E1 & H1); [left | done |].
    destruct (IH (fun a' d' s' Ha' => Hbody a' d' s' (list_elem_of_further _ _ _ Ha'))
                 (done ++ g a) s1 H1) as (s2 & E2 & H2).
    exists s2. split; [by rewrite (bind_Ok _ _ _ _ _ E1) |].
    by rewrite app_assoc.
Qed.

(** A loop whose body keeps an invariant keeps it, whatever the outcome. *)
Lemma for_preserves {S A} (P : S -> Prop) (body : A -> M S unit) (l : list A) :
  (forall a s, P s -> match body a s with Ok _ s' | Raise _ s' => P s' end) ->
  forall s, P s -> match for_ l body s with Ok _ s' | Raise _ s' => P s' end.
Proof.
  intros Hbody. induction l as [|a l IH]; intros s HP; simpl; [done|].
  unfold bind. specialize (Hbody a s HP).
  destruct (body a s) as [[] s1|e s1]; [by apply IH | done].
Qed.

(** ** Linear expressions *)

Lemma terms_lin_sum_from (e : LinExpr) (vs : list Var) :
  foldl (fun acc v => lin_add acc (lin_var v)) e vs
  = MkLin (terms e ++ map (pair 1) vs) (offset e).
Proof.
  revert e. induction vs as [|v vs IH]; intros [ts c]; simpl.
  - by rewrite app_nil_r.
  - rewrite IH. simpl. rewrite <- app_assoc. f_equal. lia.
Qed.

Lemma lin_sum_eq (vs : list Var) : lin_sum vs = MkLin (map (pair 1) vs) 0.
Proof. unfold lin_sum. by rewrite terms_lin_sum_from. Qed.

Lemma eval_terms_app v ts1 ts2 :
  eval_terms v (ts1 ++ ts2) = eval_terms v ts1 + eval_terms v ts2.
Proof. induction ts1 as [|t ts1 IH]; simpl; [done|]. rewrite IH. lia. Qed.

(** The sum of the values of a list of variables. *)
Definition sum_values (v : Valuation) (vs : list Var) : Z :=
  foldr (fun i acc => v i + acc) 0 vs.

Lemma eval_lin_sum v vs : eval v (lin_sum vs) = sum_values v vs.
Proof.
  rewrite lin_sum_eq. unfold eval. simpl. rewrite Z.add_0_r.
  induction vs as [|i vs IH]; simpl; [done|]. rewrite IH. lia.
Qed.

Lemma eval_lin_add v a b : eval v (lin_add a b) = eval v a + eval v b.
Proof. unfold eval, lin_add. simpl. rewrite eval_terms_app. lia. Qed.

Lemma eval_lin_var v i : eval v (lin_var i) = v i.
Proof. unfold eval. simpl. lia. Qed.

Lemma eval_lin_const v c : eval v (lin_const c) = c.
Proof. done. Qed.

Lemma sum_values_app v l1 l2 :
  sum_values v (l1 ++ l2) = sum_values v l1 + sum_values v l2.
Proof. induction l1 as [|i l1 IH]; simpl; [done|]. rewrite IH. lia. Qed.

(** ** Satisfaction, unfolded *)

Lemma satisfies_iff (m : CpModel) (v : Valuation) :
  satisfies m v <->
  (forall i d, variables m !! i = Some d -> in_domain d (v i) = true) /\
  (forall c, c ∈ constraints m -> holds v c = true).
Proof.
  unfold satisfies, satisfiesb. rewrite andb_true_iff, !forallb_forall.
  split; intros [Hd Hc]; split.
  - intros i d Hi. apply (Hd (i, d)). apply list_elem_of_In.
    apply list_elem_of_lookup. exists i. rewrite list_lookup_imap. by rewrite Hi.
  - intros c Hin. apply Hc. by apply list_elem_of_In.
  - intros [i d] Hin. apply list_elem_of_In, list_elem_of_lookup in Hin.
    destruct Hin as [j Hj]. rewrite list_lookup_imap in Hj.
    destruct (variables m !! j) as [d'|] eqn:E; simplify_eq/=. eauto.
  - intros c Hin. apply Hc. by apply list_elem_of_In.
Qed.

Lemma satisfies_domain m v i d :
  satisfies m v -> variables m !! i = Some d -> in_domain d (v i) = true.
Proof. intros H. apply satisfies_iff in H. apply H. Qed.

Lemma satisfies_holds m v c :
  satisfies m v -> c ∈ constraints m -> holds v c = true.
Proof. intros H. apply satisfies_iff in H. apply H. Qed.

Lemma in_domain_bool name z : in_domain (BoolVar name) z = true <-> 0 <= z <= 1.
Proof. simpl. rewrite andb_true_iff, !Z.leb_le. done. Qed.

Lemma in_domain_int lo hi name z :
  in_domain (IntVar lo hi name) z = true <-> lo <= z <= hi.
Proof. simpl. rewrite andb_true_iff, !Z.leb_le. done. Qed.

(** ** What the model consists of *)

(** One constraint instance, as the loops of lines 31-96 produce them. *)
Inductive Instance : Type :=
  | ISubject (subj : string) (info : SubjectInfo)
  | IBatch (batch d : string) (s : Z)
  | IRoom (r d : string) (s : Z)
  | ITeacherWeek (teacher : string) (tinfo : TeacherInfo)
  | ITeacherDay (teacher d : string)
  | IFixed (k : Key).

Definition is_bool (d : VarDecl) : Prop :=
  match d with BoolVar _ => True | IntVar _ _ _ => False end.

Definition is_int (d : VarDecl) : bool :=
  match d with BoolVar _ => false | IntVar _ _ _ => true end.

(** The variables found for a list of keys. *)
Definition lookup_vars (X : gmap Key Var) (keys : list Key) : list Var :=
  omap (fun k => X !! k) keys.

Section ModelSpec.

Context (rooms batches : list string).
Context (subjects : Dict SubjectInfo) (teachers : Dict TeacherInfo).
Context (fixed_classes : option (list Key)).
Context (max_classes_per_day : Z).

(** The keys of [x] after lines 19-26. *)
Definition all_keys : list Key :=
  '(subj, info) ← subjects; d ← days; s ← slots; r ← rooms;
  [(info.(batch_of), subj, d, s, r)].

(** The same as a test on one key: the subject is declared with this
    batch, and day, slot and room are on the grid. *)
Definition valid_key (k : Key) : bool :=
  existsb (fun '(subj, info) =>
             bool_decide (subj = key_subj k /\ info.(batch_of) = key_batch k))
          subjects
  && bool_decide (key_day k ∈ days)
  && bool_decide (key_slot k ∈ slots)
  && bool_decide (key_room k ∈ rooms).

(** The constraint instances in the order the model receives them. *)
Definition instances : list Instance :=
  ('(subj, info) ← subjects; [ISubject subj info])
  ++ (batch ← batches; d ← days; s ← slots; [IBatch batch d s])
  ++ (r ← rooms; d ← days; s ← slots; [IRoom r d s])
  ++ ('(teacher, tinfo) ← teachers;
      ITeacherWeek teacher tinfo :: (d ← days; [ITeacherDay teacher d]))
  ++ match fixed_classes with None => [] | Some fcs => IFixed <$> fcs end.

(** The decision variables summed on the left of an instance. *)
Definition inst_keys (I : Instance) : list Key :=
  match I with
  | ISubject subj info =>
      d ← days; s ← slots; r ← rooms; [(info.(batch_of), subj, d, s, r)]
  | IBatch batch d s =>
      '(subj, info) ← subjects;
      if decide (info.(batch_of) = batch)
      then r ← rooms; [(batch, subj, d, s, r)] else []
  | IRoom r d s =>
      '(subj, info) ← subjects; [(info.(batch_of), subj, d, s, r)]
  | ITeacherWeek teacher _ =>
      '(subj, info) ← subjects;
      if decide (info.(teacher_of) = teacher)
      then d ← days; s ← slots; r ← rooms; [(info.(batch_of), subj, d, s, r)]
      else []
  | ITeacherDay teacher d =>
      '(subj, info) ← subjects;
      if decide (info.(teacher_of) = teacher)
      then s ← slots; r ← rooms; [(info.(batch_of), subj, d, s, r)]
      else []
  | IFixed k => [k]
  end.

(** The slack variable of an instance. *)
Definition inst_decl (I : Instance) : VarDecl :=
  match I with
  | ISubject subj info =>
      IntVar 0 10 ("slack_subject_" +:+ subj +:+ "_" +:+ info.(batch_of))
  | IBatch batch d s =>
      IntVar 0 1 ("slack_batch_" +:+ batch +:+ "_" +:+ d +:+ "_" +:+ str s)
  | IRoom r d s =>
      IntVar 0 1 ("slack_room_" +:+ r +:+ "_" +:+ d +:+ "_" +:+ str s)
  | ITeacherWeek teacher _ => IntVar 0 20 ("slack_teacher_week_" +:+ teacher)
  | ITeacherDay teacher d =>
      IntVar 0 5 ("slack_teacher_day_" +:+ teacher +:+ "_" +:+ d)
  | IFixed (batch, subj, d, s, r) =>
      IntVar 0 1 ("slack_fixed_" +:+ batch +:+ "_" +:+ subj +:+ "_" +:+ d
                  +:+ "_" +:+ str s)
  end.

(** Its constraint, over the left-hand side [lhs] and the slack. *)
Definition inst_constraint (I : Instance) (lhs : LinExpr) (slack : Var)
    : Constraint :=
  match I with
  | ISubject _ info =>
      CEq (lin_add lhs (lin_var slack)) (lin_const info.(sessions_per_week))
  | IBatch _ _ _ | IRoom _ _ _ =>
      CLe lhs (lin_add (lin_const 1) (lin_var slack))
  | ITeacherWeek _ tinfo =>
      CLe lhs (lin_add (lin_const tinfo.(max_load)) (lin_var slack))
  | ITeacherDay _ _ =>
      CLe lhs (lin_add (lin_const max_classes_per_day) (lin_var slack))
  | IFixed _ => CEq (lin_add lhs (lin_var slack)) (lin_const 1)
  end.

(** Its entry in [slack_vars]. *)
Definition inst_entry (I : Instance) (slack : Var) : SlackEntry :=
  match I with
  | ISubject subj info => ("Subject", subj, info.(batch_of), slack)
  | IBatch batch d s => ("BatchClash", batch, d +:+ "-" +:+ str s, slack)
  | IRoom r d s => ("RoomClash", r, d +:+ "-" +:+ str s, slack)
  | ITeacherWeek teacher _ => ("TeacherWeek", teacher, "All", slack)
  | ITeacherDay teacher d => ("TeacherDay", teacher, d, slack)
  | IFixed (batch, subj, d, s, r) =>
      ("FixedClass", batch, subj +:+ "-" +:+ d +:+ "-" +:+ str s, slack)
  end.

(** The block every constraint loop runs for one instance: evaluate the
    left-hand side, create the slack, add the constraint, record the
    slack. *)
Definition emit (I : Instance) : M Locals unit :=
  lhs <- sum_x (inst_keys I) ;;
  slack <- add_var (inst_decl I) ;;
  Add (inst_constraint I lhs slack) ;;;
  slack_append (inst_entry I slack).

(** The state after lines 19-26, with [done] the keys assigned so far. *)
Definition XInv (done : list Key) (st : Locals) : Prop :=
  slack_vars st = [] /\ timetable st = [] /\ stdout st = [] /\
  constraints (model st) = [] /\ objective (model st) = None /\
  Forall is_bool (variables (model st)) /\
  (forall k i, x st !! k = Some i ->
     k ∈ done /\ (i < length (variables (model st)))%nat) /\
  (forall k, k ∈ done -> is_Some (x st !! k)).

(** The state while the constraints are added: [V0] are the decision
    variables, [X] is the finished dictionary, and the [j]-th instance owns
    the [j]-th slack variable, constraint and [slack_vars] entry; [obj] is
    the objective declared so far. *)
Definition Rep (obj : option LinExpr) (V0 : list VarDecl) (X : gmap Key Var)
    (insts : list Instance) (st : Locals) : Prop :=
  x st = X /\ timetable st = [] /\ stdout st = [] /\
  objective (model st) = obj /\
  variables (model st) = V0 ++ (inst_decl <$> insts) /\
  constraints (model st)
    = imap (fun j I => inst_constraint I (lin_sum (lookup_vars X (inst_keys I)))
                         (length V0 + j)%nat) insts /\
  slack_vars st = imap (fun j I => inst_entry I (length V0 + j)%nat) insts.

(** What lines 19-26 leave in [x]: exactly the keys of [all_keys], each
    bound to one of the boolean variables [V0]. *)
Definition XSpec (V0 : list VarDecl) (X : gmap Key Var) : Prop :=
  Forall is_bool V0 /\
  (forall k i, X !! k = Some i -> k ∈ all_keys /\ (i < length V0)%nat) /\
  (forall k, k ∈ all_keys -> is_Some (X !! k)).

(** The finished model of lines 13-99. *)
Definition Built (st : Locals) : Prop :=
  exists V0 X,
    XSpec V0 X /\
    Rep (Some (lin_sum (entry_slack <$> slack_vars st))) V0 X instances st.

End ModelSpec.

(** ** Membership in the comprehensions *)

Ltac in_bind :=
  repeat match goal with
  | H : _ ∈ _ ≫= _ |- _ => apply list_elem_of_bind in H as (? & H & ?)
  | H : _ ∈ (let '(_, _) := ?p in _) |- _ => destruct p
  | H : _ ∈ (if decide ?P then _ else _) |- _ => destruct (decide P)
  | H : _ ∈ [] |- _ => by apply elem_of_nil in H
  | H : _ ∈ [_] |- _ => apply list_elem_of_singleton in H
  end.

Ltac in_insts :=
  repeat match goal with
  | H : _ ∈ _ ++ _ |- _ => apply elem_of_app in H as [H|H]
  | H : _ ∈ _ ≫= _ |- _ => apply list_elem_of_bind in H as (? & H & ?)
  | H : _ ∈ (let '(_, _) := ?p in _) |- _ => destruct p
  | H : _ ∈ [] |- _ => by apply elem_of_nil in H
  | H : _ ∈ [_] |- _ => apply list_elem_of_singleton in H
  | H : _ ∈ _ :: _ |- _ => apply elem_of_cons in H as [H|H]
  | H : _ ∈ match ?o with Some _ => _ | None => _ end |- _ => destruct o
  | H : _ ∈ _ <$> _ |- _ => apply list_elem_of_fmap in H as (? & H & ?)
  end.

(** ** The decision variables (lines 19-26) *)

Section BuildProofs.

Context (rooms batches : list string).
Context (subjects : Dict SubjectInfo) (teachers : Dict TeacherInfo).
Context (fixed_classes : option (list Key)).
Context (max_classes_per_day : Z).

Lemma elem_of_all_keys (k : Key) :
  k ∈ all_keys rooms subjects <->
  exists subj info d s r,
    (subj, info) ∈ subjects /\ d ∈ days /\ s ∈ slots /\ r ∈ rooms /\
    k = (info.(batch_of), subj, d, s, r).
Proof.
  unfold all_keys. split.
  - intros H. in_bind. eauto 10.
  - intros (subj & info & d & s & r & ? & ? & ? & ? & ->).
    apply list_elem_of_bind. exists (subj, info). split; [|done].
    repeat (apply list_elem_of_bind; eexists; split; [|eassumption]).
    by apply list_elem_of_singleton.
Qed.

Lemma valid_key_iff (k : Key) :
  valid_key rooms subjects k = true <-> k ∈ all_keys rooms subjects.
Proof.
  rewrite elem_of_all_keys. unfold valid_key.
  rewrite !andb_true_iff, !bool_decide_eq_true, existsb_exists.
  destruct k as [[[[b subj] d] s] r]. simpl. split.
  - intros [[[([subj' info] & Hin & Heq) Hd] Hs] Hr].
    apply bool_decide_eq_true in Heq as [E1 E2]. unfold key_subj, key_batch in *.
    simpl in *. subst. apply list_elem_of_In in Hin. eauto 10.
  - intros (subj' & info & d' & s' & r' & Hin & ? & ? & ? & Heq).
    simplify_eq. repeat split; try done.
    exists (subj', info). split; [by apply list_elem_of_In|].
    by apply bool_decide_eq_true.
Qed.

Lemma new_decision_var_spec name k done st :
  XInv done st ->
  exists st', (v <- NewBoolVar name ;; x_set k v) st = Ok tt st'
              /\ XInv (done ++ [k]) st'.
Proof.
  intros (Hs & Ht & Ho & Hc & Hobj & Hb & Hx & Hd).
  eexists. split; [reflexivity|]. unfold XInv. simpl.
  split_and!; try done.
  - apply Forall_app. split; [done|]. by repeat constructor.
  - intros k0 i H. rewrite length_app. simpl.
    destruct (decide (k0 = k)) as [->|Hne].
    + rewrite lookup_insert_eq in H. simplify_eq.
      split; [|lia]. apply elem_of_app. right. by left.
    + rewrite lookup_insert_ne in H by done. apply Hx in H as [H1 H2].
      split; [|lia]. apply elem_of_app. by left.
  - intros k' [Hin|Hin%list_elem_of_singleton]%elem_of_app.
    + destruct (decide (k' = k)) as [->|Hne].
      * rewrite lookup_insert_eq. eauto.
      * rewrite lookup_insert_ne by done. eauto.
    + subst. rewrite lookup_insert_eq. eauto.
Qed.

Lemma create_variables_spec :
  exists st, create_variables rooms subjects init = Ok tt st
             /\ XInv (all_keys rooms subjects) st.
Proof.
  unfold create_variables, all_keys.
  apply (for_spec XInv
           (fun '(subj, info) =>
              d ← days; s ← slots; r ← rooms;
              [(batch_of info, subj, d, s, r)]) _ subjects) with (done := []).
  - intros [subj info] done0 s0 _ H0.
    apply (for_spec XInv
             (fun d => s ← slots; r ← rooms;
                       [(batch_of info, subj, d, s, r)])); [|done].
    intros d done1 s1 _ H1.
    apply (for_spec XInv
             (fun s => r ← rooms; [(batch_of info, subj, d, s, r)])); [|done].
    intros s done2 s2 _ H2.
    apply (for_spec XInv (fun r => [(batch_of info, subj, d, s, r)])); [|done].
    intros r done3 s3 _ H3. by apply new_decision_var_spec.
  - unfold XInv, init. simpl. split_and!; try done.
    intros k Hk. by apply elem_of_nil in Hk.
Qed.

(** ** The constraint blocks (lines 31-96) *)

Lemma mapM_x_get_ok st keys :
  Forall (fun k => is_Some (x st !! k)) keys ->
  mapM x_get keys st = Ok (lookup_vars (x st) keys) st.
Proof.
  induction 1 as [|k keys [i Hi] _ IH]; [done|].
  simpl. unfold bind. unfold x_get at 1. by rewrite Hi, IH.
Qed.

Lemma sum_x_ok st keys :
  Forall (fun k => is_Some (x st !! k)) keys ->
  sum_x keys st = Ok (lin_sum (lookup_vars (x st) keys)) st.
Proof.
  intros H. unfold sum_x. by rewrite (bind_Ok _ _ _ _ _ (mapM_x_get_ok _ _ H)).
Qed.

Lemma emit_spec V0 X insts I st :
  Rep rooms subjects max_classes_per_day None V0 X insts st ->
  Forall (fun k => is_Some (X !! k)) (inst_keys rooms subjects I) ->
  exists st', emit rooms subjects max_classes_per_day I st = Ok tt st'
              /\ Rep rooms subjects max_classes_per_day None V0 X
                     (insts ++ [I]) st'.
Proof.
  intros (Hx & Ht & Ho & Hobj & Hv & Hc & Hs) Hk. subst X.
  unfold emit. rewrite (bind_Ok _ _ _ _ _ (sum_x_ok _ _ Hk)).
  eexists. split; [reflexivity|]. unfold Rep. simpl.
  split_and!; try done.
  - by rewrite Hv, fmap_app, app_assoc.
  - rewrite Hc, imap_app. simpl. rewrite Hv, length_app, length_fmap.
    by rewrite Nat.add_0_r.
  - rewrite Hs, imap_app. simpl. rewrite Hv, length_app, length_fmap.
    by rewrite Nat.add_0_r.
Qed.

(** The instances of the five loops over the catalogs sum only keys of
    [x]. *)
Definition inst_wf (I : Instance) : Prop :=
  match I with
  | ISubject subj info => (subj, info) ∈ subjects
  | IBatch _ d s => d ∈ days /\ s ∈ slots
  | IRoom r d s => r ∈ rooms /\ d ∈ days /\ s ∈ slots
  | ITeacherWeek _ _ => True
  | ITeacherDay _ d => d ∈ days
  | IFixed k => k ∈ all_keys rooms subjects
  end.

Lemma inst_keys_all_keys I k :
  inst_wf I -> k ∈ inst_keys rooms subjects I -> k ∈ all_keys rooms subjects.
Proof.
  intros Hwf Hk. destruct I; cbn [inst_keys inst_wf] in *; in_bind; subst;
    try done; destruct_and?; apply elem_of_all_keys; eauto 12.
Qed.

Lemma inst_keys_present V0 X I :
  XSpec rooms subjects V0 X -> inst_wf I ->
  Forall (fun k => is_Some (X !! k)) (inst_keys rooms subjects I).
Proof.
  intros (_ & _ & HX) Hwf. apply Forall_forall. intros k Hk.
  apply HX. by eapply inst_keys_all_keys.
Qed.

Local Abbreviation RepN := (Rep rooms subjects max_classes_per_day None).
Local Abbreviation emit' := (emit rooms subjects max_classes_per_day).

Lemma emit_wf V0 X insts I st :
  XSpec rooms subjects V0 X -> inst_wf I -> RepN V0 X insts st ->
  exists st', emit' I st = Ok tt st' /\ RepN V0 X (insts ++ [I]) st'.
Proof.
  intros HX Hwf HR. apply emit_spec; [done|]. by apply (inst_keys_present V0).
Qed.

Lemma subject_weekly_spec V0 X insts st :
  XSpec rooms subjects V0 X -> RepN V0 X insts st ->
  exists st', subject_weekly rooms subjects st = Ok tt st' /\
    RepN V0 X (insts ++ ('(subj, info) ← subjects; [ISubject subj info])) st'.
Proof.
  intros HX. unfold subject_weekly.
  apply (for_spec (RepN V0 X) (fun '(subj, info) => [ISubject subj info])).
  intros [subj info] done s Hin HR.
  by apply (emit_wf V0 X done (ISubject subj info)).
Qed.

Lemma batch_clash_spec V0 X insts st :
  XSpec rooms subjects V0 X -> RepN V0 X insts st ->
  exists st', batch_clash rooms batches subjects st = Ok tt st' /\
    RepN V0 X (insts ++ (batch ← batches; d ← days; s ← slots;
                         [IBatch batch d s])) st'.
Proof.
  intros HX. unfold batch_clash.
  apply (for_spec (RepN V0 X)
           (fun batch => d ← days; s ← slots; [IBatch batch d s])).
  intros batch done0 s0 _ H0.
  apply (for_spec (RepN V0 X) (fun d => s ← slots; [IBatch batch d s]));
    [|done].
  intros d done1 s1 Hd H1.
  apply (for_spec (RepN V0 X) (fun s => [IBatch batch d s])); [|done].
  intros s done2 s2 Hs H2.
  by apply (emit_wf V0 X done2 (IBatch batch d s)).
Qed.

Lemma room_clash_spec V0 X insts st :
  XSpec rooms subjects V0 X -> RepN V0 X insts st ->
  exists st', room_clash rooms subjects st = Ok tt st' /\
    RepN V0 X (insts ++ (r ← rooms; d ← days; s ← slots; [IRoom r d s])) st'.
Proof.
  intros HX. unfold room_clash.
  apply (for_spec (RepN V0 X) (fun r => d ← days; s ← slots; [IRoom r d s])).
  intros r done0 s0 Hr H0.
  apply (for_spec (RepN V0 X) (fun d => s ← slots; [IRoom r d s])); [|done].
  intros d done1 s1 Hd H1.
  apply (for_spec (RepN V0 X) (fun s => [IRoom r d s])); [|done].
  intros s done2 s2 Hs H2.
  by apply (emit_wf V0 X done2 (IRoom r d s)).
Qed.

Lemma teacher_load_spec V0 X insts st :
  XSpec rooms subjects V0 X -> RepN V0 X insts st ->
  exists st',
    teacher_load rooms subjects teachers max_classes_per_day st = Ok tt st' /\
    RepN V0 X (insts ++ ('(teacher, tinfo) ← teachers;
                         ITeacherWeek teacher tinfo
                         :: (d ← days; [ITeacherDay teacher d]))) st'.
Proof.
  intros HX. unfold teacher_load.
  apply (for_spec (RepN V0 X)
           (fun '(teacher, tinfo) =>
              ITeacherWeek teacher tinfo :: (d ← days; [ITeacherDay teacher d]))).
  intros [teacher tinfo] done0 s0 _ H0.
  destruct (emit_wf V0 X done0 (ITeacherWeek teacher tinfo) s0 HX I H0)
    as (s1 & E1 & H1).
  destruct (for_spec (RepN V0 X) (fun d => [ITeacherDay teacher d])
              (fun d => emit' (ITeacherDay teacher d)) days) with
    (done := done0 ++ [ITeacherWeek teacher tinfo]) (s := s1)
    as (s2 & E2 & H2); [|done|].
  { intros d done1 s' Hd H'. by apply (emit_wf V0 X done1 (ITeacherDay teacher d)). }
  exists s2. split.
  - revert E1 E2. unfold emit, bind.
    destruct (sum_x _ s0) as [lhs s0'|]; [|done]. simpl.
    intros E1. injection E1 as <-. done.
  - by rewrite <- app_assoc in H2.
Qed.

(** The fixed-class tuples the loop of lines 92-96 runs over. *)
Definition pins : list Key :=
  match fixed_classes with Some fcs => fcs | None => [] end.

(** The first fixed-class tuple that names no decision variable. *)
Definition first_invalid : option Key :=
  find (fun k => negb (valid_key rooms subjects k)) pins.

(** The body of the loop of lines 92-96. *)
Definition pin : Key -> M Locals unit :=
  fun '(batch, subj, d, s, r) =>
    lhs <- x_get (batch, subj, d, s, r) ;;
    slack <- NewIntVar 0 1 ("slack_fixed_" +:+ batch +:+ "_" +:+ subj
                            +:+ "_" +:+ d +:+ "_" +:+ str s) ;;
    Add (CEq (lin_add (lin_var lhs) (lin_var slack)) (lin_const 1)) ;;;
    slack_append ("FixedClass", batch,
                  subj +:+ "-" +:+ d +:+ "-" +:+ str s, slack).

Lemma fixed_class_pins_eq st :
  fixed_class_pins fixed_classes st = for_ pins pin st.
Proof. unfold fixed_class_pins, pins. by destruct fixed_classes as [[|]|]. Qed.

Lemma pin_emit k st : pin k st = emit' (IFixed k) st.
Proof.
  destruct k as [[[[b subj] d] s] r]. unfold pin, emit, sum_x. simpl.
  unfold bind, x_get. by destruct (x st !! _).
Qed.

Lemma pin_raise V0 X insts k st :
  XSpec rooms subjects V0 X -> RepN V0 X insts st ->
  valid_key rooms subjects k = false ->
  pin k st = Raise (KeyError k) st.
Proof.
  intros (_ & HX & _) (<- & _) Hk.
  destruct k as [[[[b subj] d] s] r]. unfold pin, bind, x_get.
  destruct (x st !! _) as [i|] eqn:E; [|done].
  apply HX in E as [E _]. apply valid_key_iff in E. congruence.
Qed.

Lemma bind_singleton_fmap {A B} (f : A -> B) (l : list A) :
  (l ≫= fun a => [f a]) = f <$> l.
Proof. induction l as [|a l IH]; [done|]. rewrite bind_cons, IH. done. Qed.

Lemma fixed_loop_ok V0 X insts st :
  XSpec rooms subjects V0 X -> RepN V0 X insts st ->
  first_invalid = None ->
  exists st', for_ pins pin st = Ok tt st' /\
              RepN V0 X (insts ++ (IFixed <$> pins)) st'.
Proof.
  intros HX HR Hnone. rewrite <- bind_singleton_fmap.
  apply (for_spec (RepN V0 X) (fun k => [IFixed k])); [|done].
  intros k done0 s0 Hk H0. rewrite pin_emit.
  apply (emit_wf V0 X done0 (IFixed k)); [done| |done].
  apply valid_key_iff. apply list_elem_of_In in Hk.
  pose proof (find_none _ _ Hnone k Hk) as Hv. simpl in Hv.
  by apply negb_false_iff in Hv.
Qed.

Lemma fixed_loop_raise V0 X k (fcs : list Key) :
  XSpec rooms subjects V0 X ->
  find (fun k => negb (valid_key rooms subjects k)) fcs = Some k ->
  forall insts st, RepN V0 X insts st ->
  exists insts' st', for_ fcs pin st = Raise (KeyError k) st' /\
                     RepN V0 X insts' st'.
Proof.
  intros HX. induction fcs as [|a fcs IH]; intros Hf insts st HR; [done|].
  simpl in Hf. destruct (valid_key rooms subjects a) eqn:Ha; simpl in Hf.
  - destruct (emit_wf V0 X insts (IFixed a) st HX) as (s1 & E1 & H1);
      [by apply valid_key_iff | done |].
    destruct (IH Hf _ _ H1) as (insts' & s2 & E2 & H2).
    exists insts', s2. split; [|done]. simpl.
    rewrite <- pin_emit in E1. by rewrite (bind_Ok _ _ _ _ _ E1).
  - simplify_eq. exists insts, st. split; [|done]. simpl.
    by rewrite (bind_Raise _ _ _ _ _ (pin_raise V0 X insts k st HX HR Ha)).
Qed.

Lemma XInv_start st :
  XInv (all_keys rooms subjects) st ->
  XSpec rooms subjects (variables (model st)) (x st) /\
  RepN (variables (model st)) (x st) [] st.
Proof.
  intros (Hs & Ht & Ho & Hc & Hobj & Hb & Hx & Hd). split.
  - done.
  - unfold Rep. simpl. rewrite app_nil_r. done.
Qed.

Lemma declare_objective_spec V0 X insts st :
  RepN V0 X insts st ->
  exists st', declare_objective st = Ok tt st' /\
    Rep rooms subjects max_classes_per_day
        (Some (lin_sum (entry_slack <$> slack_vars st'))) V0 X insts st'.
Proof.
  intros (Hx & Ht & Ho & Hobj & Hv & Hc & Hs).
  eexists. split; [reflexivity|]. unfold Rep. simpl. split_and!; try done.
  do 2 f_equal. apply list_fmap_ext. by intros ? [[[? ?] ?] ?].
Qed.

(** ** The model as a whole (lines 13-99) *)

Local Abbreviation build :=
  (build_model rooms batches subjects teachers fixed_classes
               max_classes_per_day).
Local Abbreviation Built' :=
  (Built rooms batches subjects teachers fixed_classes max_classes_per_day).

Lemma build_model_cases :
  match first_invalid with
  | None => exists st, build init = Ok tt st /\ Built' st
  | Some k => exists st, build init = Raise (KeyError k) st
                         /\ stdout st = [] /\ timetable st = []
  end.
Proof.
  destruct create_variables_spec as (s0 & E0 & H0).
  apply XInv_start in H0 as [HX H0].
  set (V0 := variables (model s0)) in *. set (X := x s0) in *.
  destruct (subject_weekly_spec V0 X _ _ HX H0) as (s1 & E1 & H1).
  destruct (batch_clash_spec V0 X _ _ HX H1) as (s2 & E2 & H2).
  destruct (room_clash_spec V0 X _ _ HX H2) as (s3 & E3 & H3).
  destruct (teacher_load_spec V0 X _ _ HX H3) as (s4 & E4 & H4).
  assert (Hpre : build init
            = (fixed_class_pins fixed_classes ;;; declare_objective) s4).
  { unfold build_model.
    rewrite (bind_Ok _ _ _ _ _ E0), (bind_Ok _ _ _ _ _ E1).
    by rewrite (bind_Ok _ _ _ _ _ E2), (bind_Ok _ _ _ _ _ E3),
               (bind_Ok _ _ _ _ _ E4). }
  rewrite Hpre.
  destruct first_invalid as [k|] eqn:Hf.
  - destruct (fixed_loop_raise V0 X k pins HX Hf _ _ H4)
      as (insts' & s5 & E5 & H5).
    exists s5. rewrite <- fixed_class_pins_eq in E5.
    rewrite (bind_Raise _ _ _ _ _ E5).
    destruct H5 as (_ & ? & ? & _). done.
  - destruct (fixed_loop_ok V0 X _ _ HX H4 Hf) as (s5 & E5 & H5).
    rewrite <- fixed_class_pins_eq in E5.
    destruct (declare_objective_spec V0 X _ _ H5) as (s6 & E6 & H6).
    exists s6. rewrite (bind_Ok _ _ _ _ _ E5). split; [done|].
    exists V0, X. split; [done|].
    rewrite app_nil_l, <- !app_assoc in H6.
    unfold instances.
    replace (match fixed_classes with
             | Some fcs => IFixed <$> fcs
             | None => []
             end) with (IFixed <$> pins); [done|].
    unfold pins. by destruct fixed_classes.
Qed.

Lemma build_model_ok :
  first_invalid = None -> exists st, build init = Ok tt st /\ Built' st.
Proof. intros H. pose proof build_model_cases as Hc. by rewrite H in Hc. Qed.

Lemma build_model_raise k :
  first_invalid = Some k ->
  exists st, build init = Raise (KeyError k) st
             /\ stdout st = [] /\ timetable st = [].
Proof. intros H. pose proof build_model_cases as Hc. by rewrite H in Hc. Qed.

Lemma build_model_inv u st :
  build init = Ok u st -> Built' st /\ first_invalid = None.
Proof.
  intros E. pose proof build_model_cases as Hc.
  destruct first_invalid as [k|].
  - destruct Hc as (st' & E' & _). congruence.
  - destruct Hc as (st' & E' & HB). split; [|done]. congruence.
Qed.

(** ** Reading the finished model *)

(** The variables a constraint mentions. *)
Definition constraint_vars (c : Constraint) : list Var :=
  match c with
  | CEq l r | CLe l r => (terms l).*2 ++ (terms r).*2
  end.

(** What the constraint of an instance says about the sum [S] of its
    decision variables and the value [z] of its slack. *)
Definition inst_holds (I : Instance) (S z : Z) : Prop :=
  match I with
  | ISubject _ info => S + z = info.(sessions_per_week)
  | IBatch _ _ _ | IRoom _ _ _ => S <= 1 + z
  | ITeacherWeek _ tinfo => S <= tinfo.(max_load) + z
  | ITeacherDay _ _ => S <= max_classes_per_day + z
  | IFixed _ => S + z = 1
  end.

(** The bounds of the slack of an instance. *)
Definition inst_bound (I : Instance) : Z :=
  match I with
  | ISubject _ _ => 10
  | IBatch _ _ _ | IRoom _ _ _ | IFixed _ => 1
  | ITeacherWeek _ _ => 20
  | ITeacherDay _ _ => 5
  end.

Lemma inst_decl_int I : exists name, inst_decl I = IntVar 0 (inst_bound I) name.
Proof. destruct I as [| | | | |[[[[??]?]?]?]]; simpl; eauto. Qed.

Lemma holds_inst_constraint v I vs n :
  holds v (inst_constraint max_classes_per_day I (lin_sum vs) n) = true
  <-> inst_holds I (sum_values v vs) (v n).
Proof.
  destruct I; simpl;
    rewrite ?Z.eqb_eq, ?Z.leb_le, ?eval_lin_add, ?eval_lin_sum,
            ?eval_lin_var, ?eval_lin_const; done.
Qed.

Lemma constraint_vars_inst I vs n i :
  i ∈ constraint_vars (inst_constraint max_classes_per_day I (lin_sum vs) n)
  <-> i ∈ vs \/ i = n.
Proof.
  assert (Hvs : (terms (lin_sum vs)).*2 = vs).
  { rewrite lin_sum_eq. simpl.
    induction vs as [|a vs IH]; [done|]. cbn. by f_equal. }
  destruct I; simpl; rewrite ?fmap_app, ?Hvs; simpl;
    rewrite ?app_nil_r, ?elem_of_app, ?list_elem_of_singleton; done.
Qed.

Section Finished.

Context (obj : option LinExpr) (V0 : list VarDecl) (X : gmap Key Var).
Context (insts : list Instance) (st : Locals).
Context (HX : XSpec rooms subjects V0 X).
Context (HR : Rep rooms subjects max_classes_per_day obj V0 X insts st).

Lemma Rep_x : x st = X.
Proof. by destruct HR. Qed.

Lemma Rep_lookup j I :
  insts !! j = Some I ->
  variables (model st) !! (length V0 + j)%nat = Some (inst_decl I) /\
  constraints (model st) !! j
    = Some (inst_constraint max_classes_per_day I
              (lin_sum (lookup_vars X (inst_keys rooms subjects I)))
              (length V0 + j)%nat) /\
  slack_vars st !! j = Some (inst_entry I (length V0 + j)%nat).
Proof.
  intros Hj. destruct HR as (_ & _ & _ & _ & Hv & Hc & Hs).
  rewrite Hv, Hc, Hs, !list_lookup_imap, Hj. split_and!; try done.
  rewrite lookup_app_r by lia.
  replace (length V0 + j - length V0)%nat with j by lia.
  by rewrite list_lookup_fmap, Hj.
Qed.

Lemma Rep_slack_lookup j e :
  slack_vars st !! j = Some e ->
  exists I, insts !! j = Some I /\ e = inst_entry I (length V0 + j)%nat.
Proof.
  destruct HR as (_ & _ & _ & _ & _ & _ & Hs). rewrite Hs, list_lookup_imap.
  destruct (insts !! j) as [I|]; [|done]. intros [= <-]. eauto.
Qed.

Lemma Rep_constraint_lookup j c :
  constraints (model st) !! j = Some c ->
  exists I, insts !! j = Some I /\
    c = inst_constraint max_classes_per_day I
          (lin_sum (lookup_vars X (inst_keys rooms subjects I)))
          (length V0 + j)%nat.
Proof.
  destruct HR as (_ & _ & _ & _ & _ & Hc & _). rewrite Hc, list_lookup_imap.
  destruct (insts !! j) as [I|]; [|done]. intros [= <-]. eauto.
Qed.

(** Decision variables are boolean variables. *)
Lemma Rep_decision_var k i :
  X !! k = Some i ->
  (i < length V0)%nat /\ exists name, variables (model st) !! i = Some (BoolVar name).
Proof.
  intros Hk. destruct HX as (Hb & Hx & _). apply Hx in Hk as [_ Hi].
  split; [done|]. destruct HR as (_ & _ & _ & _ & Hv & _). rewrite Hv.
  rewrite lookup_app_l by done.
  destruct (lookup_lt_is_Some_2 V0 i Hi) as [d Hd].
  rewrite Forall_forall in Hb.
  specialize (Hb d (list_elem_of_lookup_2 _ _ _ Hd)).
  destruct d; [eauto | done].
Qed.

Lemma lookup_vars_lt keys i :
  i ∈ lookup_vars X keys -> (i < length V0)%nat.
Proof.
  intros (k & _ & Hk)%list_elem_of_omap.
  by apply Rep_decision_var in Hk as [? _].
Qed.

(** In a satisfying assignment a decision variable is 0 or 1. *)
Lemma sat_decision_var v k i :
  satisfies (model st) v -> X !! k = Some i -> 0 <= v i <= 1.
Proof.
  intros Hsat Hk. apply Rep_decision_var in Hk as (_ & name & Hi).
  by apply (in_domain_bool name), (satisfies_domain _ _ _ _ Hsat Hi).
Qed.

(** In a satisfying assignment every instance's constraint holds and its
    slack is within its bounds. *)
Lemma sat_instance v j I :
  satisfies (model st) v -> insts !! j = Some I ->
  inst_holds I (sum_values v (lookup_vars X (inst_keys rooms subjects I)))
             (v (length V0 + j)%nat)
  /\ 0 <= v (length V0 + j)%nat <= inst_bound I.
Proof.
  intros Hsat Hj. destruct (Rep_lookup j I Hj) as (Hv & Hc & _). split.
  - apply holds_inst_constraint. apply (satisfies_holds _ _ _ Hsat).
    by eapply list_elem_of_lookup_2.
  - destruct (inst_decl_int I) as [name Hd]. rewrite Hd in Hv.
    by apply (in_domain_int _ _ name), (satisfies_domain _ _ _ _ Hsat Hv).
Qed.

End Finished.

(** ** Counting true decision variables *)

(** The keys of [X] that satisfy [P] and whose decision variable is true
    under [v]. *)
Definition true_keys (X : gmap Key Var) (v : Valuation) (P : Key -> bool)
    : list Key :=
  (filter (fun kv : Key * Var => P kv.1 && negb (v kv.2 =? 0))
          (map_to_list X)).*1.

(** The value of the variable at a key ([0] when the key is not in [X]). *)
Definition weight (X : gmap Key Var) (v : Valuation) (k : Key) : Z :=
  match X !! k with Some i => v i | None => 0 end.

Definition sumZ {A} (w : A -> Z) (l : list A) : Z :=
  foldr (fun a acc => w a + acc) 0 l.

Lemma true_keys_spec X v P k :
  k ∈ true_keys X v P <-> exists i, X !! k = Some i /\ P k = true /\ v i <> 0.
Proof.
  unfold true_keys. rewrite list_elem_of_fmap. split.
  - intros ([k' i] & -> & Hin). apply list_elem_of_filter in Hin as [HP Hin].
    apply elem_of_map_to_list in Hin. simpl in *.
    apply andb_prop_elim in HP as [HP Hv]. exists i. split_and!; [done| |].
    + by apply Is_true_true.
    + apply negb_prop_elim in Hv. intros Hz. apply Hv.
      apply Is_true_true. by apply Z.eqb_eq.
  - intros (i & Hk & HP & Hv). exists (k, i). split; [done|].
    apply list_elem_of_filter. split; [|by apply elem_of_map_to_list].
    simpl. apply andb_prop_intro. split; [by apply Is_true_true|].
    apply negb_prop_intro. intros Hz. apply Hv.
    apply Is_true_true in Hz. by apply Z.eqb_eq.
Qed.

Lemma true_keys_NoDup X v P : NoDup (true_keys X v P).
Proof.
  unfold true_keys.
  eapply sublist_NoDup; [apply (NoDup_fst_map_to_list X)|].
  apply fmap_sublist, sublist_filter.
Qed.

Lemma sum_values_lookup_vars X v keys :
  sum_values v (lookup_vars X keys) = sumZ (weight X v) keys.
Proof.
  induction keys as [|k keys IH]; [done|].
  cbn [sumZ foldr]. fold (sumZ (weight X v) keys). rewrite <- IH.
  unfold lookup_vars, weight. cbn [omap list_omap].
  destruct (X !! k); simpl; lia.
Qed.

Lemma sumZ_submseteq {A} (w : A -> Z) l1 l2 :
  (forall a, 0 <= w a) -> l1 ⊆+ l2 -> sumZ w l1 <= sumZ w l2.
Proof.
  intros Hw. induction 1 as [|a l1 l2 _ IH|a b l|a l1 l2 _ IH|]; simpl;
    try lia.
  specialize (Hw a). lia.
Qed.

Lemma sumZ_bounds {A} (w : A -> Z) (c : Z) l :
  (forall a, a ∈ l -> w a = c) -> sumZ w l = c * Z.of_nat (length l).
Proof.
  induction l as [|a l IH]; intros Hw; simpl; [lia|].
  rewrite IH by (intros a' Ha'; apply Hw; by right).
  rewrite (Hw a) by (by left). lia.
Qed.

Lemma sumZ_le_length {A} (w : A -> Z) l :
  (forall a, w a <= 1) -> sumZ w l <= Z.of_nat (length l).
Proof.
  intros Hw. induction l as [|a l IH]; simpl; [lia|]. specialize (Hw a). lia.
Qed.

Section Counting.

Context (X : gmap Key Var) (v : Valuation).
Context (Hbool : forall k i, X !! k = Some i -> 0 <= v i <= 1).

Lemma weight_range k : 0 <= weight X v k <= 1.
Proof.
  unfold weight. destruct (X !! k) as [i|] eqn:E; [by eapply Hbool | lia].
Qed.

(** The true keys among [keys] are at most the sum the constraint takes
    over [keys], also when [keys] lists a key several times. *)
Lemma true_count_le_sum P keys :
  (forall k, k ∈ true_keys X v P -> k ∈ keys) ->
  Z.of_nat (length (true_keys X v P)) <= sum_values v (lookup_vars X keys).
Proof.
  intros Hsub. rewrite sum_values_lookup_vars.
  transitivity (sumZ (weight X v) (true_keys X v P)).
  - rewrite (sumZ_bounds _ 1); [lia|].
    intros k (i & Hk & _ & Hv)%true_keys_spec. unfold weight. rewrite Hk.
    specialize (Hbool k i Hk). lia.
  - apply sumZ_submseteq; [intros k; apply weight_range|].
    apply NoDup_submseteq; [apply true_keys_NoDup | done].
Qed.

Lemma sum_le_length keys :
  sum_values v (lookup_vars X keys) <= Z.of_nat (length keys).
Proof.
  rewrite sum_values_lookup_vars. apply sumZ_le_length.
  intros k. apply weight_range.
Qed.

Lemma sum_nonneg keys : 0 <= sum_values v (lookup_vars X keys).
Proof.
  rewrite sum_values_lookup_vars.
  induction keys as [|k keys IH]; simpl; [lia|].
  pose proof (weight_range k). lia.
Qed.

End Counting.

(** ** Where each instance sits *)

Lemma filter_none {A} (P : A -> Prop) `{!forall a, Decision (P a)} (l : list A) :
  (forall a, a ∈ l -> ~ P a) -> filter P l = [].
Proof.
  induction l as [|a l IH]; intros Hno; [done|].
  rewrite filter_cons_False by (apply Hno; by left).
  apply IH. intros b Hb. apply Hno. by right.
Qed.

(** An element that alone satisfies [P] is what [filter P] keeps. *)
Lemma filter_unique {A} (P : A -> Prop) `{!forall a, Decision (P a)}
    (l : list A) (i : nat) (a : A) :
  l !! i = Some a -> P a ->
  (forall j b, l !! j = Some b -> P b -> j = i) ->
  filter P l = [a].
Proof.
  revert i. induction l as [|b l IH]; intros i Hi Pa Huniq; [done|].
  destruct i as [|i]; simpl in Hi.
  - simplify_eq. rewrite filter_cons_True by done. f_equal.
    apply filter_none. intros b [j Hj]%list_elem_of_lookup_1 Pb.
    by specialize (Huniq (S j) b Hj Pb).
  - rewrite filter_cons_False.
    + apply (IH i); [done..|]. intros j b' Hj Pb'.
      specialize (Huniq (S j) b' Hj Pb'). lia.
    + intros Pb. by specialize (Huniq 0%nat b eq_refl Pb).
Qed.

Local Abbreviation insts' :=
  (instances rooms batches subjects teachers fixed_classes).

(** The subject instances are the first [length subjects] instances, in the
    order of the catalog. *)
Lemma instances_subject_lookup j subj info :
  insts' !! j = Some (ISubject subj info) <-> subjects !! j = Some (subj, info).
Proof.
  unfold instances.
  replace (subjects ≫= fun '(subj, info) => [ISubject subj info])
    with ((fun p : string * SubjectInfo => ISubject p.1 p.2) <$> subjects).
  2:{ rewrite <- bind_singleton_fmap. apply list_bind_ext; [|done].
      by intros [??]. }
  destruct (decide (j < length subjects)%nat) as [Hlt|Hge].
  - rewrite lookup_app_l by (by rewrite length_fmap).
    rewrite list_lookup_fmap. destruct (subjects !! j) as [[s i]|]; simpl.
    + split; intros [=]; by subst.
    + done.
  - rewrite lookup_app_r by (rewrite length_fmap; lia).
    rewrite (lookup_ge_None_2 subjects) by lia. split; [|done].
    intros H%list_elem_of_lookup_2. in_insts; done.
Qed.

Lemma instances_subject subj info :
  ISubject subj info ∈ insts' <-> (subj, info) ∈ subjects.
Proof.
  rewrite !list_elem_of_lookup.
  split; intros [j Hj]; exists j; by apply instances_subject_lookup.
Qed.

Lemma instances_batch batch d s :
  IBatch batch d s ∈ insts' <-> batch ∈ batches /\ d ∈ days /\ s ∈ slots.
Proof.
  unfold instances. split.
  - intros H. in_insts; simplify_eq; done.
  - intros (Hb & Hd & Hs). apply elem_of_app. right. apply elem_of_app. left.
    apply list_elem_of_bind. exists batch. split; [|done].
    apply list_elem_of_bind. exists d. split; [|done].
    apply list_elem_of_bind. exists s. split; [|done]. by left.
Qed.

(** The kind of an entry tells the family of its instance. *)
Lemma inst_entry_subject I n who when slack :
  inst_entry I n = ("Subject", who, when, slack) ->
  exists info, I = ISubject who info /\ when = info.(batch_of) /\ slack = n.
Proof.
  destruct I as [| | | | |[[[[??]?]?]?]]; simpl; intros [=]; subst; eauto.
Qed.

Lemma inst_entry_batch I n who when slack :
  inst_entry I n = ("BatchClash", who, when, slack) ->
  exists d s, I = IBatch who d s /\ when = d +:+ "-" +:+ str s /\ slack = n.
Proof.
  destruct I as [| | | | |[[[[??]?]?]?]]; simpl; intros [=]; subst; eauto.
Qed.

(** On the grid the label ["{d}-{s}"] determines day and slot. *)
Lemma when_label_inj d s d' s' :
  d ∈ days -> s ∈ slots -> d' ∈ days -> s' ∈ slots ->
  d +:+ "-" +:+ str s = d' +:+ "-" +:+ str s' -> d = d' /\ s = s'.
Proof.
  assert (Hall : forallb (fun d => forallb (fun s =>
            forallb (fun d' => forallb (fun s' =>
              implb (bool_decide (d +:+ "-" +:+ str s = d' +:+ "-" +:+ str s'))
                    (bool_decide (d = d' /\ s = s')))
            slots) days) slots) days = true) by (vm_compute; reflexivity).
  intros Hd Hs Hd' Hs' Heq. rewrite forallb_forall in Hall.
  specialize (Hall d (proj1 (list_elem_of_In _ _) Hd)).
  rewrite forallb_forall in Hall.
  specialize (Hall s (proj1 (list_elem_of_In _ _) Hs)).
  rewrite forallb_forall in Hall.
  specialize (Hall d' (proj1 (list_elem_of_In _ _) Hd')).
  rewrite forallb_forall in Hall.
  specialize (Hall s' (proj1 (list_elem_of_In _ _) Hs')).
  rewrite (bool_decide_eq_true_2 _ Heq) in Hall. simpl in Hall.
  by apply bool_decide_eq_true in Hall.
Qed.

(** ** Consequences for the finished model *)

Section FinishedModel.

Context (obj : option LinExpr) (V0 : list VarDecl) (X : gmap Key Var).
Context (st : Locals).
Context (HX : XSpec rooms subjects V0 X).
Context (HR : Rep rooms subjects max_classes_per_day obj V0 X insts' st).

(** Every slack variable occurs in exactly one constraint: its own. *)
Lemma slack_constraint_unique j I :
  insts' !! j = Some I ->
  filter (fun c => (length V0 + j)%nat ∈ constraint_vars c)
         (constraints (model st))
  = [inst_constraint max_classes_per_day I
       (lin_sum (lookup_vars X (inst_keys rooms subjects I)))
       (length V0 + j)%nat].
Proof.
  intros Hj. destruct (Rep_lookup _ _ _ _ _ HR j I Hj) as (_ & Hc & _).
  apply (filter_unique _ _ j); [done| |].
  - apply constraint_vars_inst. by right.
  - intros j' c' Hj' Hin.
    destruct (Rep_constraint_lookup _ _ _ _ _ HR j' c' Hj') as (I' & _ & ->).
    apply constraint_vars_inst in Hin as [Hin|Hin]; [|lia].
    apply (lookup_vars_lt _ _ _ _ _ HX HR) in Hin. lia.
Qed.

(** With unique subject names, a subject has exactly one entry of kind
    ["Subject"] in [slack_vars]. *)
Lemma subject_entry_unique j subj info :
  NoDup subjects.*1 -> subjects !! j = Some (subj, info) ->
  filter (fun e => entry_kind e = "Subject" /\ entry_who e = subj)
         (slack_vars st)
  = [("Subject", subj, info.(batch_of), (length V0 + j)%nat)].
Proof.
  intros Hnd Hj.
  pose proof (proj2 (instances_subject_lookup j subj info) Hj) as HI.
  destruct (Rep_lookup _ _ _ _ _ HR j _ HI) as (_ & _ & Hs).
  apply (filter_unique _ _ j); [done..|].
  intros j' [[[kind who] when] slack] Hj' [Hkind Hwho].
  unfold entry_kind, entry_who in *. simpl in *. subst.
  destruct (Rep_slack_lookup _ _ _ _ _ HR j' _ Hj') as (I' & HI' & He).
  symmetry in He. apply inst_entry_subject in He as (info' & -> & _).
  apply instances_subject_lookup in HI'.
  apply (NoDup_lookup (subjects.*1) j' j subj); [done|..];
    rewrite list_lookup_fmap; [by rewrite HI' | by rewrite Hj].
Qed.

(** The decision variables of a subject are those its weekly constraint
    sums. *)
Lemma subject_keys_cover v subj info k :
  NoDup subjects.*1 -> (subj, info) ∈ subjects ->
  k ∈ true_keys X v (fun k => bool_decide (key_subj k = subj)) ->
  k ∈ inst_keys rooms subjects (ISubject subj info).
Proof.
  intros Hnd Hin (i & Hk & HP & _)%true_keys_spec.
  apply bool_decide_eq_true in HP.
  destruct HX as (_ & Hx & _). apply Hx in Hk as [Hk _].
  apply elem_of_all_keys in Hk
    as (subj' & info' & d & s & r & Hin' & Hd & Hs & Hr & ->).
  unfold key_subj in HP. simpl in HP. subst subj'.
  assert (info' = info) as ->.
  { apply list_elem_of_lookup_1 in Hin as [j Hj].
    apply list_elem_of_lookup_1 in Hin' as [j' Hj'].
    assert (j' = j) as ->.
    { apply (NoDup_lookup (subjects.*1) j' j subj); [done|..];
        rewrite list_lookup_fmap; [by rewrite Hj' | by rewrite Hj]. }
    congruence. }
  cbn [inst_keys].
  apply list_elem_of_bind. exists d. split; [|done].
  apply list_elem_of_bind. exists s. split; [|done].
  apply list_elem_of_bind. exists r. split; [|done]. by left.
Qed.

(** The decision variables of a batch at a day and slot are those its
    clash constraint sums. *)
Lemma batch_keys_cover v batch d s k :
  k ∈ true_keys X v (fun k => bool_decide (key_batch k = batch
                                            /\ key_day k = d /\ key_slot k = s)) ->
  k ∈ inst_keys rooms subjects (IBatch batch d s).
Proof.
  intros (i & Hk & HP & _)%true_keys_spec.
  apply bool_decide_eq_true in HP as (Hb & Hd & Hs).
  destruct HX as (_ & Hx & _). apply Hx in Hk as [Hk _].
  apply elem_of_all_keys in Hk
    as (subj' & info' & d' & s' & r & Hin' & Hd' & Hs' & Hr & ->).
  unfold key_batch, key_day, key_slot in *. simpl in *. subst.
  apply list_elem_of_bind. exists (subj', info'). split; [|done].
  rewrite decide_True by done.
  apply list_elem_of_bind. exists r. split; [|done]. by left.
Qed.

(** An entry of kind ["BatchClash"] labelled with a day and slot of the
    grid belongs to the instance of that batch, day and slot. *)
Lemma batch_entry_instance batch d s slack :
  d ∈ days -> s ∈ slots ->
  ("BatchClash", batch, d +:+ "-" +:+ str s, slack) ∈ slack_vars st ->
  exists j, insts' !! j = Some (IBatch batch d s) /\ slack = (length V0 + j)%nat.
Proof.
  intros Hd Hs [j Hj]%list_elem_of_lookup_1.
  destruct (Rep_slack_lookup _ _ _ _ _ HR j _ Hj) as (I' & HI' & He).
  symmetry in He. apply inst_entry_batch in He as (d' & s' & -> & Hw & ->).
  pose proof (list_elem_of_lookup_2 _ _ _ HI') as Hin.
  apply instances_batch in Hin as (_ & Hd' & Hs').
  destruct (when_label_inj d s d' s' Hd Hs Hd' Hs' Hw) as [-> ->]. eauto.
Qed.

End FinishedModel.

(** ** The empty timetable *)

(** The slack an instance needs when no class is scheduled. *)
Definition zero_slack (I : Instance) : Z :=
  match I with
  | ISubject _ info => info.(sessions_per_week)
  | IBatch _ _ _ | IRoom _ _ _ => 0
  | ITeacherWeek _ tinfo => Z.max 0 (- tinfo.(max_load))
  | ITeacherDay _ _ => Z.max 0 (- max_classes_per_day)
  | IFixed _ => 1
  end.

(** The assignment that schedules nothing: every decision variable is
    false and every slack takes up its whole constraint. *)
Definition empty_schedule (n0 : nat) (insts : list Instance) : Valuation :=
  fun i =>
    if (i <? n0)%nat then 0
    else match insts !! (i - n0)%nat with
         | Some inst => zero_slack inst
         | None => 0
         end.

Lemma instances_teacher_week teacher tinfo :
  ITeacherWeek teacher tinfo ∈ insts' -> (teacher, tinfo) ∈ teachers.
Proof. unfold instances. intros H. in_insts; simplify_eq; done. Qed.

Lemma sum_values_zero (v : Valuation) (vs : list Var) :
  (forall i, i ∈ vs -> v i = 0) -> sum_values v vs = 0.
Proof.
  induction vs as [|i vs IH]; intros Hz; simpl; [done|].
  rewrite IH by (intros i' Hi'; apply Hz; by right).
  rewrite (Hz i) by (by left). lia.
Qed.

Section EmptySchedule.

Context (obj : option LinExpr) (V0 : list VarDecl) (X : gmap Key Var).
Context (st : Locals).
Context (HX : XSpec rooms subjects V0 X).
Context (HR : Rep rooms subjects max_classes_per_day obj V0 X insts' st).
Context (Hsessions : forall subj info,
           (subj, info) ∈ subjects -> 0 <= info.(sessions_per_week) <= 10).
Context (Hload : forall teacher tinfo,
           (teacher, tinfo) ∈ teachers -> -20 <= tinfo.(max_load)).
Context (Hday : -5 <= max_classes_per_day).

Lemma zero_slack_range I :
  I ∈ insts' -> 0 <= zero_slack I <= inst_bound I.
Proof.
  intros Hin. destruct I as [subj info| | |teacher tinfo| |]; simpl; try lia.
  - apply (Hsessions subj). by apply instances_subject.
  - apply instances_teacher_week, Hload in Hin. lia.
Qed.

Lemma zero_slack_holds I : inst_holds I 0 (zero_slack I).
Proof. destruct I; simpl; lia. Qed.

Lemma empty_schedule_sat :
  satisfies (model st) (empty_schedule (length V0) insts').
Proof.
  apply satisfies_iff. split.
  - intros i d Hi. destruct HR as (_ & _ & _ & _ & Hv & _).
    rewrite Hv in Hi. unfold empty_schedule.
    destruct (Nat.ltb_spec i (length V0)) as [Hlt|Hge].
    + rewrite lookup_app_l in Hi by done. destruct HX as (Hb & _).
      rewrite Forall_forall in Hb.
      specialize (Hb d (list_elem_of_lookup_2 _ _ _ Hi)).
      by destruct d.
    + rewrite lookup_app_r, list_lookup_fmap in Hi by done.
      destruct (insts' !! (i - length V0)%nat) as [I|] eqn:HI; [|done].
      simpl in Hi. simplify_eq.
      destruct (inst_decl_int I) as [name ->]. apply in_domain_int.
      apply zero_slack_range. by eapply list_elem_of_lookup_2.
  - intros c [j Hj]%list_elem_of_lookup_1.
    destruct (Rep_constraint_lookup _ _ _ _ _ HR j c Hj) as (I & HI & ->).
    apply holds_inst_constraint.
    rewrite sum_values_zero.
    + unfold empty_schedule.
      destruct (Nat.ltb_spec (length V0 + j) (length V0)) as [Hlt|Hge]; [lia|].
      replace (length V0 + j - length V0)%nat with j by lia.
      rewrite HI. apply zero_slack_holds.
    + intros i Hi%(lookup_vars_lt _ _ _ _ _ HX HR).
      unfold empty_schedule. by rewrite (proj2 (Nat.ltb_lt _ _) Hi).
Qed.

End EmptySchedule.

(** ** After the solve (lines 101-136) *)

Context (solver : Solver).

Local Abbreviation solve :=
  (solve_timetable_debug solver rooms batches subjects teachers fixed_classes
                         max_classes_per_day).

(** The state a call ends in, returned or raised. *)
Definition final_state {S A} (r : Res S A) : S :=
  match r with Ok _ s | Raise _ s => s end.

Definition with_stdout (out : list string) (st : Locals) : Locals :=
  MkLocals (model st) (x st) (slack_vars st) (timetable st) out.

(** The statuses line 105 accepts. *)
Definition accepted (status : Status) : bool :=
  status_eqb status OPTIMAL || status_eqb status FEASIBLE.

(** The line printed for a violated instance. *)
Definition violation_line (e : SlackEntry) (val : Z) : string :=
  "⚠️ Violation -> " +:+ entry_kind e +:+ " | " +:+ entry_who e +:+ " | "
  +:+ entry_when e +:+ " | slack=" +:+ str val.

(** The entries whose slack is positive under [v]. *)
Definition reported (v : Valuation) (svs : list SlackEntry) : list SlackEntry :=
  filter (fun e => 0 < v (entry_slack e)) svs.

(** The lines of the constraint check. *)
Definition report (v : Valuation) (svs : list SlackEntry) : list string :=
  (newline +:+ "🔍 Constraint check:")
  :: ((fun e => violation_line e (v (entry_slack e))) <$> reported v svs).

Lemma with_stdout_id st : with_stdout (stdout st) st = st.
Proof. by destruct st. Qed.

Lemma report_loop (v : Valuation) svs st :
  for_ svs (fun '(kind, who, when, slack) =>
              let val := v slack in
              if 0 <? val
              then print ("⚠️ Violation -> " +:+ kind +:+ " | " +:+ who +:+ " | "
                          +:+ when +:+ " | slack=" +:+ str val)
              else ret tt) st
  = Ok tt (with_stdout
             (stdout st ++ ((fun e => violation_line e (v (entry_slack e)))
                            <$> reported v svs)) st).
Proof.
  revert st. induction svs as [|[[[kind who] when] slack] svs IH]; intros st.
  - simpl. unfold ret. by rewrite app_nil_r, with_stdout_id.
  - cbn [for_]. unfold bind at 1. unfold reported in *.
    destruct (Z.ltb_spec 0 (v slack)) as [Hpos|Hneg].
    + rewrite filter_cons_True by done. unfold print, modify. rewrite IH.
      f_equal. unfold with_stdout. simpl. by rewrite <- app_assoc.
    + rewrite filter_cons_False by (simpl; lia). unfold ret. by rewrite IH.
Qed.

Lemma report_violations_spec v st :
  report_violations v st
  = Ok tt (with_stdout (stdout st ++ report v (slack_vars st)) st).
Proof.
  unfold report_violations, bind, print, modify, gets. rewrite report_loop.
  f_equal. unfold with_stdout, report. simpl. by rewrite <- app_assoc.
Qed.

(** Building the table reads [x] and appends to [timetable]; it prints
    nothing. *)
Lemma build_timetable_keeps v st :
  let st' := final_state (build_timetable rooms batches subjects v st) in
  stdout st' = stdout st /\ x st' = x st.
Proof.
  set (P := fun s : Locals => stdout s = stdout st /\ x s = x st).
  assert (H : match build_timetable rooms batches subjects v st with
              | Ok _ s' | Raise _ s' => P s'
              end).
  { unfold build_timetable.
    apply (for_preserves P); [|done]. intros d s0 H0.
    apply (for_preserves P); [|done]. intros s s1 H1.
    apply (for_preserves P); [|done]. intros batch s2 H2.
    apply (for_preserves P); [|done]. intros [subj info] s3 H3.
    apply (for_preserves P); [|done]. intros r s4 H4.
    unfold bind, x_get. destruct (x s4 !! _); [|done].
    by destruct (negb _). }
  simpl. by destruct (build_timetable _ _ _ _ _).
Qed.

Lemma sort_values_keeps st : final_state (sort_values st) = st.
Proof. unfold sort_values. by destruct (timetable st). Qed.

(** The two ways the function goes on after the solve. *)
Lemma solve_after_build st status v :
  build init = Ok tt st -> solver (model st) = (status, v) ->
  solve init
  = if accepted status
    then (build_timetable rooms batches subjects v ;;;
          df <- sort_values ;; ret (Some df))
           (with_stdout (stdout st ++ report v (slack_vars st)) st)
    else Ok None (with_stdout (stdout st ++ ["❌ Still no solution."]) st).
Proof.
  intros Hb Hs. unfold solve_timetable_debug.
  rewrite (bind_Ok _ _ _ _ _ Hb). unfold bind at 1, gets. rewrite Hs.
  fold (accepted status). destruct (accepted status); simpl.
  - by rewrite (bind_Ok _ _ _ _ _ (report_violations_spec v st)).
  - done.
Qed.

Lemma solve_build_raise e st :
  build init = Raise e st -> solve init = Raise e st.
Proof. intros Hb. unfold solve_timetable_debug. by rewrite (bind_Raise _ _ _ _ _ Hb). Qed.

(** What an accepted solve has printed when the call ends, whether it
    returns the table or raises while building it. *)
Lemma solve_stdout st status v :
  build init = Ok tt st -> solver (model st) = (status, v) ->
  accepted status = true ->
  stdout (final_state (solve init)) = stdout st ++ report v (slack_vars st).
Proof.
  intros Hb Hs Hacc. rewrite (solve_after_build st status v Hb Hs), Hacc.
  set (st1 := with_stdout _ st).
  pose proof (build_timetable_keeps v st1) as [Hout _].
  unfold bind at 1.
  destruct (build_timetable rooms batches subjects v st1) as [[] s2|e s2];
    simpl in *; [|done].
  unfold bind. pose proof (sort_values_keeps s2) as Hsort.
  destruct (sort_values s2) as [df s3|e s3]; simpl in *; by subst.
Qed.

(** ** When the table can be built (lines 117-133) *)

Lemma for_Ok_inv {S A} (P : S -> Prop) (body : A -> M S unit) (l : list A) :
  (forall a s, P s -> match body a s with Ok _ s' | Raise _ s' => P s' end) ->
  forall s u s', P s -> for_ l body s = Ok u s' ->
  forall a, a ∈ l -> exists s1 u1 s2, P s1 /\ body a s1 = Ok u1 s2.
Proof.
  intros Hbody. induction l as [|b l IH]; intros s u s' HP E a Ha.
  - by apply elem_of_nil in Ha.
  - simpl in E. apply bind_Ok_inv in E as (u1 & s1 & E1 & E2).
    apply elem_of_cons in Ha as [->|Ha]; [by eauto|].
    apply (IH s1 u s'); [|done..]. specialize (Hbody b s HP). by rewrite E1 in Hbody.
Qed.

(** The loops of lines 118-123 look up [x] at every batch of [batches]
    paired with every subject of the catalog: they finish only when all
    these keys exist. *)
Lemma build_timetable_Ok_inv v st u st' :
  build_timetable rooms batches subjects v st = Ok u st' ->
  forall d s batch subj info r,
    d ∈ days -> s ∈ slots -> batch ∈ batches -> (subj, info) ∈ subjects ->
    r ∈ rooms -> is_Some (x st !! (batch, subj, d, s, r)).
Proof.
  intros E d s batch subj info r Hd Hs Hb Hsubj Hr.
  set (P := fun s : Locals => x s = x st).
  assert (Hrow : forall b' subj' (info' : SubjectInfo) d' s' r' s0, P s0 ->
    match (i <- x_get (b', subj', d', s', r') ;;
           if negb (v i =? 0)
           then timetable_append (MkRow d' s' b' subj' info'.(teacher_of) r')
           else ret tt) s0
    with Ok _ s1 | Raise _ s1 => P s1 end).
  { intros b' subj' info' d' s' r' s0 H0. unfold bind, x_get.
    destruct (x s0 !! _); [|done]. by destruct (negb _). }
  unfold build_timetable in E.
  eapply (for_Ok_inv P) in E as (s1 & u1 & s1' & H1 & E1); [|clear E|done|exact Hd].
  2:{ intros ? ? ?. apply (for_preserves P); [|done]. intros ? ? ?.
      apply (for_preserves P); [|done]. intros ? ? ?.
      apply (for_preserves P); [|done]. intros [??] ? ?.
      apply (for_preserves P); [|done]. intros ? ? ?. by apply Hrow. }
  eapply (for_Ok_inv P) in E1 as (s2 & u2 & s2' & H2 & E2); [|clear E1|done|exact Hs].
  2:{ intros ? ? ?. apply (for_preserves P); [|done]. intros ? ? ?.
      apply (for_preserves P); [|done]. intros [??] ? ?.
      apply (for_preserves P); [|done]. intros ? ? ?. by apply Hrow. }
  eapply (for_Ok_inv P) in E2 as (s3 & u3 & s3' & H3 & E3); [|clear E2|done|exact Hb].
  2:{ intros ? ? ?. apply (for_preserves P); [|done]. intros [??] ? ?.
      apply (for_preserves P); [|done]. intros ? ? ?. by apply Hrow. }
  eapply (for_Ok_inv P) in E3 as (s4 & u4 & s4' & H4 & E4); [|clear E3|done|exact Hsubj].
  2:{ intros [??] ? ?.
      apply (for_preserves P); [|done]. intros ? ? ?. by apply Hrow. }
  simpl in E4.
  eapply (for_Ok_inv P) in E4 as (s5 & u5 & s5' & H5 & E5); [|clear E4|done|exact Hr].
  2:{ intros ? ? ?. by apply Hrow. }
  unfold bind, x_get in E5. rewrite H5 in E5.
  destruct (x st !! _); [eauto | done].
Qed.

End BuildProofs.

(** ** Further facts about the finished model *)

(** The constraint of a subject, for use below: in every satisfying
    assignment the sum over the subject's keys plus the slack of the
    subject's instance is [sessions_per_week], and the slack is in [0,10]. *)
Lemma subject_weekly_sat rooms batches subjects teachers fixed_classes
    max_classes_per_day obj V0 X st v j subj info :
  Rep rooms subjects max_classes_per_day obj V0 X
      (instances rooms batches subjects teachers fixed_classes) st ->
  subjects !! j = Some (subj, info) ->
  satisfies (model st) v ->
  sum_values v (lookup_vars X (inst_keys rooms subjects (ISubject subj info)))
  + v (length V0 + j)%nat = info.(sessions_per_week)
  /\ 0 <= v (length V0 + j)%nat <= 10.
Proof.
  intros HR Hj Hsat.
  apply (instances_subject_lookup rooms batches subjects teachers
           fixed_classes) in Hj.
  by destruct (sat_instance _ _ _ _ _ _ _ _ HR v j _ Hsat Hj).
Qed.

(** When every fixed-class tuple names a decision variable, the model is
    built and is the state the construction ends in. *)
Lemma build_model_final rooms batches subjects teachers fixed_classes
    max_classes_per_day :
  first_invalid rooms subjects fixed_classes = None ->
  build_model rooms batches subjects teachers fixed_classes
              max_classes_per_day init
  = Ok tt (final_state (build_model rooms batches subjects teachers
                                    fixed_classes max_classes_per_day init)).
Proof.
  intros H.
  destruct (build_model_ok rooms batches subjects teachers fixed_classes
              max_classes_per_day H) as (st & E & _).
  by rewrite E.
Qed.

Lemma subject_keys_length rooms subjects subj info :
  length (inst_keys rooms subjects (ISubject subj info))
  = (25 * length rooms)%nat.
Proof.
  cbn [inst_keys]. unfold days, slots.
  repeat (rewrite bind_cons || rewrite bind_nil || rewrite length_app).
  rewrite !bind_singleton_fmap, !length_fmap. simpl. lia.
Qed.

(** The subject-weekly constraint bounds what can be asked: a model with a
    satisfying assignment has [sessions_per_week] at most 25 × |rooms| + 10
    for every subject. *)
Lemma feasible_sessions_bound rooms batches subjects teachers fixed_classes
    max_classes_per_day st v subj info :
  build_model rooms batches subjects teachers fixed_classes
              max_classes_per_day init = Ok tt st ->
  (subj, info) ∈ subjects ->
  satisfies (model st) v ->
  info.(sessions_per_week) <= 25 * Z.of_nat (length rooms) + 10.
Proof.
  intros Hb Hin Hsat.
  apply build_model_inv in Hb as [(V0 & X & HX & HR) _].
  destruct (list_elem_of_lookup_1 _ _ Hin) as [j Hj].
  destruct (subject_weekly_sat _ _ _ _ _ _ _ _ _ _ v j subj info HR Hj Hsat)
    as [Heq Hslack].
  pose proof (sum_le_length X v
                (fun k i => sat_decision_var _ _ _ _ _ _ _ _ HX HR v k i Hsat)
                (inst_keys rooms subjects (ISubject subj info))) as Hle.
  rewrite subject_keys_length in Hle. lia.
Qed.

(** ** The slack variables of the model *)

(** The indices of the integer variables of a model, in creation order. *)
Definition int_vars (vars : list VarDecl) : list Var :=
  (filter (fun p : nat * VarDecl => is_int p.2) (imap pair vars)).*1.

Lemma filter_all {A} (P : A -> Prop) `{!forall a, Decision (P a)} (l : list A) :
  (forall a, a ∈ l -> P a) -> filter P l = l.
Proof.
  induction l as [|a l IH]; intros Hall; [done|].
  rewrite filter_cons_True by (apply Hall; by left).
  f_equal. apply IH. intros b Hb. apply Hall. by right.
Qed.

Lemma int_vars_layout (V0 D : list VarDecl) :
  Forall is_bool V0 -> Forall (fun d => is_int d = true) D ->
  int_vars (V0 ++ D) = seq (length V0) (length D).
Proof.
  intros HV HD. unfold int_vars. rewrite imap_app, filter_app, fmap_app.
  rewrite filter_none, filter_all; simpl.
  - rewrite fmap_imap. rewrite <- (list_fmap_id (seq _ _)), <- imap_seq.
    apply imap_ext. done.
  - intros [i d] [j Hj]%list_elem_of_lookup_1.
    rewrite list_lookup_imap in Hj.
    destruct (D !! j) as [d'|] eqn:E; simplify_eq/=.
    rewrite Forall_forall in HD. apply Is_true_true, HD.
    by eapply list_elem_of_lookup_2.
  - intros [i d] [j Hj]%list_elem_of_lookup_1.
    rewrite list_lookup_imap in Hj.
    destruct (V0 !! j) as [d'|] eqn:E; simplify_eq/=.
    rewrite Forall_forall in HV.
    specialize (HV d (list_elem_of_lookup_2 _ _ _ E)).
    destruct d; simpl in *; [tauto | done].
Qed.

Lemma entry_slack_inst_entry I n : entry_slack (inst_entry I n) = n.
Proof. by destruct I as [| | | | |[[[[??]?]?]?]]. Qed.

(** In the finished model the slack variables recorded in [slack_vars] are
    exactly the integer variables of the model, each once. *)
Lemma slack_vars_layout rooms subjects max_classes_per_day obj V0 X insts st :
  XSpec rooms subjects V0 X ->
  Rep rooms subjects max_classes_per_day obj V0 X insts st ->
  entry_slack <$> slack_vars st = seq (length V0) (length insts)
  /\ int_vars (variables (model st)) = seq (length V0) (length insts).
Proof.
  intros (Hb & _) (_ & _ & _ & _ & Hv & _ & Hs). split.
  - rewrite Hs, fmap_imap.
    rewrite <- (list_fmap_id (seq _ _)), <- imap_seq.
    apply imap_ext. intros j I _. simpl. apply entry_slack_inst_entry.
  - rewrite Hv, int_vars_layout, length_fmap; [done..|].
    apply Forall_fmap, Forall_forall. intros I _. simpl.
    by destruct (inst_decl_int I) as [name ->].
Qed.

(** With distinct slack variables, the entries of one slack variable among
    those reported: one when its value is positive, none otherwise. *)
Lemma reported_count (v : Valuation) (svs : list SlackEntry) (e : SlackEntry) :
  NoDup (entry_slack <$> svs) -> e ∈ svs ->
  filter (fun e' => entry_slack e' = entry_slack e) (reported v svs)
  = if bool_decide (0 < v (entry_slack e)) then [e] else [].
Proof.
  intros Hnd [j Hj]%list_elem_of_lookup_1. unfold reported.
  rewrite list_filter_filter.
  rewrite (list_filter_iff _
             (fun e' => 0 < v (entry_slack e') /\ entry_slack e' = entry_slack e))
    by (intros; tauto).
  rewrite <- list_filter_filter.
  rewrite (filter_unique (fun e' => entry_slack e' = entry_slack e) svs j e);
    [|done..|].
  - case_bool_decide.
    + by rewrite filter_cons_True.
    + by rewrite filter_cons_False.
  - intros j' e' Hj' Heq.
    apply (NoDup_lookup (entry_slack <$> svs) j' j (entry_slack e)); [done|..];
      rewrite list_lookup_fmap; [rewrite Hj'; simpl; by rewrite Heq | by rewrite Hj].
Qed.

(** Raising one variable by one unit. *)
Definition bump (v : Valuation) (i : Var) : Valuation :=
  fun j => if decide (j = i) then v j + 1 else v j.

Lemma sum_values_bump_notin v i l :
  i ∉ l -> sum_values (bump v i) l = sum_values v l.
Proof.
  induction l as [|j l IH]; intros Hni; simpl; [done|].
  apply not_elem_of_cons in Hni as [Hne Hni]. rewrite IH by done.
  unfold bump. by rewrite decide_False.
Qed.

Lemma sum_values_bump v i l :
  NoDup l -> i ∈ l -> sum_values (bump v i) l = sum_values v l + 1.
Proof.
  induction 1 as [|j l Hj Hnd IH]; intros Hin; [by apply elem_of_nil in Hin|].
  simpl. apply elem_of_cons in Hin as [->|Hin].
  - rewrite sum_values_bump_notin by done. unfold bump.
    rewrite decide_True by done. lia.
  - rewrite IH by done. unfold bump.
    rewrite decide_False by (intros ->; done). lia.
Qed.

Lemma accepted_iff status :
  accepted status = true <-> status = OPTIMAL \/ status = FEASIBLE.
Proof. destruct status; simpl; split; try done; intuition discriminate || auto. Qed.

(** ** The labels of the entries *)

(** What an entry of [slack_vars] is labelled with, family by family:
    (kind, who, when) is ("Subject", subject, its batch), ("BatchClash",
    batch, "day-slot"), ("RoomClash", room, "day-slot"), ("TeacherWeek",
    teacher, "All"), ("TeacherDay", teacher, day) or ("FixedClass", batch,
    "subject-day-slot"). *)
Definition entry_label_ok (rooms batches : list string)
    (subjects : Dict SubjectInfo) (teachers : Dict TeacherInfo)
    (fixed_classes : option (list Key)) (e : SlackEntry) : Prop :=
  (entry_kind e = "Subject" /\
   exists info, (entry_who e, info) ∈ subjects
                /\ entry_when e = info.(batch_of))
  \/ (entry_kind e = "BatchClash" /\ entry_who e ∈ batches /\
      exists d s, d ∈ days /\ s ∈ slots
                  /\ entry_when e = d +:+ "-" +:+ str s)
  \/ (entry_kind e = "RoomClash" /\ entry_who e ∈ rooms /\
      exists d s, d ∈ days /\ s ∈ slots
                  /\ entry_when e = d +:+ "-" +:+ str s)
  \/ (entry_kind e = "TeacherWeek" /\ entry_who e ∈ teachers.*1
      /\ entry_when e = "All")
  \/ (entry_kind e = "TeacherDay" /\ entry_who e ∈ teachers.*1
      /\ entry_when e ∈ days)
  \/ (entry_kind e = "FixedClass" /\
      exists batch subj d s r,
        (batch, subj, d, s, r) ∈ pins fixed_classes
        /\ entry_who e = batch
        /\ entry_when e = subj +:+ "-" +:+ d +:+ "-" +:+ str s).

Lemma inst_entry_label rooms batches subjects teachers fixed_classes I n :
  I ∈ instances rooms batches subjects teachers fixed_classes ->
  entry_label_ok rooms batches subjects teachers fixed_classes
                 (inst_entry I n).
Proof.
  unfold instances, entry_label_ok, pins. intros H.
  in_insts; simplify_eq; cbn.
  - left. eauto.
  - right. left. eauto 10.
  - do 2 right. left. eauto 10.
  - do 3 right. left. split_and!; [done| |done].
    apply list_elem_of_fmap. by eexists (_, _).
  - do 4 right. left. split_and!; [done| |done].
    apply list_elem_of_fmap. by eexists (_, _).
  - do 5 right.
    match goal with H : ?k ∈ _ |- _ => destruct k as [[[[b subj] d] s] r] end.
    cbn. eauto 10.
Qed.

(** ** Building the table *)

Lemma for_cons_Raise {S A} (body : A -> M S unit) a l s e s' :
  body a s = Raise e s' -> for_ (a :: l) body s = Raise e s'.
Proof. intros H. simpl. by rewrite (bind_Raise _ _ _ _ _ H). Qed.

Lemma for_cons_Ok {S A} (body : A -> M S unit) a l s u s1 :
  body a s = Ok u s1 -> for_ (a :: l) body s = for_ l body s1.
Proof. intros H. simpl. by rewrite (bind_Ok _ _ _ _ _ H). Qed.

(** The first lookup of lines 118-123 is at the first batch, the first
    subject and the first room, on Monday's first slot: when that key is
    missing the loops stop there. *)
Lemma build_timetable_first_lookup v st batch batches subj info subjects
    r rooms :
  x st !! (batch, subj, "Mon", 1, r) = None ->
  build_timetable (r :: rooms) (batch :: batches) ((subj, info) :: subjects)
                  v st
  = Raise (KeyError (batch, subj, "Mon", 1, r)) st.
Proof.
  intros Hx. unfold build_timetable, days, slots.
  do 5 apply for_cons_Raise. unfold bind, x_get. by rewrite Hx.
Qed.

(** With one room, when the first subject has a variable under the first
    batch and the second has none, the loops stop at the second subject. *)
Lemma build_timetable_second_lookup v st batch batches subj1 info1 subj2 info2
    subjects r i :
  x st !! (batch, subj1, "Mon", 1, r) = Some i ->
  x st !! (batch, subj2, "Mon", 1, r) = None ->
  exists st',
    build_timetable [r] (batch :: batches)
                    ((subj1, info1) :: (subj2, info2) :: subjects) v st
    = Raise (KeyError (batch, subj2, "Mon", 1, r)) st'.
Proof.
  intros H1 H2. unfold build_timetable, days, slots.
  assert (Hrow : exists s1,
            for_ [r] (fun r0 =>
               v0 <- x_get (batch, subj1, "Mon", 1, r0) ;;
               if negb (v v0 =? 0)
               then timetable_append
                      (MkRow "Mon" 1 batch subj1 info1.(teacher_of) r0)
               else ret tt) st = Ok tt s1 /\ x s1 = x st).
  { simpl. unfold bind, x_get. rewrite H1.
    destruct (negb (v i =? 0)); simpl; eauto. }
  destruct Hrow as (s1 & E1 & Hx1).
  exists s1. do 3 apply for_cons_Raise.
  etransitivity; [eapply for_cons_Ok; exact E1|].
  do 2 apply for_cons_Raise. unfold bind, x_get. by rewrite Hx1, H2.
Qed.

(** The table is returned only when every batch of [batches] owns every
    subject of the catalog (or there is no room): otherwise some
    [x[(batch, subj, d, s, r)]] of line 123 has no variable. *)
Lemma table_needs_every_pair solver rooms batches subjects teachers
    fixed_classes max_classes_per_day df st' :
  solve_timetable_debug solver rooms batches subjects teachers fixed_classes
                        max_classes_per_day init = Ok (Some df) st' ->
  forall batch subj info r,
    batch ∈ batches -> (subj, info) ∈ subjects -> r ∈ rooms ->
    exists info', (subj, info') ∈ subjects /\ info'.(batch_of) = batch.
Proof.
  intros E batch subj info r Hb Hsubj Hr.
  destruct (build_model rooms batches subjects teachers fixed_classes
              max_classes_per_day init) as [[] st|e st] eqn:Hbuild.
  2:{ by rewrite (solve_build_raise _ _ _ _ _ _ _ _ _ Hbuild) in E. }
  destruct (solver (model st)) as [status v] eqn:Hs.
  rewrite (solve_after_build _ _ _ _ _ _ _ st status v Hbuild Hs) in E.
  destruct (accepted status); [|done].
  apply bind_Ok_inv in E as (u & s1 & E1 & _).
  pose proof (build_timetable_Ok_inv _ _ _ _ _ _ _ E1 "Mon" 1 batch subj info r
                ltac:(by left) ltac:(by left) Hb Hsubj Hr) as [i Hi].
  simpl in Hi.
  apply build_model_inv in Hbuild as [(V0 & X & HX & HR) _].
  rewrite (Rep_x _ _ _ _ _ _ _ _ HR) in Hi.
  destruct HX as (_ & HX & _). apply HX in Hi as [Hi _].
  apply elem_of_all_keys in Hi as (subj' & info' & ? & ? & ? & Hin & _ & _ & _ & Heq).
  simplify_eq. eauto.
Qed.

Lemma XSpec_lookup_valid rooms subjects V0 X k :
  XSpec rooms subjects V0 X ->
  valid_key rooms subjects k = true -> is_Some (X !! k).
Proof. intros (_ & _ & HX) Hk. by apply HX, valid_key_iff. Qed.

Lemma XSpec_lookup_invalid rooms subjects V0 X k :
  XSpec rooms subjects V0 X ->
  valid_key rooms subjects k = false -> X !! k = None.
Proof.
  intros (_ & HX & _) Hk. destruct (X !! k) as [i|] eqn:E; [|done].
  apply HX in E as [E _]. apply valid_key_iff in E. congruence.
Qed.

(** An accepted solve ends with the exception the table loops raise. *)
Lemma accepted_solve_raises solver rooms batches subjects teachers
    fixed_classes max_classes_per_day st status v e :
  build_model rooms batches subjects teachers fixed_classes
              max_classes_per_day init = Ok tt st ->
  solver (model st) = (status, v) -> accepted status = true ->
  (forall st1, x st1 = x st ->
     exists st', build_timetable rooms batches subjects v st1 = Raise e st') ->
  exists st',
    solve_timetable_debug solver rooms batches subjects teachers fixed_classes
                          max_classes_per_day init = Raise e st'.
Proof.
  intros Hb Hs Hacc Hraise.
  rewrite (solve_after_build _ _ _ _ _ _ _ st status v Hb Hs), Hacc.
  destruct (Hraise (with_stdout (stdout st ++ report v (slack_vars st)) st)
              eq_refl) as (st' & E).
  exists st'. by rewrite (bind_Raise _ _ _ _ _ E).
Qed.

(** ** The constants of the model and the range of the library *)

Lemma int64_const_iff z :
  int64_const z <-> -9223372036854775808 < z < 9223372036854775807.
Proof. reflexivity. Qed.

(** On [int64_inputs] every constant of every constraint the function adds
    is strictly inside the range: the calls of [model.Add] at lines 35, 49,
    60, 74, 87 and 95 are all calls the library stores as written. *)
Lemma added_constants_in_range rooms batches subjects teachers fixed_classes
    max_classes_per_day st c :
  int64_inputs subjects teachers max_classes_per_day ->
  build_model rooms batches subjects teachers fixed_classes
              max_classes_per_day init = Ok tt st ->
  c ∈ constraints (model st) ->
  Forall int64_const (constraint_consts c).
Proof.
  intros (Hsess & Hload & Hday) Hb [j Hj]%list_elem_of_lookup_1.
  apply build_model_inv in Hb as [(V0 & X & HX & HR) _].
  destruct (Rep_constraint_lookup _ _ _ _ _ _ _ _ HR j c Hj) as (I & HI & ->).
  apply list_elem_of_lookup_2 in HI.
  assert (H0 : int64_const 0) by (apply int64_const_iff; lia).
  assert (H1 : int64_const 1) by (apply int64_const_iff; lia).
  rewrite Forall_forall in Hsess. rewrite Forall_forall in Hload.
  destruct I as [subj info|batch d s|r d s|teacher tinfo|teacher d|k];
    cbn [inst_constraint constraint_consts]; rewrite lin_sum_eq;
    cbn [lin_add lin_var lin_const offset];
    rewrite ?Z.add_0_r; repeat apply Forall_cons_2; try apply Forall_nil_2;
    try assumption.
  - apply instances_subject in HI. exact (Hsess (subj, info) HI).
  - apply instances_teacher_week in HI. exact (Hload (teacher, tinfo) HI).
Qed.

(** ** The reference scenario *)

(** The input of the script's entry point (lines 140-149). *)
Definition main_rooms : list string := ["R1"].
Definition main_batches : list string := ["B1"].
Definition main_subjects : Dict SubjectInfo :=
  [("Math", MkSubject 6 "T1" "B1"); ("Physics", MkSubject 6 "T1" "B1")].
Definition main_teachers : Dict TeacherInfo := [("T1", MkTeacher 12)].
Definition main_fixed : option (list Key) :=
  Some [("B1", "Math", "Mon", 1, "R1")].

(** Its model. *)
Definition main_state : Locals :=
  final_state (build_model main_rooms main_batches main_subjects main_teachers
                           main_fixed 5 init).

(** A timetable for it with no violation: Math on Monday's five slots and
    Tuesday's first, Physics on Tuesday's other four slots and Wednesday's
    first two. *)
Definition main_schedule : Valuation :=
  fun i => if (i <? 6)%nat || ((31 <=? i) && (i <? 37))%nat then 1 else 0.

Lemma main_state_built :
  build_model main_rooms main_batches main_subjects main_teachers
              main_fixed 5 init = Ok tt main_state.
Proof. apply build_model_final. vm_compute. reflexivity. Qed.

Lemma main_schedule_sat : satisfies (model main_state) main_schedule.
Proof. vm_compute. reflexivity. Qed.

Lemma main_subjects_NoDup : NoDup main_subjects.*1.
Proof. apply (bool_decide_unpack _). vm_compute. exact I. Qed.

Lemma main_int64 : int64_inputs main_subjects main_teachers 5.
Proof.
  unfold int64_inputs. split_and!; repeat apply Forall_cons_2;
    try apply Forall_nil_2; apply int64_const_iff; simpl; lia.
Qed.

(** A feasible timetable that leaves Math three sessions short: Math on
    Monday's first three slots, Physics on Tuesday's five slots and
    Wednesday's first, and the weekly slack of Math at 3. *)
Definition math_short : Valuation :=
  fun i => if (i <? 3)%nat || ((30 <=? i) && (i <? 36))%nat then 1
           else if (i =? 50)%nat then 3 else 0.

Lemma math_short_sat : satisfies (model main_state) math_short.
Proof. vm_compute. reflexivity. Qed.

(** One room and a subject asking for 30 sessions a week. *)
Definition crowded_subjects : Dict SubjectInfo :=
  [("Math", MkSubject 30 "T1" "B1")].
Definition crowded_teachers : Dict TeacherInfo := [("T1", MkTeacher 30)].

Definition crowded_state : Locals :=
  final_state (build_model ["R1"] ["B1"] crowded_subjects crowded_teachers
                           None 5 init).

(** Math in all 25 slots, 5 sessions short. *)
Definition crowded_schedule : Valuation :=
  fun i => if (i <? 25)%nat then 1 else if (i =? 25)%nat then 5 else 0.

(** Two batches, each with one subject of its own: a well-formed input. *)
Definition two_batches : list string := ["B1"; "B2"].
Definition two_subjects : Dict SubjectInfo :=
  [("Math", MkSubject 1 "T1" "B1"); ("Physics", MkSubject 1 "T2" "B2")].
Definition two_teachers : Dict TeacherInfo :=
  [("T1", MkTeacher 5); ("T2", MkTeacher 5)].

Definition two_state : Locals :=
  final_state (build_model ["R1"] two_batches two_subjects two_teachers
                           None 5 init).

(** Math on Monday's first slot, Physics on Monday's second, no slack. *)
Definition two_schedule : Valuation :=
  fun i => if (i =? 0)%nat || (i =? 26)%nat then 1 else 0.

(** This answer satisfies the model and makes two decision variables
    true. *)
Lemma two_schedule_sat :
  satisfies (model two_state) two_schedule
  /\ true_keys (x two_state) two_schedule (fun _ => true)
     ≡ₚ [("B1", "Math", "Mon", 1, "R1"); ("B2", "Physics", "Mon", 2, "R1")].
Proof.
  split; [vm_compute; reflexivity|].
  apply (bool_decide_unpack _). vm_compute. exact I.
Qed.

(** A subject whose batch is not in [batches]. *)
Definition orphan_subjects : Dict SubjectInfo :=
  [("Math", MkSubject 1 "T1" "B2")].

(** The call on the reference scenario, with [main_schedule] as the solver's
    optimal answer: the twelve classes, in the order of the sort. *)
Example main_scenario_table :
  match solve_timetable_debug (fun _ => (OPTIMAL, main_schedule))
          main_rooms main_batches main_subjects main_teachers main_fixed 5 init
  with
  | Ok (Some df) st' =>
      Some ((fun row => (Batch row, Day row, Slot row, Subject row,
                         Teacher row, Room row)) <$> df,
            stdout st')
  | _ => None
  end
  = Some ([("B1", "Mon", 1, "Math", "T1", "R1");
           ("B1", "Mon", 2, "Math", "T1", "R1");
           ("B1", "Mon", 3, "Math", "T1", "R1");
           ("B1", "Mon", 4, "Math", "T1", "R1");
           ("B1", "Mon", 5, "Math", "T1", "R1");
           ("B1", "Tue", 1, "Math", "T1", "R1");
           ("B1", "Tue", 2, "Physics", "T1", "R1");
           ("B1", "Tue", 3, "Physics", "T1", "R1");
           ("B1", "Tue", 4, "Physics", "T1", "R1");
           ("B1", "Tue", 5, "Physics", "T1", "R1");
           ("B1", "Wed", 1, "Physics", "T1", "R1");
           ("B1", "Wed", 2, "Physics", "T1", "R1")],
          [newline +:+ "🔍 Constraint check:"]).
Proof. vm_compute. reflexivity. Qed.

(** * The properties of the specification *)

(** ** Feasibility *)

(** One room, one batch, one subject asking for 36 sessions a week, a
    teacher who may teach 36: the model is built and no assignment
    satisfies it, since 25 decision variables and a slack of at most 10
    cannot add up to 36. *)
Lemma infeasible_model_counterexample :
  let subjects := [("Math", MkSubject 36 "T1" "B1")] in
  let teachers := [("T1", MkTeacher 36)] in
  (forall subj info, (subj, info) ∈ subjects -> 0 <= info.(sessions_per_week))
  /\ (forall teacher tinfo, (teacher, tinfo) ∈ teachers -> 0 <= tinfo.(max_load))
  /\ exists st,
       build_model ["R1"] ["B1"] subjects teachers None 5 init = Ok tt st
       /\ ~ exists v, satisfies (model st) v.
Proof.
  intros subjects teachers. split_and!.
  - intros subj info [[= -> ->]|[]%elem_of_nil]%elem_of_cons. simpl. lia.
  - intros teacher tinfo [[= -> ->]|[]%elem_of_nil]%elem_of_cons. simpl. lia.
  - destruct (build_model_ok ["R1"] ["B1"] subjects teachers None 5 eq_refl)
      as (st & E & _).
    exists st. split; [done|]. intros [v Hsat].
    pose proof (feasible_sessions_bound _ _ _ _ _ _ st v "Math"
                  (MkSubject 36 "T1" "B1") E ltac:(by left) Hsat) as Hle.
    simpl in Hle. lia.
Qed.

(** C1 (as amended) — When every subject asks for between 0 and 10
    sessions a week, every teacher's [max_load] is at least -20 and below
    the largest signed 64-bit integer, [max_classes_per_day] is at least -5
    and below it too, and every fixed-class tuple names a decision variable,
    the model is built and has a satisfying assignment: the empty timetable,
    with each slack taking up its whole constraint.  Every constant of the
    input is then inside the range of the library. *)
Theorem model_feasible_when_slack_absorbs
    (rooms batches : list string) (subjects : Dict SubjectInfo)
    (teachers : Dict TeacherInfo) (fixed_classes : option (list Key))
    (max_classes_per_day : Z) :
  (forall subj info,
     (subj, info) ∈ subjects -> 0 <= info.(sessions_per_week) <= 10) ->
  (forall teacher tinfo,
     (teacher, tinfo) ∈ teachers -> -20 <= tinfo.(max_load) < int64_max) ->
  -5 <= max_classes_per_day < int64_max ->
  (forall k, k ∈ pins fixed_classes -> valid_key rooms subjects k = true) ->
  int64_inputs subjects teachers max_classes_per_day
  /\ exists st,
       build_model rooms batches subjects teachers fixed_classes
                   max_classes_per_day init = Ok tt st
       /\ exists v, satisfies (model st) v.
Proof.
  intros Hsess Hload64 Hday64 Hfixed.
  assert (Hload : forall teacher tinfo,
            (teacher, tinfo) ∈ teachers -> -20 <= tinfo.(max_load))
    by (intros teacher tinfo Hin; by destruct (Hload64 teacher tinfo Hin)).
  assert (Hday : -5 <= max_classes_per_day) by (by destruct Hday64).
  split.
  { unfold int64_inputs. rewrite !Forall_forall. split_and!.
    - intros [subj info] Hin. apply int64_const_iff.
      specialize (Hsess subj info Hin). simpl. lia.
    - intros [teacher tinfo] Hin. specialize (Hload64 teacher tinfo Hin).
      unfold int64_const. simpl. split; [|lia].
      apply Z.lt_le_trans with (-20); [reflexivity | lia].
    - unfold int64_const. split; [|lia].
      apply Z.lt_le_trans with (-5); [reflexivity | lia]. }
  destruct (build_model_ok rooms batches subjects teachers fixed_classes
              max_classes_per_day) as (st & E & V0 & X & HX & HR).
  { unfold first_invalid.
    destruct (find _ (pins fixed_classes)) as [k|] eqn:Hf; [|done].
    destruct (find_some _ _ Hf) as [Hin Hbad].
    apply list_elem_of_In, Hfixed in Hin. by rewrite Hin in Hbad. }
  exists st. split; [done|].
  exists (empty_schedule max_classes_per_day (length V0)
            (instances rooms batches subjects teachers fixed_classes)).
  by eapply empty_schedule_sat.
Qed.

Lemma model_feasible_when_slack_absorbs_witness :
  int64_inputs main_subjects main_teachers 5
  /\ exists st,
       build_model main_rooms main_batches main_subjects main_teachers
                   main_fixed 5 init = Ok tt st
       /\ exists v, satisfies (model st) v.
Proof.
  apply (model_feasible_when_slack_absorbs
           main_rooms main_batches main_subjects main_teachers main_fixed 5).
  - intros subj info Hin.
    refine (proj1 (Forall_forall
                     (fun p : string * SubjectInfo =>
                        0 <= p.2.(sessions_per_week) <= 10) main_subjects)
                  _ (subj, info) Hin).
    repeat constructor; simpl; lia.
  - intros teacher tinfo [[= -> ->]|[]%elem_of_nil]%elem_of_cons. simpl.
    split; [lia | reflexivity].
  - split; [lia | reflexivity].
  - intros k [->|[]%elem_of_nil]%elem_of_cons. vm_compute. reflexivity.
Defined.

(** ** Timetable rows *)

(** With batches B1 and B2 the loops reach (B1, Physics) right after
    (B1, Math): Physics is declared under B2 and has no variable under B1. *)
Lemma two_batches_raise status v :
  accepted status = true ->
  exists st',
    solve_timetable_debug (fun _ => (status, v)) ["R1"] two_batches
                          two_subjects two_teachers None 5 init
    = Raise (KeyError ("B1", "Physics", "Mon", 1, "R1")) st'.
Proof.
  intros Hacc.
  destruct (build_model_ok ["R1"] two_batches two_subjects two_teachers None 5
              eq_refl) as (st & E & V0 & X & HX & HR).
  apply (accepted_solve_raises _ _ _ _ _ _ _ st status v _ E eq_refl Hacc).
  intros st1 Hx1. rewrite (Rep_x _ _ _ _ _ _ _ _ HR) in Hx1.
  destruct (XSpec_lookup_valid _ _ _ _ ("B1", "Math", "Mon", 1, "R1") HX)
    as [i Hi]; [by vm_compute|].
  apply (build_timetable_second_lookup v st1 "B1" ["B2"] "Math" _ "Physics" _
           [] "R1" i); rewrite Hx1; [done|].
  apply (XSpec_lookup_invalid _ _ _ _ _ HX). by vm_compute.
Qed.

(** With the only subject declared under a batch that is not in [batches],
    the very first lookup fails. *)
Lemma orphan_batch_raise status v :
  accepted status = true ->
  exists st',
    solve_timetable_debug (fun _ => (status, v)) ["R1"] ["B1"]
                          orphan_subjects [("T1", MkTeacher 5)] None 5 init
    = Raise (KeyError ("B1", "Math", "Mon", 1, "R1")) st'.
Proof.
  intros Hacc.
  destruct (build_model_ok ["R1"] ["B1"] orphan_subjects [("T1", MkTeacher 5)]
              None 5 eq_refl) as (st & E & V0 & X & HX & HR).
  apply (accepted_solve_raises _ _ _ _ _ _ _ st status v _ E eq_refl Hacc).
  intros st1 Hx1. rewrite (Rep_x _ _ _ _ _ _ _ _ HR) in Hx1.
  exists st1. apply build_timetable_first_lookup. rewrite Hx1.
  apply (XSpec_lookup_invalid _ _ _ _ _ HX). by vm_compute.
Qed.

(** C2 — the code at the failing inputs.  With two batches that each own
    one subject, and with a subject whose batch is not in [batches], every
    accepted solve, whatever the values of the variables, ends in
    [KeyError] at the first batch paired with a subject of another batch:
    no table is returned, so the true decision variables get no row. *)
Theorem timetable_rows_raise_on_foreign_subject (v : Valuation) :
  (exists st',
     solve_timetable_debug (fun _ => (OPTIMAL, v)) ["R1"] two_batches
                           two_subjects two_teachers None 5 init
     = Raise (KeyError ("B1", "Physics", "Mon", 1, "R1")) st')
  /\ (exists st',
        solve_timetable_debug (fun _ => (FEASIBLE, v)) ["R1"] two_batches
                              two_subjects two_teachers None 5 init
        = Raise (KeyError ("B1", "Physics", "Mon", 1, "R1")) st')
  /\ (exists st',
        solve_timetable_debug (fun _ => (OPTIMAL, v)) ["R1"] ["B1"]
                              orphan_subjects [("T1", MkTeacher 5)] None 5 init
        = Raise (KeyError ("B1", "Math", "Mon", 1, "R1")) st')
  /\ (exists st',
        solve_timetable_debug (fun _ => (FEASIBLE, v)) ["R1"] ["B1"]
                              orphan_subjects [("T1", MkTeacher 5)] None 5 init
        = Raise (KeyError ("B1", "Math", "Mon", 1, "R1")) st').
Proof.
  split_and!.
  - exact (two_batches_raise OPTIMAL v eq_refl).
  - exact (two_batches_raise FEASIBLE v eq_refl).
  - exact (orphan_batch_raise OPTIMAL v eq_refl).
  - exact (orphan_batch_raise FEASIBLE v eq_refl).
Qed.

(** ** Malformed fixed classes *)

(** C3 — If some fixed-class tuple names no decision variable (its
    subject is unknown, its batch is not the subject's, or its day, slot or
    room is off the grid), the call raises [KeyError] carrying the first such
    tuple of the list, which is absent from the dictionary [x] of lines
    19-26; this happens while the model is built, whatever the solver, with
    nothing printed and no row made. *)
Theorem invalid_fixed_class_fails_fast
    (solver : Solver) (rooms batches : list string)
    (subjects : Dict SubjectInfo) (teachers : Dict TeacherInfo)
    (fcs : list Key) (max_classes_per_day : Z) (k : Key) :
  k ∈ fcs -> valid_key rooms subjects k = false ->
  exists k' st0 st',
    find (fun k => negb (valid_key rooms subjects k)) fcs = Some k'
    /\ k' ∈ fcs /\ valid_key rooms subjects k' = false
    /\ create_variables rooms subjects init = Ok tt st0
    /\ x st0 !! k' = None
    /\ solve_timetable_debug solver rooms batches subjects teachers (Some fcs)
                             max_classes_per_day init
       = Raise (KeyError k') st'
    /\ stdout st' = [] /\ timetable st' = [].
Proof.
  intros Hin Hbad.
  destruct (find (fun k => negb (valid_key rooms subjects k)) fcs)
    as [k'|] eqn:Hf.
  2:{ apply list_elem_of_In in Hin.
      pose proof (find_none _ _ Hf k Hin) as Hk. simpl in Hk.
      by rewrite Hbad in Hk. }
  destruct (find_some _ _ Hf) as [Hin' Hbad'].
  apply list_elem_of_In in Hin'. apply negb_true_iff in Hbad'.
  destruct (create_variables_spec rooms subjects) as (st0 & E0 & H0).
  destruct (build_model_raise rooms batches subjects teachers (Some fcs)
              max_classes_per_day k' Hf) as (st' & E & Hout & Htt).
  exists k', st0, st'. split_and!; try done.
  - destruct (x st0 !! k') as [i|] eqn:Hx; [|done].
    destruct H0 as (_ & _ & _ & _ & _ & _ & H0 & _).
    apply H0 in Hx as [Hx _]. apply valid_key_iff in Hx. congruence.
  - by apply solve_build_raise.
Qed.

Lemma invalid_fixed_class_fails_fast_witness :
  exists st',
    solve_timetable_debug (fun _ => (OPTIMAL, main_schedule))
      main_rooms main_batches main_subjects main_teachers
      (Some [("B1", "Math", "Mon", 1, "R1"); ("B1", "Chemistry", "Sat", 7, "R9")])
      5 init
    = Raise (KeyError ("B1", "Chemistry", "Sat", 7, "R9")) st'.
Proof.
  destruct (invalid_fixed_class_fails_fast
              (fun _ => (OPTIMAL, main_schedule))
              main_rooms main_batches main_subjects main_teachers
              [("B1", "Math", "Mon", 1, "R1");
               ("B1", "Chemistry", "Sat", 7, "R9")]
              5 ("B1", "Chemistry", "Sat", 7, "R9")
              ltac:(right; left) ltac:(vm_compute; reflexivity))
    as (k' & st0 & st' & Hf & _ & _ & _ & _ & E & _).
  vm_compute in Hf. injection Hf as <-. by exists st'.
Defined.

(** ** Subject weekly requirement *)



(** ** Solve failure *)

(** C5 — When the solver reports neither OPTIMAL nor FEASIBLE, the call
    prints the failure line and returns [None]: no table, and no row was
    appended. *)
Theorem no_solution_returns_none
    (solver : Solver) (rooms batches : list string)
    (subjects : Dict SubjectInfo) (teachers : Dict TeacherInfo)
    (fixed_classes : option (list Key)) (max_classes_per_day : Z)
    (st : Locals) (status : Status) (v : Valuation) :
  build_model rooms batches subjects teachers fixed_classes
              max_classes_per_day init = Ok tt st ->
  solver (model st) = (status, v) ->
  status <> OPTIMAL -> status <> FEASIBLE ->
  exists st',
    solve_timetable_debug solver rooms batches subjects teachers fixed_classes
                          max_classes_per_day init = Ok None st'
    /\ stdout st' = ["❌ Still no solution."] /\ timetable st' = [].
Proof.
  intros Hb Hs Hno Hnf.
  rewrite (solve_after_build _ _ _ _ _ _ _ st status v Hb Hs).
  assert (accepted status = false) as ->.
  { apply not_true_is_false. intros [?|?]%accepted_iff; done. }
  apply build_model_inv in Hb as [(V0 & X & HX & HR) _].
  destruct HR as (_ & Ht & Ho & _).
  eexists. split; [done|]. simpl. by rewrite Ho, Ht.
Qed.

Lemma no_solution_returns_none_witness :
  exists st',
    solve_timetable_debug (fun _ => (UNKNOWN, main_schedule))
      main_rooms main_batches main_subjects main_teachers main_fixed 5 init
    = Ok None st'
    /\ stdout st' = ["❌ Still no solution."].
Proof.
  destruct (no_solution_returns_none
              (fun _ => (UNKNOWN, main_schedule))
              main_rooms main_batches main_subjects main_teachers main_fixed 5
              main_state UNKNOWN main_schedule
              main_state_built eq_refl
              ltac:(discriminate) ltac:(discriminate))
    as (st' & E & Hout & _).
  exists st'. split; [exact E | exact Hout].
Defined.

(** ** Diagnostics *)

(** On the reference scenario, a feasible answer that leaves Math three
    sessions short prints a violation whose label is the batch "B1": neither
    a day-slot label of the grid nor "All". *)
Lemma report_label_counterexample :
  satisfies (model main_state) math_short
  /\ exists e,
    e ∈ slack_vars main_state
    /\ 0 < math_short (entry_slack e)
    /\ violation_line e (math_short (entry_slack e))
       ∈ stdout (final_state
                   (solve_timetable_debug (fun _ => (FEASIBLE, math_short))
                      main_rooms main_batches main_subjects main_teachers
                      main_fixed 5 init))
    /\ violation_line e (math_short (entry_slack e))
       = "⚠️ Violation -> Subject | Math | B1 | slack=3"
    /\ entry_when e <> "All"
    /\ forall d s, d ∈ days -> s ∈ slots ->
         entry_when e <> d +:+ "-" +:+ str s.
Proof.
  split; [exact math_short_sat|].
  exists ("Subject", "Math", "B1", 50%nat). split_and!.
  - apply (bool_decide_unpack _). vm_compute. exact I.
  - reflexivity.
  - pose proof (solve_stdout main_rooms main_batches main_subjects
                  main_teachers main_fixed 5 (fun _ => (FEASIBLE, math_short))
                  main_state FEASIBLE math_short
                  main_state_built eq_refl eq_refl) as Hout.
    rewrite Hout. apply (bool_decide_unpack _). vm_compute. exact I.
  - vm_compute. reflexivity.
  - discriminate.
  - intros d s Hd Hs.
    assert (Hall : Forall (fun d => Forall (fun s =>
              "B1" <> d +:+ "-" +:+ str s) slots) days).
    { apply (bool_decide_unpack _). vm_compute. exact I. }
    rewrite Forall_forall in Hall. specialize (Hall d Hd).
    rewrite Forall_forall in Hall. exact (Hall s Hs).
Qed.

(** C6 (as amended) — After an accepted solve the report is complete:
    what the call has printed is the header followed by one violation line,
    naming kind, who, the entry's label and the slack value, for each entry
    of [slack_vars] whose slack is positive, in order; [slack_vars] holds
    every integer (slack) variable of the model exactly once, so each slack
    variable has exactly one line when its value is positive and none when
    it is not; and the label is the batch for a subject requirement,
    "day-slot" for a clash, "All" for a teacher's week, the day for a
    teacher's day and "subject-day-slot" for a fixed class. *)
Theorem diagnostic_report_complete
    (solver : Solver) (rooms batches : list string)
    (subjects : Dict SubjectInfo) (teachers : Dict TeacherInfo)
    (fixed_classes : option (list Key)) (max_classes_per_day : Z)
    (st : Locals) (status : Status) (v : Valuation) :
  build_model rooms batches subjects teachers fixed_classes
              max_classes_per_day init = Ok tt st ->
  solver (model st) = (status, v) ->
  status = OPTIMAL \/ status = FEASIBLE ->
  let positive := filter (fun e => 0 < v (entry_slack e)) (slack_vars st) in
  stdout (final_state (solve_timetable_debug solver rooms batches subjects
                         teachers fixed_classes max_classes_per_day init))
    = (newline +:+ "🔍 Constraint check:")
      :: ((fun e => violation_line e (v (entry_slack e))) <$> positive)
  /\ entry_slack <$> slack_vars st = int_vars (variables (model st))
  /\ NoDup (entry_slack <$> slack_vars st)
  /\ (forall e, e ∈ slack_vars st ->
        filter (fun e' => entry_slack e' = entry_slack e) positive
        = if bool_decide (0 < v (entry_slack e)) then [e] else [])
  /\ (forall e, e ∈ slack_vars st ->
        entry_label_ok rooms batches subjects teachers fixed_classes e).
Proof.
  intros Hb Hs Hacc positive. apply accepted_iff in Hacc.
  rewrite (solve_stdout _ _ _ _ _ _ _ st status v Hb Hs Hacc).
  apply build_model_inv in Hb as [(V0 & X & HX & HR) _].
  destruct (slack_vars_layout _ _ _ _ _ _ _ _ HX HR) as [Hsl Hint].
  assert (Hnd : NoDup (entry_slack <$> slack_vars st))
    by (rewrite Hsl; apply NoDup_seq).
  split_and!.
  - destruct HR as (_ & _ & -> & _). done.
  - by rewrite Hsl, Hint.
  - done.
  - intros e He. by apply reported_count.
  - intros e [j Hj]%list_elem_of_lookup_1.
    destruct (Rep_slack_lookup _ _ _ _ _ _ _ _ HR j e Hj) as (I & HI & ->).
    apply inst_entry_label. by eapply list_elem_of_lookup_2.
Qed.

Lemma diagnostic_report_complete_witness :
  stdout (final_state
            (solve_timetable_debug (fun _ => (FEASIBLE, math_short))
               main_rooms main_batches main_subjects main_teachers
               main_fixed 5 init))
  = [newline +:+ "🔍 Constraint check:";
     "⚠️ Violation -> Subject | Math | B1 | slack=3"].
Proof.
  destruct (diagnostic_report_complete
              (fun _ => (FEASIBLE, math_short))
              main_rooms main_batches main_subjects main_teachers main_fixed 5
              main_state FEASIBLE math_short
              main_state_built eq_refl (or_intror eq_refl)) as (Hout & _).
  etransitivity; [exact Hout|]. vm_compute. reflexivity.
Defined.

(** ** Objective *)

(** C7 — The objective declared to the solver is the sum, with
    coefficient 1 and no constant, of the slack variables of [slack_vars],
    which are all the integer (slack) variables of the model, each once,
    the [j]-th one being the slack of the [j]-th constraint and of no other:
    its value is the plain sum of the slack values, and raising any one
    slack by one unit, whatever its family, raises it by exactly one. *)
Theorem objective_is_unweighted_total_slack
    (rooms batches : list string) (subjects : Dict SubjectInfo)
    (teachers : Dict TeacherInfo) (fixed_classes : option (list Key))
    (max_classes_per_day : Z) (st : Locals) :
  build_model rooms batches subjects teachers fixed_classes
              max_classes_per_day init = Ok tt st ->
  exists obj,
    objective (model st) = Some obj
    /\ obj = MkLin ((fun e => (1, entry_slack e)) <$> slack_vars st) 0
    /\ entry_slack <$> slack_vars st = int_vars (variables (model st))
    /\ NoDup (entry_slack <$> slack_vars st)
    /\ length (constraints (model st)) = length (slack_vars st)
    /\ (forall j e, slack_vars st !! j = Some e ->
          exists c,
            constraints (model st) !! j = Some c
            /\ filter (fun c' => entry_slack e ∈ constraint_vars c')
                      (constraints (model st)) = [c])
    /\ (forall v, eval v obj = sum_values v (entry_slack <$> slack_vars st))
    /\ (forall v e, e ∈ slack_vars st ->
          eval (bump v (entry_slack e)) obj = eval v obj + 1).
Proof.
  intros Hb. apply build_model_inv in Hb as [(V0 & X & HX & HR) _].
  destruct (slack_vars_layout _ _ _ _ _ _ _ _ HX HR) as [Hsl Hint].
  assert (Hnd : NoDup (entry_slack <$> slack_vars st))
    by (rewrite Hsl; apply NoDup_seq).
  exists (lin_sum (entry_slack <$> slack_vars st)). split_and!.
  - by destruct HR as (_ & _ & _ & -> & _).
  - rewrite lin_sum_eq. f_equal. by rewrite <- list_fmap_compose.
  - by rewrite Hsl, Hint.
  - done.
  - destruct HR as (_ & _ & _ & _ & _ & -> & ->). by rewrite !length_imap.
  - intros j e Hj.
    destruct (Rep_slack_lookup _ _ _ _ _ _ _ _ HR j e Hj) as (I & HI & ->).
    destruct (Rep_lookup _ _ _ _ _ _ _ _ HR j I HI) as (_ & Hc & _).
    eexists. split; [exact Hc|]. rewrite entry_slack_inst_entry.
    by apply (slack_constraint_unique _ _ _ _ _ _ _ _ _ _ HX HR).
  - intros v. apply eval_lin_sum.
  - intros v e He. rewrite !eval_lin_sum. apply sum_values_bump; [done|].
    by apply list_elem_of_fmap_2.
Qed.

Lemma objective_is_unweighted_total_slack_witness :
  exists obj,
    objective (model main_state) = Some obj
    /\ forall v, eval v obj = sum_values v (entry_slack <$> slack_vars main_state).
Proof.
  destruct (objective_is_unweighted_total_slack
              main_rooms main_batches main_subjects main_teachers main_fixed 5
              main_state main_state_built)
    as (obj & Hobj & _ & _ & _ & _ & _ & Heval & _).
  exists obj. split; [exact Hobj | exact Heval].
Defined.

(** ** Batch clash *)

(** C8 — For every batch of [batches], day and slot, [slack_vars] has a
    batch-clash entry for the triple; the slack of each such entry is an
    integer variable bounded to [0,1], and in every satisfying assignment
    the number of true decision variables of that batch at that day and
    slot, over all subjects and rooms, is at most 1 plus this slack. *)
Theorem batch_clash_bound
    (rooms batches : list string) (subjects : Dict SubjectInfo)
    (teachers : Dict TeacherInfo) (fixed_classes : option (list Key))
    (max_classes_per_day : Z) (st : Locals)
    (batch d : string) (s : Z) :
  build_model rooms batches subjects teachers fixed_classes
              max_classes_per_day init = Ok tt st ->
  batch ∈ batches -> d ∈ days -> s ∈ slots ->
  (exists slack,
     ("BatchClash", batch, d +:+ "-" +:+ str s, slack) ∈ slack_vars st) /\
  forall slack,
    ("BatchClash", batch, d +:+ "-" +:+ str s, slack) ∈ slack_vars st ->
    (exists name, variables (model st) !! slack = Some (IntVar 0 1 name)) /\
    forall v, satisfies (model st) v ->
      Z.of_nat (length (true_keys (x st) v
                          (fun k => bool_decide (key_batch k = batch
                                                 /\ key_day k = d
                                                 /\ key_slot k = s))))
      <= 1 + v slack
      /\ 0 <= v slack <= 1.
Proof.
  intros Hb Hbatch Hd Hs.
  apply build_model_inv in Hb as [(V0 & X & HX & HR) _].
  rewrite (Rep_x _ _ _ _ _ _ _ _ HR). split.
  - assert (Hin : IBatch batch d s
                  ∈ instances rooms batches subjects teachers fixed_classes)
      by (by apply instances_batch).
    apply list_elem_of_lookup_1 in Hin as [j Hj].
    destruct (Rep_lookup _ _ _ _ _ _ _ _ HR j _ Hj) as (_ & _ & Hsl).
    exists (length V0 + j)%nat. by eapply list_elem_of_lookup_2.
  - intros slack Hin.
    destruct (batch_entry_instance _ _ _ _ _ _ _ _ _ _ HR batch d s slack
                Hd Hs Hin) as (j & Hj & ->).
    destruct (Rep_lookup _ _ _ _ _ _ _ _ HR j _ Hj) as (Hv & _ & _).
    split; [by eexists|].
    intros v Hsat.
    destruct (sat_instance _ _ _ _ _ _ _ _ HR v j _ Hsat Hj) as [Hh Hr].
    split; [|done]. cbn [inst_holds] in Hh.
    pose proof (true_count_le_sum X v
                  (fun k i => sat_decision_var _ _ _ _ _ _ _ _ HX HR v k i Hsat)
                  (fun k => bool_decide (key_batch k = batch /\ key_day k = d
                                         /\ key_slot k = s))
                  (inst_keys rooms subjects (IBatch batch d s))
                  (batch_keys_cover _ _ _ _ HX v batch d s)).
    lia.
Qed.

Lemma batch_clash_bound_witness :
  exists slack,
    ("BatchClash", "B1", "Tue-3", slack) ∈ slack_vars main_state
    /\ Z.of_nat (length (true_keys (x main_state) main_schedule
                           (fun k => bool_decide (key_batch k = "B1"
                                                  /\ key_day k = "Tue"
                                                  /\ key_slot k = 3))))
       <= 1 + main_schedule slack.
Proof.
  destruct (batch_clash_bound
              main_rooms main_batches main_subjects main_teachers main_fixed 5
              main_state "B1" "Tue" 3 main_state_built
              ltac:(left) ltac:(right; left) ltac:(do 2 right; left))
    as [[slack Hin] Hall].
  exists slack. split; [exact Hin|].
  destruct (Hall slack Hin) as [_ Hsat].
  exact (proj1 (Hsat main_schedule main_schedule_sat)).
Defined.

(** ** Over-subscribed subjects *)

(** One room and a subject asking for 36 sessions a week, more than the 25
    combinations of day, slot and room: the model is built, no assignment
    satisfies it, and with a solver that accepts only satisfying
    assignments the call prints the failure line alone and returns [None];
    no violation is reported. *)
Lemma oversubscribed_unreported_counterexample :
  let subjects := [("Math", MkSubject 36 "T1" "B1")] in
  let teachers := [("T1", MkTeacher 36)] in
  25 * Z.of_nat (length ["R1"]) < 36
  /\ exists st,
       build_model ["R1"] ["B1"] subjects teachers None 5 init = Ok tt st
       /\ (forall v, ~ satisfies (model st) v)
       /\ forall solver : Solver,
            (forall status v, solver (model st) = (status, v) ->
               accepted status = true -> satisfies (model st) v) ->
            exists st',
              solve_timetable_debug solver ["R1"] ["B1"] subjects teachers
                                    None 5 init = Ok None st'
              /\ stdout st' = ["❌ Still no solution."].
Proof.
  intros subjects teachers. split; [simpl; lia|].
  destruct (build_model_ok ["R1"] ["B1"] subjects teachers None 5 eq_refl)
    as (st & E & V0 & X & HX & HR).
  assert (Hunsat : forall v, ~ satisfies (model st) v).
  { intros v Hsat.
    pose proof (feasible_sessions_bound _ _ _ _ _ _ st v "Math"
                  (MkSubject 36 "T1" "B1") E ltac:(by left) Hsat) as Hle.
    simpl in Hle. lia. }
  exists st. split_and!; [done..|].
  intros solver Hsound.
  destruct (solver (model st)) as [status v] eqn:Hs.
  rewrite (solve_after_build ["R1"] ["B1"] subjects teachers None 5 solver
             st status v E Hs).
  destruct (accepted status) eqn:Hacc.
  - destruct (Hunsat v). by apply (Hsound status v).
  - eexists. split; [reflexivity|]. simpl.
    destruct HR as (_ & _ & -> & _). done.
Qed.

(** C9 (as amended) — A subject whose [sessions_per_week] exceeds the
    25 × |rooms| combinations of day, slot and room has one weekly slack;
    every satisfying assignment gives it a strictly positive value, exists
    only when [sessions_per_week] is at most 25 × |rooms| + 10, and when the
    solver's accepted answer is such an assignment the call prints the
    violation line of that slack. *)
Theorem oversubscribed_subject_reported
    (solver : Solver) (rooms batches : list string)
    (subjects : Dict SubjectInfo) (teachers : Dict TeacherInfo)
    (fixed_classes : option (list Key)) (max_classes_per_day : Z)
    (st : Locals) (subj : string) (info : SubjectInfo) :
  NoDup subjects.*1 ->
  build_model rooms batches subjects teachers fixed_classes
              max_classes_per_day init = Ok tt st ->
  (subj, info) ∈ subjects ->
  25 * Z.of_nat (length rooms) < info.(sessions_per_week) ->
  exists slack,
    filter (fun e => entry_kind e = "Subject" /\ entry_who e = subj)
           (slack_vars st)
      = [("Subject", subj, info.(batch_of), slack)]
    /\ forall v, satisfies (model st) v ->
         0 < v slack
         /\ info.(sessions_per_week) <= 25 * Z.of_nat (length rooms) + 10
         /\ forall status,
              solver (model st) = (status, v) ->
              status = OPTIMAL \/ status = FEASIBLE ->
              violation_line ("Subject", subj, info.(batch_of), slack) (v slack)
              ∈ stdout (final_state
                          (solve_timetable_debug solver rooms batches subjects
                             teachers fixed_classes max_classes_per_day init)).
Proof.
  intros Hnd Hb Hin Hover. pose proof Hb as Hb'.
  apply build_model_inv in Hb as [(V0 & X & HX & HR) _].
  destruct (list_elem_of_lookup_1 _ _ Hin) as [j Hj].
  pose proof (subject_entry_unique _ _ _ _ _ _ _ _ _ _ HR j subj info Hnd Hj)
    as Hentry.
  exists (length V0 + j)%nat. split; [done|].
  intros v Hsat.
  destruct (subject_weekly_sat _ _ _ _ _ _ _ _ _ _ v j subj info HR Hj Hsat)
    as [Heq Hslack].
  pose proof (sum_le_length X v
                (fun k i => sat_decision_var _ _ _ _ _ _ _ _ HX HR v k i Hsat)
                (inst_keys rooms subjects (ISubject subj info))) as Hle.
  rewrite subject_keys_length in Hle.
  assert (Hpos : 0 < v (length V0 + j)%nat) by lia.
  split; [done|]. split; [lia|].
  intros status Hs Hacc. apply accepted_iff in Hacc.
  rewrite (solve_stdout _ _ _ _ _ _ _ st status v Hb' Hs Hacc).
  apply elem_of_app. right. unfold report. right.
  apply list_elem_of_fmap.
  exists ("Subject", subj, info.(batch_of), (length V0 + j)%nat).
  split; [done|].
  apply list_elem_of_filter. split; [done|].
  eapply list_elem_of_filter. rewrite Hentry. by left.
Qed.

Lemma oversubscribed_subject_reported_witness :
  exists slack,
    0 < crowded_schedule slack
    /\ violation_line ("Subject", "Math", "B1", slack) (crowded_schedule slack)
       ∈ stdout (final_state
                   (solve_timetable_debug (fun _ => (OPTIMAL, crowded_schedule))
                      ["R1"] ["B1"] crowded_subjects crowded_teachers None 5
                      init)).
Proof.
  destruct (oversubscribed_subject_reported
              (fun _ => (OPTIMAL, crowded_schedule))
              ["R1"] ["B1"] crowded_subjects crowded_teachers None 5
              crowded_state "Math" (MkSubject 30 "T1" "B1")
              ltac:(apply (bool_decide_unpack _); vm_compute; exact I)
              ltac:(apply build_model_final; vm_compute; reflexivity)
              ltac:(by left)
              ltac:(simpl; lia))
    as (slack & _ & Hsat).
  exists slack.
  destruct (Hsat crowded_schedule ltac:(vm_compute; reflexivity))
    as (Hpos & _ & Hline).
  split; [exact Hpos|]. exact (Hline OPTIMAL eq_refl (or_introl eq_refl)).
Defined.

(** ** No over-scheduling *)

(** C10 — In every satisfying assignment of the model, the number of true
    decision variables of a subject (over all batches, days, slots and
    rooms) is at most its [sessions_per_week]. *)
Theorem subject_never_overscheduled
    (rooms batches : list string) (subjects : Dict SubjectInfo)
    (teachers : Dict TeacherInfo) (fixed_classes : option (list Key))
    (max_classes_per_day : Z) (st : Locals) (v : Valuation)
    (subj : string) (info : SubjectInfo) :
  NoDup subjects.*1 ->
  build_model rooms batches subjects teachers fixed_classes
              max_classes_per_day init = Ok tt st ->
  (subj, info) ∈ subjects ->
  satisfies (model st) v ->
  Z.of_nat (length (true_keys (x st) v
                      (fun k => bool_decide (key_subj k = subj))))
  <= info.(sessions_per_week).
Proof.
  intros Hnd Hb Hin Hsat.
  apply build_model_inv in Hb as [(V0 & X & HX & HR) _].
  rewrite (Rep_x _ _ _ _ _ _ _ _ HR).
  destruct (list_elem_of_lookup_1 _ _ Hin) as [j Hj].
  destruct (subject_weekly_sat _ _ _ _ _ _ _ _ _ _ v j subj info HR Hj Hsat)
    as [Heq Hslack].
  pose proof (true_count_le_sum X v
                (fun k i => sat_decision_var _ _ _ _ _ _ _ _ HX HR v k i Hsat)
                (fun k => bool_decide (key_subj k = subj))
                (inst_keys rooms subjects (ISubject subj info))
                (fun k => subject_keys_cover _ _ _ _ HX v subj info k Hnd Hin)).
  lia.
Qed.

Lemma subject_never_overscheduled_witness :
  Z.of_nat (length (true_keys (x main_state) main_schedule
                      (fun k => bool_decide (key_subj k = "Physics")))) <= 6.
Proof.
  apply (subject_never_overscheduled
           main_rooms main_batches main_subjects main_teachers main_fixed 5
           main_state main_schedule "Physics" (MkSubject 6 "T1" "B1")).
  - exact main_subjects_NoDup.
  - exact main_state_built.
  - right. left.
  - exact main_schedule_sat.
Defined.

(** * Further properties of the code *)

(** ** Every family: the slack stays within its declared bound *)

(** The upper bound the code gives to the slack of an entry of each kind
    (lines 34, 48, 59, 73, 86 and 94). *)
Definition kind_bound (kind : string) : Z :=
  if decide (kind = "Subject") then 10
  else if decide (kind = "TeacherWeek") then 20
  else if decide (kind = "TeacherDay") then 5
  else 1.

Lemma inst_bound_kind I n :
  inst_bound I = kind_bound (entry_kind (inst_entry I n)).
Proof. by destruct I as [| | | | |[[[[??]?]?]?]]. Qed.

(** An entry of [slack_vars] is the entry of an instance of the model. *)
Lemma slack_entry_instance rooms subjects max_classes_per_day obj V0 X insts
    st e :
  Rep rooms subjects max_classes_per_day obj V0 X insts st ->
  e ∈ slack_vars st ->
  exists j I, insts !! j = Some I /\ I ∈ insts
              /\ e = inst_entry I (length V0 + j)%nat.
Proof.
  intros HR [j Hj]%list_elem_of_lookup_1.
  destruct (Rep_slack_lookup _ _ _ _ _ _ _ _ HR j e Hj) as (I & HI & ->).
  exists j, I. split_and!; [done| |done]. by eapply list_elem_of_lookup_2.
Qed.

(** A satisfying assignment keeps every recorded slack within the bound of
    its instance. *)
Lemma slack_range rooms subjects max_classes_per_day obj V0 X insts st v e :
  Rep rooms subjects max_classes_per_day obj V0 X insts st ->
  satisfies (model st) v -> e ∈ slack_vars st ->
  0 <= v (entry_slack e) <= kind_bound (entry_kind e).
Proof.
  intros HR Hsat He.
  destruct (slack_entry_instance _ _ _ _ _ _ _ _ _ HR He)
    as (j & I & Hj & _ & ->).
  rewrite entry_slack_inst_entry, <- inst_bound_kind.
  by destruct (sat_instance _ _ _ _ _ _ _ _ HR v j I Hsat Hj).
Qed.

(** X1 — In every satisfying assignment the slack of every entry of
    [slack_vars], whatever its family, is between 0 and the bound of its
    kind, the bounds its variable was created with. *)
Theorem slack_within_declared_bound
    (rooms batches : list string) (subjects : Dict SubjectInfo)
    (teachers : Dict TeacherInfo) (fixed_classes : option (list Key))
    (max_classes_per_day : Z) (st : Locals) (e : SlackEntry) :
  build_model rooms batches subjects teachers fixed_classes
              max_classes_per_day init = Ok tt st ->
  e ∈ slack_vars st ->
  (exists name,
     variables (model st) !! entry_slack e
     = Some (IntVar 0 (kind_bound (entry_kind e)) name))
  /\ forall v, satisfies (model st) v ->
       0 <= v (entry_slack e) <= kind_bound (entry_kind e).
Proof.
  intros Hb He. apply build_model_inv in Hb as [(V0 & X & HX & HR) _].
  destruct (slack_entry_instance _ _ _ _ _ _ _ _ _ HR He)
    as (j & I & Hj & _ & ->).
  rewrite entry_slack_inst_entry, <- inst_bound_kind.
  destruct (Rep_lookup _ _ _ _ _ _ _ _ HR j I Hj) as (Hv & _ & _).
  destruct (inst_decl_int I) as [name Hd]. rewrite Hd in Hv. split.
  - by exists name.
  - intros v Hsat. by destruct (sat_instance _ _ _ _ _ _ _ _ HR v j I Hsat Hj).
Qed.

Lemma slack_within_declared_bound_witness :
  0 <= main_schedule 102%nat <= 20.
Proof.
  refine (proj2 (slack_within_declared_bound
                   main_rooms main_batches main_subjects main_teachers
                   main_fixed 5 main_state ("TeacherWeek", "T1", "All", 102%nat)
                   main_state_built _) main_schedule main_schedule_sat).
  apply (bool_decide_unpack _). vm_compute. exact I.
Defined.

(** ** Room clash (lines 53-61) *)

Lemma instances_room rooms batches subjects teachers fixed_classes r d s :
  IRoom r d s ∈ instances rooms batches subjects teachers fixed_classes
  <-> r ∈ rooms /\ d ∈ days /\ s ∈ slots.
Proof.
  unfold instances. split.
  - intros H. in_insts; simplify_eq; done.
  - intros (Hr & Hd & Hs). apply elem_of_app. right. apply elem_of_app. right.
    apply elem_of_app. left.
    apply list_elem_of_bind. exists r. split; [|done].
    apply list_elem_of_bind. exists d. split; [|done].
    apply list_elem_of_bind. exists s. split; [|done]. by left.
Qed.

Lemma inst_entry_room I n who when slack :
  inst_entry I n = ("RoomClash", who, when, slack) ->
  exists d s, I = IRoom who d s /\ when = d +:+ "-" +:+ str s /\ slack = n.
Proof.
  destruct I as [| | | | |[[[[??]?]?]?]]; simpl; intros [=]; subst; eauto.
Qed.

(** The decision variables of a room at a day and slot are those its clash
    constraint sums. *)
Lemma room_keys_cover rooms subjects V0 X v r d s k :
  XSpec rooms subjects V0 X ->
  k ∈ true_keys X v (fun k => bool_decide (key_room k = r /\ key_day k = d
                                           /\ key_slot k = s)) ->
  k ∈ inst_keys rooms subjects (IRoom r d s).
Proof.
  intros (_ & Hx & _) (i & Hk & HP & _)%true_keys_spec.
  apply bool_decide_eq_true in HP as (Hr & Hd & Hs).
  apply Hx in Hk as [Hk _].
  apply elem_of_all_keys in Hk
    as (subj' & info' & d' & s' & r' & Hin' & Hd' & Hs' & Hr' & ->).
  unfold key_room, key_day, key_slot in *. simpl in *. subst.
  apply list_elem_of_bind. exists (subj', info'). split; [|done]. by left.
Qed.

(** X2 — For every room of [rooms], day and slot, [slack_vars] has a room-clash
    entry; the slack of each such entry is an integer variable bounded to
    [0,1], and in every satisfying assignment the number of true decision
    variables in that room at that day and slot, over all batches and
    subjects, is at most 1 plus this slack. *)
Theorem room_clash_bound
    (rooms batches : list string) (subjects : Dict SubjectInfo)
    (teachers : Dict TeacherInfo) (fixed_classes : option (list Key))
    (max_classes_per_day : Z) (st : Locals)
    (r d : string) (s : Z) :
  build_model rooms batches subjects teachers fixed_classes
              max_classes_per_day init = Ok tt st ->
  r ∈ rooms -> d ∈ days -> s ∈ slots ->
  (exists slack,
     ("RoomClash", r, d +:+ "-" +:+ str s, slack) ∈ slack_vars st) /\
  forall slack,
    ("RoomClash", r, d +:+ "-" +:+ str s, slack) ∈ slack_vars st ->
    (exists name, variables (model st) !! slack = Some (IntVar 0 1 name)) /\
    forall v, satisfies (model st) v ->
      Z.of_nat (length (true_keys (x st) v
                          (fun k => bool_decide (key_room k = r
                                                 /\ key_day k = d
                                                 /\ key_slot k = s))))
      <= 1 + v slack
      /\ 0 <= v slack <= 1.
Proof.
  intros Hb Hr Hd Hs.
  apply build_model_inv in Hb as [(V0 & X & HX & HR) _].
  rewrite (Rep_x _ _ _ _ _ _ _ _ HR). split.
  - assert (Hin : IRoom r d s
                  ∈ instances rooms batches subjects teachers fixed_classes)
      by (by apply instances_room).
    apply list_elem_of_lookup_1 in Hin as [j Hj].
    destruct (Rep_lookup _ _ _ _ _ _ _ _ HR j _ Hj) as (_ & _ & Hsl).
    exists (length V0 + j)%nat. by eapply list_elem_of_lookup_2.
  - intros slack Hin.
    destruct (slack_entry_instance _ _ _ _ _ _ _ _ _ HR Hin)
      as (j & I & Hj & HI & He).
    symmetry in He. apply inst_entry_room in He as (d' & s' & -> & Hw & ->).
    apply instances_room in HI as (_ & Hd' & Hs').
    destruct (when_label_inj d s d' s' Hd Hs Hd' Hs' Hw) as [<- <-].
    destruct (Rep_lookup _ _ _ _ _ _ _ _ HR j _ Hj) as (Hv & _ & _).
    split; [by eexists|].
    intros v Hsat.
    destruct (sat_instance _ _ _ _ _ _ _ _ HR v j _ Hsat Hj) as [Hh Hrange].
    split; [|done]. cbn [inst_holds] in Hh.
    pose proof (true_count_le_sum X v
                  (fun k i => sat_decision_var _ _ _ _ _ _ _ _ HX HR v k i Hsat)
                  (fun k => bool_decide (key_room k = r /\ key_day k = d
                                         /\ key_slot k = s))
                  (inst_keys rooms subjects (IRoom r d s))
                  (fun k => room_keys_cover _ _ _ _ v r d s k HX)).
    lia.
Qed.

Lemma room_clash_bound_witness :
  exists slack,
    ("RoomClash", "R1", "Mon-1", slack) ∈ slack_vars main_state
    /\ Z.of_nat (length (true_keys (x main_state) main_schedule
                           (fun k => bool_decide (key_room k = "R1"
                                                  /\ key_day k = "Mon"
                                                  /\ key_slot k = 1))))
       <= 1 + main_schedule slack.
Proof.
  destruct (room_clash_bound
              main_rooms main_batches main_subjects main_teachers main_fixed 5
              main_state "R1" "Mon" 1 main_state_built
              ltac:(left) ltac:(left) ltac:(left))
    as [[slack Hin] Hall].
  exists slack. split; [exact Hin|].
  destruct (Hall slack Hin) as [_ Hsat].
  exact (proj1 (Hsat main_schedule main_schedule_sat)).
Defined.

(** ** Teacher load (lines 64-88) *)

(** The key belongs to a subject of the catalog taught by [teacher]. *)
Definition taught_by (subjects : Dict SubjectInfo) (teacher : string)
    (k : Key) : bool :=
  existsb (fun '(subj, info) =>
             bool_decide (subj = key_subj k /\ info.(batch_of) = key_batch k
                          /\ info.(teacher_of) = teacher))
          subjects.

Lemma taught_by_spec subjects teacher k :
  taught_by subjects teacher k = true <->
  exists info, (key_subj k, info) ∈ subjects
               /\ info.(batch_of) = key_batch k
               /\ info.(teacher_of) = teacher.
Proof.
  unfold taught_by. rewrite existsb_exists. split.
  - intros ([subj info] & Hin & H). apply bool_decide_eq_true in H as (-> & ? & ?).
    apply list_elem_of_In in Hin. eauto.
  - intros (info & Hin & ? & ?). exists (key_subj k, info).
    split; [by apply list_elem_of_In|]. by apply bool_decide_eq_true.
Qed.

Lemma instances_teacher_week_iff rooms batches subjects teachers fixed_classes
    teacher tinfo :
  ITeacherWeek teacher tinfo
  ∈ instances rooms batches subjects teachers fixed_classes
  <-> (teacher, tinfo) ∈ teachers.
Proof.
  split; [apply instances_teacher_week|]. intros Hin. unfold instances.
  do 3 (apply elem_of_app; right). apply elem_of_app. left.
  apply list_elem_of_bind. exists (teacher, tinfo). split; [by left | done].
Qed.

Lemma instances_teacher_day rooms batches subjects teachers fixed_classes
    teacher d :
  ITeacherDay teacher d
  ∈ instances rooms batches subjects teachers fixed_classes
  <-> teacher ∈ teachers.*1 /\ d ∈ days.
Proof.
  unfold instances. split.
  - intros H. in_insts; simplify_eq. split; [|done].
    apply list_elem_of_fmap. by eexists (_, _).
  - intros [([t tinfo] & -> & Hin)%list_elem_of_fmap Hd].
    do 3 (apply elem_of_app; right). apply elem_of_app. left.
    apply list_elem_of_bind. exists (t, tinfo). split; [|done].
    right. apply list_elem_of_bind. exists d. split; [by left | done].
Qed.

Lemma inst_entry_teacher_week I n who when slack :
  inst_entry I n = ("TeacherWeek", who, when, slack) ->
  exists tinfo, I = ITeacherWeek who tinfo /\ slack = n.
Proof.
  destruct I as [| | | | |[[[[??]?]?]?]]; simpl; intros [=]; subst; eauto.
Qed.

Lemma inst_entry_teacher_day I n who when slack :
  inst_entry I n = ("TeacherDay", who, when, slack) ->
  I = ITeacherDay who when /\ slack = n.
Proof.
  destruct I as [| | | | |[[[[??]?]?]?]]; simpl; intros [=]; subst; eauto.
Qed.

(** The decision variables of a teacher are those the weekly constraint
    sums, and those of one day are those the daily constraint sums. *)
Lemma teacher_week_keys_cover rooms subjects V0 X v teacher tinfo k :
  XSpec rooms subjects V0 X ->
  k ∈ true_keys X v (taught_by subjects teacher) ->
  k ∈ inst_keys rooms subjects (ITeacherWeek teacher tinfo).
Proof.
  intros (_ & Hx & _) (i & Hk & HP & _)%true_keys_spec.
  apply taught_by_spec in HP as (info & Hin & Hb & Ht).
  apply Hx in Hk as [Hk _].
  apply elem_of_all_keys in Hk
    as (subj' & info' & d' & s' & r' & _ & Hd' & Hs' & Hr' & ->).
  unfold key_subj, key_batch in *. simpl in Hin, Hb.
  cbn [inst_keys].
  apply list_elem_of_bind. exists (subj', info). split; [|done].
  rewrite decide_True by done. rewrite Hb.
  apply list_elem_of_bind. exists d'. split; [|done].
  apply list_elem_of_bind. exists s'. split; [|done].
  apply list_elem_of_bind. exists r'. split; [|done]. by left.
Qed.

Lemma teacher_day_keys_cover rooms subjects V0 X v teacher d k :
  XSpec rooms subjects V0 X ->
  k ∈ true_keys X v (fun k => taught_by subjects teacher k
                              && bool_decide (key_day k = d)) ->
  k ∈ inst_keys rooms subjects (ITeacherDay teacher d).
Proof.
  intros (_ & Hx & _) (i & Hk & HP & _)%true_keys_spec.
  apply andb_true_iff in HP as [HP Hd]. apply bool_decide_eq_true in Hd.
  apply taught_by_spec in HP as (info & Hin & Hb & Ht).
  apply Hx in Hk as [Hk _].
  apply elem_of_all_keys in Hk
    as (subj' & info' & d' & s' & r' & _ & Hd' & Hs' & Hr' & ->).
  unfold key_subj, key_batch, key_day in *. simpl in Hin, Hb, Hd. subst d'.
  cbn [inst_keys].
  apply list_elem_of_bind. exists (subj', info). split; [|done].
  rewrite decide_True by done. rewrite Hb.
  apply list_elem_of_bind. exists s'. split; [|done].
  apply list_elem_of_bind. exists r'. split; [|done]. by left.
Qed.

(** X3 — On inputs whose constants are inside the range of the library,
    for every teacher of the catalog [slack_vars] has a weekly-load entry;
    the slack of each such entry is an integer variable bounded to [0,20],
    and in every satisfying assignment the number of true decision variables
    of the subjects the teacher teaches is at most [max_load] plus this
    slack. *)
Theorem teacher_week_bound
    (rooms batches : list string) (subjects : Dict SubjectInfo)
    (teachers : Dict TeacherInfo) (fixed_classes : option (list Key))
    (max_classes_per_day : Z) (st : Locals)
    (teacher : string) (tinfo : TeacherInfo) :
  int64_inputs subjects teachers max_classes_per_day ->
  NoDup teachers.*1 ->
  build_model rooms batches subjects teachers fixed_classes
              max_classes_per_day init = Ok tt st ->
  (teacher, tinfo) ∈ teachers ->
  (exists slack, ("TeacherWeek", teacher, "All", slack) ∈ slack_vars st) /\
  forall slack,
    ("TeacherWeek", teacher, "All", slack) ∈ slack_vars st ->
    (exists name, variables (model st) !! slack = Some (IntVar 0 20 name)) /\
    forall v, satisfies (model st) v ->
      Z.of_nat (length (true_keys (x st) v (taught_by subjects teacher)))
      <= tinfo.(max_load) + v slack
      /\ 0 <= v slack <= 20.
Proof.
  intros _ Hnd Hb Hin.
  apply build_model_inv in Hb as [(V0 & X & HX & HR) _].
  rewrite (Rep_x _ _ _ _ _ _ _ _ HR). split.
  - assert (HI : ITeacherWeek teacher tinfo
                 ∈ instances rooms batches subjects teachers fixed_classes)
      by (by apply instances_teacher_week_iff).
    apply list_elem_of_lookup_1 in HI as [j Hj].
    destruct (Rep_lookup _ _ _ _ _ _ _ _ HR j _ Hj) as (_ & _ & Hsl).
    exists (length V0 + j)%nat. by eapply list_elem_of_lookup_2.
  - intros slack He.
    destruct (slack_entry_instance _ _ _ _ _ _ _ _ _ HR He)
      as (j & I & Hj & HI & Heq).
    symmetry in Heq. apply inst_entry_teacher_week in Heq as (tinfo' & -> & ->).
    apply instances_teacher_week in HI.
    assert (tinfo' = tinfo) as ->.
    { apply list_elem_of_lookup_1 in Hin as [a Ha].
      apply list_elem_of_lookup_1 in HI as [b Hb].
      assert (b = a) as ->.
      { apply (NoDup_lookup (teachers.*1) b a teacher); [done|..];
          rewrite list_lookup_fmap; [by rewrite Hb | by rewrite Ha]. }
      congruence. }
    destruct (Rep_lookup _ _ _ _ _ _ _ _ HR j _ Hj) as (Hv & _ & _).
    split; [by eexists|].
    intros v Hsat.
    destruct (sat_instance _ _ _ _ _ _ _ _ HR v j _ Hsat Hj) as [Hh Hrange].
    split; [|done]. cbn [inst_holds] in Hh.
    pose proof (true_count_le_sum X v
                  (fun k i => sat_decision_var _ _ _ _ _ _ _ _ HX HR v k i Hsat)
                  (taught_by subjects teacher)
                  (inst_keys rooms subjects (ITeacherWeek teacher tinfo))
                  (fun k => teacher_week_keys_cover _ _ _ _ v teacher tinfo k HX)).
    lia.
Qed.

Lemma main_teachers_NoDup : NoDup main_teachers.*1.
Proof. apply (bool_decide_unpack _). vm_compute. exact I. Qed.

Lemma teacher_week_bound_witness :
  exists slack,
    ("TeacherWeek", "T1", "All", slack) ∈ slack_vars main_state
    /\ Z.of_nat (length (true_keys (x main_state) main_schedule
                           (taught_by main_subjects "T1")))
       <= 12 + main_schedule slack.
Proof.
  destruct (teacher_week_bound
              main_rooms main_batches main_subjects main_teachers main_fixed 5
              main_state "T1" (MkTeacher 12)
              main_int64 main_teachers_NoDup main_state_built ltac:(left))
    as [[slack Hin] Hall].
  exists slack. split; [exact Hin|].
  destruct (Hall slack Hin) as [_ Hsat].
  exact (proj1 (Hsat main_schedule main_schedule_sat)).
Defined.

(** X4 — On inputs whose constants are inside the range of the library,
    for every teacher of the catalog and every day [slack_vars] has a
    daily-load entry; the slack of each such entry is an integer variable
    bounded to [0,5], and in every satisfying assignment the number of true
    decision variables of the teacher's subjects on that day is at most
    [max_classes_per_day] plus this slack. *)
Theorem teacher_day_bound
    (rooms batches : list string) (subjects : Dict SubjectInfo)
    (teachers : Dict TeacherInfo) (fixed_classes : option (list Key))
    (max_classes_per_day : Z) (st : Locals)
    (teacher d : string) :
  int64_inputs subjects teachers max_classes_per_day ->
  build_model rooms batches subjects teachers fixed_classes
              max_classes_per_day init = Ok tt st ->
  teacher ∈ teachers.*1 -> d ∈ days ->
  (exists slack, ("TeacherDay", teacher, d, slack) ∈ slack_vars st) /\
  forall slack,
    ("TeacherDay", teacher, d, slack) ∈ slack_vars st ->
    (exists name, variables (model st) !! slack = Some (IntVar 0 5 name)) /\
    forall v, satisfies (model st) v ->
      Z.of_nat (length (true_keys (x st) v
                          (fun k => taught_by subjects teacher k
                                    && bool_decide (key_day k = d))))
      <= max_classes_per_day + v slack
      /\ 0 <= v slack <= 5.
Proof.
  intros _ Hb Hin Hd.
  apply build_model_inv in Hb as [(V0 & X & HX & HR) _].
  rewrite (Rep_x _ _ _ _ _ _ _ _ HR). split.
  - assert (HI : ITeacherDay teacher d
                 ∈ instances rooms batches subjects teachers fixed_classes)
      by (by apply instances_teacher_day).
    apply list_elem_of_lookup_1 in HI as [j Hj].
    destruct (Rep_lookup _ _ _ _ _ _ _ _ HR j _ Hj) as (_ & _ & Hsl).
    exists (length V0 + j)%nat. by eapply list_elem_of_lookup_2.
  - intros slack He.
    destruct (slack_entry_instance _ _ _ _ _ _ _ _ _ HR He)
      as (j & I & Hj & HI & Heq).
    symmetry in Heq. apply inst_entry_teacher_day in Heq as (-> & ->).
    destruct (Rep_lookup _ _ _ _ _ _ _ _ HR j _ Hj) as (Hv & _ & _).
    split; [by eexists|].
    intros v Hsat.
    destruct (sat_instance _ _ _ _ _ _ _ _ HR v j _ Hsat Hj) as [Hh Hrange].
    split; [|done]. cbn [inst_holds] in Hh.
    pose proof (true_count_le_sum X v
                  (fun k i => sat_decision_var _ _ _ _ _ _ _ _ HX HR v k i Hsat)
                  (fun k => taught_by subjects teacher k
                            && bool_decide (key_day k = d))
                  (inst_keys rooms subjects (ITeacherDay teacher d))
                  (fun k => teacher_day_keys_cover _ _ _ _ v teacher d k HX)).
    lia.
Qed.

Lemma teacher_day_bound_witness :
  exists slack,
    ("TeacherDay", "T1", "Tue", slack) ∈ slack_vars main_state
    /\ Z.of_nat (length (true_keys (x main_state) main_schedule
                           (fun k => taught_by main_subjects "T1" k
                                     && bool_decide (key_day k = "Tue"))))
       <= 5 + main_schedule slack.
Proof.
  destruct (teacher_day_bound
              main_rooms main_batches main_subjects main_teachers main_fixed 5
              main_state "T1" "Tue" main_int64 main_state_built
              ltac:(left) ltac:(right; left))
    as [[slack Hin] Hall].
  exists slack. split; [exact Hin|].
  destruct (Hall slack Hin) as [_ Hsat].
  exact (proj1 (Hsat main_schedule main_schedule_sat)).
Defined.

(** ** Fixed classes that name a decision variable (lines 91-96) *)

Lemma instances_fixed rooms batches subjects teachers fixed_classes k :
  IFixed k ∈ instances rooms batches subjects teachers fixed_classes
  <-> k ∈ pins fixed_classes.
Proof.
  unfold instances, pins. split.
  - intros H. in_insts; simplify_eq; done.
  - intros Hin. do 4 (apply elem_of_app; right).
    destruct fixed_classes as [fcs|]; [|by apply elem_of_nil in Hin].
    by apply list_elem_of_fmap_2.
Qed.

(** X5 — When the model is built, every fixed-class tuple has its decision
    variable and a slack bounded to [0,1] recorded under kind "FixedClass",
    and in every satisfying assignment the decision variable plus the slack
    is 1: the class is scheduled exactly when the slack is 0. *)
Theorem fixed_class_pinned
    (rooms batches : list string) (subjects : Dict SubjectInfo)
    (teachers : Dict TeacherInfo) (fixed_classes : option (list Key))
    (max_classes_per_day : Z) (st : Locals)
    (batch subj d : string) (s : Z) (r : string) :
  build_model rooms batches subjects teachers fixed_classes
              max_classes_per_day init = Ok tt st ->
  (batch, subj, d, s, r) ∈ pins fixed_classes ->
  exists (i slack : Var) (name : string),
    x st !! (batch, subj, d, s, r) = Some i
    /\ ("FixedClass", batch, subj +:+ "-" +:+ d +:+ "-" +:+ str s, slack)
       ∈ slack_vars st
    /\ variables (model st) !! slack = Some (IntVar 0 1 name)
    /\ forall v, satisfies (model st) v ->
         v i + v slack = 1 /\ 0 <= v i <= 1 /\ 0 <= v slack <= 1
         /\ (v i = 1 <-> v slack = 0).
Proof.
  intros Hb Hin. pose proof Hb as Hb'.
  apply build_model_inv in Hb as [(V0 & X & HX & HR) Hvalid].
  rewrite (Rep_x _ _ _ _ _ _ _ _ HR).
  assert (Hk : valid_key rooms subjects (batch, subj, d, s, r) = true).
  { unfold first_invalid in Hvalid. apply list_elem_of_In in Hin.
    pose proof (find_none _ _ Hvalid _ Hin) as H. simpl in H.
    by apply negb_false_iff in H. }
  destruct (XSpec_lookup_valid _ _ _ _ _ HX Hk) as [i Hi].
  apply (instances_fixed rooms batches subjects teachers) in Hin.
  apply list_elem_of_lookup_1 in Hin as [j Hj].
  destruct (Rep_lookup _ _ _ _ _ _ _ _ HR j _ Hj) as (Hv & _ & Hsl).
  exists i, (length V0 + j)%nat,
         ("slack_fixed_" +:+ batch +:+ "_" +:+ subj +:+ "_" +:+ d
          +:+ "_" +:+ str s).
  split_and!; [done | by eapply list_elem_of_lookup_2 | done |].
  intros v Hsat.
  destruct (sat_instance _ _ _ _ _ _ _ _ HR v j _ Hsat Hj) as [Hh Hrange].
  cbn [inst_holds inst_keys inst_bound] in Hh, Hrange.
  unfold lookup_vars in Hh. cbn [omap list_omap] in Hh. rewrite Hi in Hh.
  simpl in Hh.
  pose proof (sat_decision_var _ _ _ _ _ _ _ _ HX HR v _ i Hsat Hi). lia.
Qed.

Lemma fixed_class_pinned_witness :
  exists i slack,
    x main_state !! ("B1", "Math", "Mon", 1, "R1") = Some i
    /\ main_schedule i + main_schedule slack = 1.
Proof.
  destruct (fixed_class_pinned
              main_rooms main_batches main_subjects main_teachers main_fixed 5
              main_state "B1" "Math" "Mon" 1 "R1" main_state_built
              ltac:(left))
    as (i & slack & name & Hi & _ & _ & Hsat).
  exists i, slack. split; [exact Hi|].
  exact (proj1 (Hsat main_schedule main_schedule_sat)).
Defined.

(** ** The decision variables (lines 19-26), counted *)

(** After the loops of lines 19-26: one variable was created for each key
    visited, every variable of [x] is in range, and different keys of [x]
    have different variables. *)
Definition XCount (done : list Key) (st : Locals) : Prop :=
  length (variables (model st)) = length done /\
  (forall k i, x st !! k = Some i -> (i < length (variables (model st)))%nat) /\
  (forall k1 k2 i, x st !! k1 = Some i -> x st !! k2 = Some i -> k1 = k2).

Lemma new_decision_var_count name k done st :
  XCount done st ->
  exists st', (v <- NewBoolVar name ;; x_set k v) st = Ok tt st'
              /\ XCount (done ++ [k]) st'.
Proof.
  intros (Hlen & Hlt & Hinj).
  eexists. split; [reflexivity|]. unfold XCount. simpl.
  rewrite !length_app. simpl. split_and!.
  - lia.
  - intros k0 i H. destruct (decide (k0 = k)) as [->|Hne].
    + rewrite lookup_insert_eq in H. simplify_eq. lia.
    + rewrite lookup_insert_ne in H by done. apply Hlt in H. lia.
  - intros k1 k2 i H1 H2.
    destruct (decide (k1 = k)) as [->|Hne1];
      destruct (decide (k2 = k)) as [->|Hne2]; [done|..].
    + rewrite lookup_insert_eq in H1. rewrite lookup_insert_ne in H2 by done.
      simplify_eq. apply Hlt in H2. lia.
    + rewrite lookup_insert_ne in H1 by done. rewrite lookup_insert_eq in H2.
      simplify_eq. apply Hlt in H1. lia.
    + rewrite lookup_insert_ne in H1, H2 by done. by eapply Hinj.
Qed.

Lemma create_variables_count rooms subjects :
  exists st, create_variables rooms subjects init = Ok tt st
             /\ XCount (all_keys rooms subjects) st.
Proof.
  unfold create_variables, all_keys.
  apply (for_spec XCount
           (fun '(subj, info) =>
              d ← days; s ← slots; r ← rooms;
              [(batch_of info, subj, d, s, r)]) _ subjects) with (done := []).
  - intros [subj info] done0 s0 _ H0.
    apply (for_spec XCount
             (fun d => s ← slots; r ← rooms;
                       [(batch_of info, subj, d, s, r)])); [|done].
    intros d done1 s1 _ H1.
    apply (for_spec XCount
             (fun s => r ← rooms; [(batch_of info, subj, d, s, r)])); [|done].
    intros s done2 s2 _ H2.
    apply (for_spec XCount (fun r => [(batch_of info, subj, d, s, r)])); [|done].
    intros r done3 s3 _ H3. by apply new_decision_var_count.
  - unfold XCount, init. simpl. split_and!; [done|..].
    + intros k i H. by rewrite lookup_empty in H.
    + intros k1 k2 i H. by rewrite lookup_empty in H.
Qed.

Lemma length_bind_const {A B} (f : A -> list B) (c : nat) (l : list A) :
  (forall a, length (f a) = c) -> length (l ≫= f) = (length l * c)%nat.
Proof.
  intros Hf. induction l as [|a l IH]; [done|].
  rewrite bind_cons, length_app, IH, Hf. simpl. lia.
Qed.

Lemma all_keys_length rooms (subjects : Dict SubjectInfo) :
  length (all_keys rooms subjects)
  = (25 * length subjects * length rooms)%nat.
Proof.
  unfold all_keys.
  rewrite (length_bind_const _ (25 * length rooms)); [lia|].
  intros [subj info].
  apply (subject_keys_length rooms subjects subj info).
Qed.

Lemma instances_length rooms batches (subjects : Dict SubjectInfo)
    (teachers : Dict TeacherInfo) fixed_classes :
  length (instances rooms batches subjects teachers fixed_classes)
  = (length subjects + 25 * length batches + 25 * length rooms
     + 6 * length teachers + length (pins fixed_classes))%nat.
Proof.
  unfold instances. rewrite !length_app.
  rewrite (length_bind_const _ 1) by (by intros [??]).
  rewrite (length_bind_const _ 25) by done.
  rewrite (length_bind_const _ 25) by done.
  rewrite (length_bind_const _ 6) by (by intros [??]).
  unfold pins. destruct fixed_classes; simpl; rewrite ?length_fmap; lia.
Qed.

(** The finished model keeps the dictionary and the variables of lines
    19-26 and adds one slack variable per constraint instance. *)
Lemma build_model_from_variables rooms batches subjects teachers fixed_classes
    max_classes_per_day s0 u st :
  create_variables rooms subjects init = Ok tt s0 ->
  build_model rooms batches subjects teachers fixed_classes
              max_classes_per_day init = Ok u st ->
  XSpec rooms subjects (variables (model s0)) (x s0)
  /\ Rep rooms subjects max_classes_per_day
         (Some (lin_sum (entry_slack <$> slack_vars st)))
         (variables (model s0)) (x s0)
         (instances rooms batches subjects teachers fixed_classes) st.
Proof.
  intros E0 Hb.
  destruct (create_variables_spec rooms subjects) as (s0' & E0' & H0).
  rewrite E0 in E0'. injection E0' as <-.
  apply (XInv_start rooms subjects max_classes_per_day) in H0 as [HX H0].
  set (V0 := variables (model s0)) in *. set (X := x s0) in *.
  destruct (subject_weekly_spec _ _ _ V0 X _ _ HX H0) as (s1 & E1 & H1).
  destruct (batch_clash_spec _ batches _ _ V0 X _ _ HX H1) as (s2 & E2 & H2).
  destruct (room_clash_spec _ _ _ V0 X _ _ HX H2) as (s3 & E3 & H3).
  destruct (teacher_load_spec _ _ teachers _ V0 X _ _ HX H3)
    as (s4 & E4 & H4).
  unfold build_model in Hb.
  rewrite (bind_Ok _ _ _ _ _ E0), (bind_Ok _ _ _ _ _ E1) in Hb.
  rewrite (bind_Ok _ _ _ _ _ E2), (bind_Ok _ _ _ _ _ E3),
          (bind_Ok _ _ _ _ _ E4) in Hb.
  destruct (first_invalid rooms subjects fixed_classes) as [k|] eqn:Hf.
  - destruct (fixed_loop_raise _ _ _ V0 X k (pins fixed_classes) HX Hf _ _ H4)
      as (insts' & s5 & E5 & _).
    rewrite <- fixed_class_pins_eq in E5.
    by rewrite (bind_Raise _ _ _ _ _ E5) in Hb.
  - destruct (fixed_loop_ok _ _ fixed_classes _ V0 X _ _ HX H4 Hf)
      as (s5 & E5 & H5).
    rewrite <- fixed_class_pins_eq in E5.
    destruct (declare_objective_spec _ _ _ V0 X _ _ H5) as (s6 & E6 & H6).
    rewrite (bind_Ok _ _ _ _ _ E5), E6 in Hb.
    assert (s6 = st) as <- by congruence.
    split; [done|].
    rewrite app_nil_l, <- !app_assoc in H6. unfold instances.
    replace (match fixed_classes with
             | Some fcs => IFixed <$> fcs
             | None => []
             end) with (IFixed <$> pins fixed_classes); [done|].
    unfold pins. by destruct fixed_classes.
Qed.

(** X6 — When the model is built, the dictionary [x] has a variable exactly for
    the keys made of a subject of the catalog under its own batch, a day and
    a slot of the grid and a room of [rooms], never for another batch;
    each is a boolean variable of the model, different keys have different
    variables, and none of them is a slack variable. *)
Theorem decision_variables_domain
    (rooms batches : list string) (subjects : Dict SubjectInfo)
    (teachers : Dict TeacherInfo) (fixed_classes : option (list Key))
    (max_classes_per_day : Z) (st : Locals) :
  build_model rooms batches subjects teachers fixed_classes
              max_classes_per_day init = Ok tt st ->
  (forall k, is_Some (x st !! k) <->
     exists subj info d s r,
       (subj, info) ∈ subjects /\ d ∈ days /\ s ∈ slots /\ r ∈ rooms
       /\ k = (info.(batch_of), subj, d, s, r))
  /\ (forall k i, x st !! k = Some i ->
        exists name, variables (model st) !! i = Some (BoolVar name))
  /\ (forall k1 k2 i, x st !! k1 = Some i -> x st !! k2 = Some i -> k1 = k2)
  /\ (forall k i, x st !! k = Some i -> i ∉ entry_slack <$> slack_vars st).
Proof.
  intros Hb.
  destruct (create_variables_count rooms subjects) as (s0 & E0 & _ & _ & Hinj).
  destruct (build_model_from_variables _ _ _ _ _ _ s0 tt st E0 Hb) as [HX HR].
  pose proof (Rep_x _ _ _ _ _ _ _ _ HR) as Hx. rewrite Hx. split_and!.
  - intros k. rewrite <- elem_of_all_keys. destruct HX as (_ & H1 & H2). split.
    + intros [i Hi]. by apply H1 in Hi as [? _].
    + apply H2.
  - intros k i Hk. by apply (Rep_decision_var _ _ _ _ _ _ _ _ HX HR) in Hk as [_ ?].
  - exact Hinj.
  - intros k i Hk Hin.
    apply (Rep_decision_var _ _ _ _ _ _ _ _ HX HR) in Hk as [Hlt _].
    destruct (slack_vars_layout _ _ _ _ _ _ _ _ HX HR) as [Hsl _].
    rewrite Hsl in Hin. apply elem_of_seq in Hin. lia.
Qed.

Lemma decision_variables_domain_witness :
  is_Some (x main_state !! ("B1", "Physics", "Wed", 2, "R1"))
  /\ x main_state !! ("B2", "Physics", "Wed", 2, "R1") = None.
Proof.
  destruct (decision_variables_domain
              main_rooms main_batches main_subjects main_teachers main_fixed 5
              main_state main_state_built) as (Hdom & _).
  split.
  - apply Hdom. exists "Physics", (MkSubject 6 "T1" "B1"), "Wed", 2, "R1".
    split_and!; [right; left | do 2 right; left | right; left | left
                | reflexivity].
  - vm_compute. reflexivity.
Defined.

(** X7 — The size of the model: 25 boolean variables per subject and room, and
    one slack variable and one constraint per instance, that is per
    subject, per batch, day and slot, per room, day and slot, six per
    teacher and one per fixed class. *)
Theorem model_size
    (rooms batches : list string) (subjects : Dict SubjectInfo)
    (teachers : Dict TeacherInfo) (fixed_classes : option (list Key))
    (max_classes_per_day : Z) (st : Locals) :
  build_model rooms batches subjects teachers fixed_classes
              max_classes_per_day init = Ok tt st ->
  let n := (length subjects + 25 * length batches + 25 * length rooms
            + 6 * length teachers + length (pins fixed_classes))%nat in
  length (constraints (model st)) = n
  /\ length (slack_vars st) = n
  /\ length (variables (model st))
     = (25 * length subjects * length rooms + n)%nat
  /\ length (filter (fun d => is_int d = false) (variables (model st)))
     = (25 * length subjects * length rooms)%nat.
Proof.
  intros Hb n.
  destruct (create_variables_count rooms subjects) as (s0 & E0 & Hlen & _).
  destruct (build_model_from_variables _ _ _ _ _ _ s0 tt st E0 Hb) as [HX HR].
  rewrite all_keys_length in Hlen.
  destruct HR as (_ & _ & _ & _ & Hv & Hc & Hs).
  rewrite Hc, Hs, Hv, !length_imap, filter_app, !length_app, length_fmap.
  rewrite instances_length. fold n. split_and!; [done..|lia|].
  rewrite (filter_all _ (variables (model s0))).
  - rewrite filter_none; [simpl; lia|].
    intros d (I & -> & _)%list_elem_of_fmap.
    by destruct (inst_decl_int I) as [name ->].
  - intros d Hd. destruct HX as (Hbool & _). rewrite Forall_forall in Hbool.
    specialize (Hbool d Hd). by destruct d.
Qed.

Lemma model_size_witness :
  length (variables (model main_state)) = 109%nat
  /\ length (constraints (model main_state)) = 59%nat.
Proof.
  destruct (model_size main_rooms main_batches main_subjects main_teachers
              main_fixed 5 main_state main_state_built)
    as (Hc & _ & Hv & _).
  split; [exact Hv | exact Hc].
Defined.

(** ** When the construction of the model fails (lines 13-99) *)

(** X8 — On inputs whose constants are inside the range of the library,
    the model is built exactly when every fixed-class tuple names a decision
    variable: no lookup of the constraint sums (lines 33, 43, 57, 66 and 80)
    fails, so a construction that raises raises the [KeyError] of a
    fixed-class tuple that names no variable, and has printed nothing. *)
Theorem model_construction_outcome
    (rooms batches : list string) (subjects : Dict SubjectInfo)
    (teachers : Dict TeacherInfo) (fixed_classes : option (list Key))
    (max_classes_per_day : Z) :
  int64_inputs subjects teachers max_classes_per_day ->
  ((exists st, build_model rooms batches subjects teachers fixed_classes
                           max_classes_per_day init = Ok tt st)
   <-> forall k, k ∈ pins fixed_classes -> valid_key rooms subjects k = true)
  /\ forall e st,
       build_model rooms batches subjects teachers fixed_classes
                   max_classes_per_day init = Raise e st ->
       exists k, e = KeyError k /\ k ∈ pins fixed_classes
                 /\ valid_key rooms subjects k = false /\ stdout st = [].
Proof.
  intros _.
  pose proof (build_model_cases rooms batches subjects teachers fixed_classes
                max_classes_per_day) as Hc.
  destruct (first_invalid rooms subjects fixed_classes) as [k|] eqn:Hf.
  - destruct Hc as (st & E & Hout & _).
    destruct (find_some _ _ Hf) as [Hin Hbad].
    apply list_elem_of_In in Hin. apply negb_true_iff in Hbad. split.
    + split.
      * intros [st' E']. congruence.
      * intros Hall. rewrite (Hall k Hin) in Hbad. done.
    + intros e st' E'. rewrite E in E'. injection E' as <- <-. eauto.
  - destruct Hc as (st & E & _). split.
    + split; [|by eauto]. intros _ k Hin. apply list_elem_of_In in Hin.
      pose proof (find_none _ _ Hf k Hin) as H. simpl in H.
      by apply negb_false_iff in H.
    + intros e st' E'. congruence.
Qed.

Lemma model_construction_outcome_witness :
  exists st,
    build_model main_rooms main_batches main_subjects main_teachers
                main_fixed 5 init = Ok tt st.
Proof.
  apply (proj2 (proj1 (model_construction_outcome
                         main_rooms main_batches main_subjects main_teachers
                         main_fixed 5 main_int64))).
  intros k [->|[]%elem_of_nil]%elem_of_cons. vm_compute. reflexivity.
Defined.

(** ** The objective and the report (lines 98-114) *)

Lemma sum_values_zero_iff (v : Valuation) (l : list Var) :
  (forall i, i ∈ l -> 0 <= v i) ->
  sum_values v l = 0 <-> forall i, i ∈ l -> v i = 0.
Proof.
  induction l as [|i l IH]; intros Hpos; simpl.
  - split; [|done]. intros _ i Hi. by apply elem_of_nil in Hi.
  - assert (Hi : 0 <= v i) by (apply Hpos; by left).
    assert (Hl : forall j, j ∈ l -> 0 <= v j) by (intros; apply Hpos; by right).
    assert (0 <= sum_values v l).
    { clear IH Hpos Hi. induction l as [|j l IH]; simpl; [lia|].
      assert (0 <= v j) by (apply Hl; by left).
      assert (0 <= sum_values v l) by (apply IH; intros; apply Hl; by right).
      lia. }
    specialize (IH Hl). split.
    + intros Hsum j [->|Hj]%elem_of_cons; [lia|]. apply IH; [lia|done].
    + intros Hall. rewrite (Hall i) by (by left).
      rewrite (proj2 IH) by (intros; apply Hall; by right). done.
Qed.

(** X9 — For a satisfying assignment accepted from the solver, the objective is
    never negative, and it is zero exactly when the report consists of the
    header alone, with no violation line. *)
Theorem zero_objective_iff_no_violation
    (solver : Solver) (rooms batches : list string)
    (subjects : Dict SubjectInfo) (teachers : Dict TeacherInfo)
    (fixed_classes : option (list Key)) (max_classes_per_day : Z)
    (st : Locals) (status : Status) (v : Valuation) :
  build_model rooms batches subjects teachers fixed_classes
              max_classes_per_day init = Ok tt st ->
  solver (model st) = (status, v) ->
  status = OPTIMAL \/ status = FEASIBLE ->
  satisfies (model st) v ->
  exists obj,
    objective (model st) = Some obj
    /\ 0 <= eval v obj
    /\ (eval v obj = 0
        <-> stdout (final_state
                      (solve_timetable_debug solver rooms batches subjects
                         teachers fixed_classes max_classes_per_day init))
            = [newline +:+ "🔍 Constraint check:"]).
Proof.
  intros Hb Hs Hacc Hsat. apply accepted_iff in Hacc.
  rewrite (solve_stdout _ _ _ _ _ _ _ st status v Hb Hs Hacc).
  pose proof Hb as Hb'.
  apply build_model_inv in Hb as [(V0 & X & HX & HR) _].
  assert (Hpos : forall i, i ∈ entry_slack <$> slack_vars st -> 0 <= v i).
  { intros i (e & -> & He)%list_elem_of_fmap.
    by destruct (slack_range _ _ _ _ _ _ _ _ _ _ HR Hsat He). }
  exists (lin_sum (entry_slack <$> slack_vars st)).
  rewrite eval_lin_sum. split_and!.
  - by destruct HR as (_ & _ & _ & -> & _).
  - clear -Hpos. induction (entry_slack <$> slack_vars st) as [|i l IH];
      simpl; [lia|].
    assert (0 <= v i) by (apply Hpos; by left).
    assert (0 <= sum_values v l) by (apply IH; intros; apply Hpos; by right).
    lia.
  - rewrite (sum_values_zero_iff v _ Hpos).
    destruct HR as (_ & _ & -> & _). unfold report, reported. simpl. split.
    + intros Hall. f_equal. rewrite filter_none; [done|].
      intros e He Hlt. specialize (Hall (entry_slack e)
                                       (list_elem_of_fmap_2 _ _ _ He)). lia.
    + intros [= Hnil] i (e & -> & He)%list_elem_of_fmap.
      apply fmap_nil_inv in Hnil.
      assert (Hpos' : 0 <= v (entry_slack e))
        by (apply Hpos; by apply list_elem_of_fmap_2).
      destruct (decide (0 < v (entry_slack e))) as [Hlt|]; [|lia].
      assert (e ∈ filter (fun e => 0 < v (entry_slack e)) (slack_vars st))
        by (by apply list_elem_of_filter).
      rewrite Hnil in H. by apply elem_of_nil in H.
Qed.

Lemma zero_objective_iff_no_violation_witness :
  exists obj, objective (model main_state) = Some obj
              /\ eval main_schedule obj = 0.
Proof.
  destruct (zero_objective_iff_no_violation
              (fun _ => (OPTIMAL, main_schedule))
              main_rooms main_batches main_subjects main_teachers main_fixed 5
              main_state OPTIMAL main_schedule
              main_state_built eq_refl (or_introl eq_refl) main_schedule_sat)
    as (obj & Hobj & _ & Hiff).
  exists obj. split; [exact Hobj|]. apply (proj2 Hiff).
  pose proof (solve_stdout main_rooms main_batches main_subjects
                main_teachers main_fixed 5 (fun _ => (OPTIMAL, main_schedule))
                main_state OPTIMAL main_schedule
                main_state_built eq_refl eq_refl) as Hout.
  rewrite Hout. vm_compute. reflexivity.
Defined.

(** ** The table (lines 117-136) *)

(** The key a row stands for. *)
Definition row_key (row : Row) : Key :=
  (Batch row, Subject row, Day row, Slot row, Room row).

(** The rows the loops of lines 118-133 append when no lookup fails: in loop
    order, one for each visited key whose variable is true. *)
Definition expected_rows (rooms batches : list string)
    (subjects : Dict SubjectInfo) (X : gmap Key Var) (v : Valuation)
    : list Row :=
  d ← days; s ← slots; batch ← batches; '(subj, info) ← subjects; r ← rooms;
  match X !! (batch, subj, d, s, r) with
  | Some i => if negb (v i =? 0)
              then [MkRow d s batch subj info.(teacher_of) r] else []
  | None => []
  end.

(** The loop rule for a loop that returned. *)
Lemma for_Ok_spec {S A K} (R : list K -> S -> Prop) (g : A -> list K)
    (body : A -> M S unit) (l : list A) :
  (forall a done s u s', a ∈ l -> R done s -> body a s = Ok u s' ->
     R (done ++ g a) s') ->
  forall done s u s', R done s -> for_ l body s = Ok u s' ->
    R (done ++ (l ≫= g)) s'.
Proof.
  induction l as [|a l IH]; intros Hbody done s u s' HR E; simpl in E.
  - injection E as <- <-. by rewrite app_nil_r.
  - apply bind_Ok_inv in E as (u1 & s1 & E1 & E2).
    rewrite bind_cons, app_assoc.
    apply (IH (fun a' d' s0 u0 s0' Ha' => Hbody a' d' s0 u0 s0'
                 (list_elem_of_further _ _ _ Ha'))
              (done ++ g a) s1 u s'); [|done].
    apply (Hbody a done s u1 s1); [by left | done..].
Qed.

Lemma build_timetable_rows rooms batches subjects v st u st' :
  build_timetable rooms batches subjects v st = Ok u st' ->
  x st' = x st /\ stdout st' = stdout st
  /\ timetable st'
     = timetable st ++ expected_rows rooms batches subjects (x st) v.
Proof.
  intros E.
  set (R := fun (done : list Row) (s : Locals) =>
              x s = x st /\ stdout s = stdout st
              /\ timetable s = timetable st ++ done).
  cut (R ([] ++ expected_rows rooms batches subjects (x st) v) st').
  { intros (? & ? & ?). done. }
  unfold build_timetable, expected_rows in *.
  eapply (for_Ok_spec R); [|by unfold R; rewrite app_nil_r|exact E].
  intros d done0 s0 u0 s0' _ H0 E0.
  eapply (for_Ok_spec R); [|exact H0|exact E0].
  intros s done1 s1 u1 s1' _ H1 E1.
  eapply (for_Ok_spec R); [|exact H1|exact E1].
  intros batch done2 s2 u2 s2' _ H2 E2.
  eapply (for_Ok_spec R
            (fun '(subj, info) =>
               r ← rooms;
               match x st !! (batch, subj, d, s, r) with
               | Some i => if negb (v i =? 0)
                           then [MkRow d s batch subj info.(teacher_of) r]
                           else []
               | None => []
               end)); [|exact H2|exact E2].
  intros [subj info] done3 s3 u3 s3' _ H3 E3.
  eapply (for_Ok_spec R); [|exact H3|exact E3].
  intros r done4 s4 u4 s4' _ (Hx & Hout & Htt) E4.
  unfold bind, x_get in E4. rewrite Hx in E4.
  destruct (x st !! (batch, subj, d, s, r)) as [i|]; [|done].
  destruct (negb (v i =? 0)).
  - injection E4 as <- <-. unfold R. simpl.
    split_and!; [done..|]. by rewrite Htt, app_assoc.
  - injection E4 as <- <-. unfold R. by rewrite app_nil_r.
Qed.

Lemma elem_of_expected_rows rooms batches subjects X v row :
  row ∈ expected_rows rooms batches subjects X v <->
  exists d s batch subj info r i,
    d ∈ days /\ s ∈ slots /\ batch ∈ batches /\ (subj, info) ∈ subjects
    /\ r ∈ rooms /\ X !! (batch, subj, d, s, r) = Some i /\ v i <> 0
    /\ row = MkRow d s batch subj info.(teacher_of) r.
Proof.
  unfold expected_rows. split.
  - intros H.
    apply list_elem_of_bind in H as (d & H & Hd).
    apply list_elem_of_bind in H as (s & H & Hs).
    apply list_elem_of_bind in H as (batch & H & Hb).
    apply list_elem_of_bind in H as ([subj info] & H & Hsubj).
    apply list_elem_of_bind in H as (r & H & Hr).
    destruct (X !! (batch, subj, d, s, r)) as [i|] eqn:Hi;
      [|by apply elem_of_nil in H].
    destruct (v i =? 0) eqn:Hv; simpl in H; [by apply elem_of_nil in H|].
    apply list_elem_of_singleton in H. apply Z.eqb_neq in Hv.
    exists d, s, batch, subj, info, r, i. done.
  - intros (d & s & batch & subj & info & r & i
            & Hd & Hs & Hb & Hsubj & Hr & Hi & Hv & ->).
    apply list_elem_of_bind. exists d. split; [|done].
    apply list_elem_of_bind. exists s. split; [|done].
    apply list_elem_of_bind. exists batch. split; [|done].
    apply list_elem_of_bind. exists (subj, info). split; [|done].
    apply list_elem_of_bind. exists r. split; [|done].
    rewrite Hi. apply Z.eqb_neq in Hv. rewrite Hv. simpl. by left.
Qed.

(** *** Sorting *)

Lemma row_leb_total a b : row_leb a b = false -> row_leb b a = true.
Proof.
  unfold row_leb.
  rewrite (String.compare_antisym (Batch a) (Batch b)).
  rewrite (String.compare_antisym (Day a) (Day b)).
  destruct (String.compare (Batch b) (Batch a)); simpl; try done.
  destruct (String.compare (Day b) (Day a)); simpl; try done.
  intros H. apply Z.leb_gt in H. apply Z.leb_le. lia.
Qed.

Lemma insert_row_perm r l : insert_row r l ≡ₚ r :: l.
Proof.
  induction l as [|r' l IH]; simpl; [done|].
  destruct (row_leb r r'); [done|]. rewrite IH. apply perm_swap.
Qed.

Lemma sort_rows_perm l : foldr insert_row [] l ≡ₚ l.
Proof.
  induction l as [|r l IH]; simpl; [done|]. by rewrite insert_row_perm, IH.
Qed.

Lemma insert_row_sorted r l :
  Sorted (fun a b => row_leb a b = true) l ->
  Sorted (fun a b => row_leb a b = true) (insert_row r l).
Proof.
  induction l as [|r' l IH]; intros Hs; simpl.
  - by repeat constructor.
  - destruct (row_leb r r') eqn:E.
    + constructor; [done|]. by constructor.
    + apply Sorted_inv in Hs as [Hs Hhd]. constructor; [by apply IH|].
      destruct l as [|r'' l]; simpl.
      * constructor. by apply row_leb_total.
      * apply HdRel_inv in Hhd. destruct (row_leb r r'').
        -- constructor. by apply row_leb_total.
        -- by constructor.
Qed.

Lemma sort_rows_sorted l :
  Sorted (fun a b => row_leb a b = true) (foldr insert_row [] l).
Proof.
  induction l as [|r l IH]; simpl; [constructor|]. by apply insert_row_sorted.
Qed.

(** A dictionary binds a key once. *)
Lemma dict_functional {V} (d : Dict V) k a b :
  NoDup d.*1 -> (k, a) ∈ d -> (k, b) ∈ d -> a = b.
Proof.
  intros Hnd [i Hi]%list_elem_of_lookup [j Hj]%list_elem_of_lookup.
  assert (i = j) as ->.
  { apply (NoDup_lookup (d.*1) i j k); [done|..];
      rewrite list_lookup_fmap; [by rewrite Hi | by rewrite Hj]. }
  congruence.
Qed.

(** The value a call returns, if it returns. *)
Definition returned {S A} (r : Res S A) : option A :=
  match r with Ok a _ => Some a | Raise _ _ => None end.

Lemma bind_const_nil {A B} (l : list A) : l ≫= (fun _ => @nil B) = [].
Proof. by induction l. Qed.

(** When every lookup of line 123 finds its variable, the loops finish. *)
Lemma build_timetable_total rooms batches subjects v st :
  (forall d s batch subj info r,
     d ∈ days -> s ∈ slots -> batch ∈ batches -> (subj, info) ∈ subjects ->
     r ∈ rooms -> is_Some (x st !! (batch, subj, d, s, r))) ->
  exists st', build_timetable rooms batches subjects v st = Ok tt st'.
Proof.
  intros Hx.
  set (R := fun (_ : list unit) (s : Locals) => x s = x st).
  cut (exists st', build_timetable rooms batches subjects v st = Ok tt st'
                   /\ R ([] ++ (days ≫= fun _ => [])) st').
  { intros (st' & E & _). eauto. }
  unfold build_timetable.
  apply (for_spec R); [|done]. intros d done0 s0 Hd H0.
  replace (done0 ++ []) with (done0 ++ (slots ≫= fun _ => @nil unit))
    by (by rewrite bind_const_nil).
  apply (for_spec R); [|done]. intros s done1 s1 Hs H1.
  replace (done1 ++ []) with (done1 ++ (batches ≫= fun _ => @nil unit))
    by (by rewrite bind_const_nil).
  apply (for_spec R); [|done]. intros batch done2 s2 Hb H2.
  replace (done2 ++ []) with (done2 ++ (subjects ≫= fun _ => @nil unit))
    by (by rewrite bind_const_nil).
  apply (for_spec R); [|done]. intros [subj info] done3 s3 Hsubj H3.
  replace (done3 ++ []) with (done3 ++ (rooms ≫= fun _ => @nil unit))
    by (by rewrite bind_const_nil).
  apply (for_spec R); [|done]. intros r done4 s4 Hr H4.
  destruct (Hx d s batch subj info r) as [i Hi]; [done..|].
  unfold bind, x_get. rewrite H4, Hi.
  destruct (negb (v i =? 0)); eexists; (split; [reflexivity|done]).
Qed.

(** An accepted solve whose table loops finish: the rows of the loops are
    sorted, or the empty frame raises. *)
Lemma solve_accepted_table solver rooms batches subjects teachers
    fixed_classes max_classes_per_day st status v :
  build_model rooms batches subjects teachers fixed_classes
              max_classes_per_day init = Ok tt st ->
  solver (model st) = (status, v) -> accepted status = true ->
  forall u st2,
    build_timetable rooms batches subjects v
      (with_stdout (stdout st ++ report v (slack_vars st)) st) = Ok u st2 ->
    timetable st2 = expected_rows rooms batches subjects (x st) v
    /\ solve_timetable_debug solver rooms batches subjects teachers
         fixed_classes max_classes_per_day init
       = match expected_rows rooms batches subjects (x st) v with
         | [] => Raise (KeyErrorLabel "Batch") st2
         | _ :: _ =>
             Ok (Some (foldr insert_row []
                         (expected_rows rooms batches subjects (x st) v))) st2
         end.
Proof.
  intros Hb Hs Hacc u st2 E.
  rewrite (solve_after_build _ _ _ _ _ _ _ st status v Hb Hs), Hacc.
  rewrite (bind_Ok _ _ _ _ _ E).
  apply build_timetable_rows in E as (_ & _ & Ht). simpl in Ht.
  apply build_model_inv in Hb as [(V0 & X & _ & HR) _].
  destruct HR as (_ & Htt & _). rewrite Htt in Ht. simpl in Ht.
  split; [done|]. unfold bind, sort_values. rewrite Ht.
  by destruct (expected_rows rooms batches subjects (x st) v).
Qed.

(** What a returned table tells about the call. *)
Lemma solve_returns_inv solver rooms batches subjects teachers
    fixed_classes max_classes_per_day st status v df :
  build_model rooms batches subjects teachers fixed_classes
              max_classes_per_day init = Ok tt st ->
  solver (model st) = (status, v) ->
  returned (solve_timetable_debug solver rooms batches subjects teachers
              fixed_classes max_classes_per_day init) = Some (Some df) ->
  accepted status = true
  /\ expected_rows rooms batches subjects (x st) v <> []
  /\ df = foldr insert_row [] (expected_rows rooms batches subjects (x st) v)
  /\ (forall d s batch subj info r,
        d ∈ days -> s ∈ slots -> batch ∈ batches -> (subj, info) ∈ subjects ->
        r ∈ rooms -> is_Some (x st !! (batch, subj, d, s, r))).
Proof.
  intros Hb Hs E.
  destruct (accepted status) eqn:Hacc.
  2:{ by rewrite (solve_after_build _ _ _ _ _ _ _ st status v Hb Hs), Hacc
        in E. }
  destruct (build_timetable rooms batches subjects v
              (with_stdout (stdout st ++ report v (slack_vars st)) st))
    as [u st2|e st2] eqn:E1.
  2:{ rewrite (solve_after_build _ _ _ _ _ _ _ st status v Hb Hs), Hacc,
        (bind_Raise _ _ _ _ _ E1) in E. done. }
  destruct (solve_accepted_table solver rooms batches subjects teachers
              fixed_classes max_classes_per_day st status v Hb Hs Hacc u st2 E1)
    as [_ Hsolve].
  rewrite Hsolve in E.
  split; [done|].
  destruct (expected_rows rooms batches subjects (x st) v) as [|row rest]
    eqn:Hrows; [done|].
  split; [done|]. split; [by injection E as <-|].
  intros d s batch subj info r Hd Hsl Hbt Hsubj Hr.
  exact (build_timetable_Ok_inv _ _ _ _ _ _ _ E1 d s batch subj info r
           Hd Hsl Hbt Hsubj Hr).
Qed.

(** *** The rows and the true decision variables *)

Lemma NoDup_bind_by {A B C} (p : B -> C) (g : A -> C) (l : list A)
    (f : A -> list B) :
  (forall a y, a ∈ l -> y ∈ f a -> p y = g a) ->
  (forall a1 a2, a1 ∈ l -> a2 ∈ l -> g a1 = g a2 -> a1 = a2) ->
  (forall a, a ∈ l -> NoDup (f a)) -> NoDup l -> NoDup (l ≫= f).
Proof.
  intros Hp Hg Hf Hl. apply NoDup_bind; [|done..].
  intros a1 a2 y H1 H2 Hy1 Hy2. apply Hg; [done..|].
  by rewrite <- (Hp a1 y), <- (Hp a2 y).
Qed.

Ltac in_rows :=
  repeat match goal with
  | H : _ ∈ _ ≫= _ |- _ => apply list_elem_of_bind in H as (? & H & ?)
  | H : _ ∈ (let '(_, _) := ?p in _) |- _ => destruct p
  | H : _ ∈ match ?X !! ?k with _ => _ end |- _ => destruct (X !! k)
  | H : _ ∈ (if ?b then _ else _) |- _ => destruct b
  | H : _ ∈ [] |- _ => by apply elem_of_nil in H
  | H : _ ∈ [_] |- _ => apply list_elem_of_singleton in H; subst
  end.

Lemma days_NoDup : NoDup days.
Proof. apply (bool_decide_unpack _). vm_compute. exact I. Qed.

Lemma slots_NoDup : NoDup slots.
Proof. apply (bool_decide_unpack _). vm_compute. exact I. Qed.

(** With no repeated room, batch or subject, the loops visit a key once. *)
Lemma expected_rows_NoDup rooms batches subjects X v :
  NoDup rooms -> NoDup batches -> NoDup subjects.*1 ->
  NoDup (expected_rows rooms batches subjects X v).
Proof.
  intros Hr Hb Hs. unfold expected_rows.
  apply (NoDup_bind_by Day id);
    [by intros d y _ Hy; in_rows | by intros | | exact days_NoDup].
  intros d _. apply (NoDup_bind_by Slot id);
    [by intros s y _ Hy; in_rows | by intros | | exact slots_NoDup].
  intros s _. apply (NoDup_bind_by Batch id);
    [by intros b y _ Hy; in_rows | by intros | | exact Hb].
  intros batch _. apply (NoDup_bind_by Subject fst).
  - intros [subj info] y _ Hy. by in_rows.
  - intros [s1 i1] [s2 i2] H1 H2 Heq. simpl in Heq. subst. f_equal.
    exact (dict_functional subjects s2 i1 i2 Hs H1 H2).
  - intros [subj info] _. apply (NoDup_bind_by Room id);
      [by intros r y _ Hy; in_rows | by intros | | exact Hr].
    intros r _. destruct (X !! _); [destruct (negb _)|];
      repeat constructor; by intros ?%elem_of_nil.
  - by apply NoDup_fmap_1 in Hs.
Qed.

Lemma expected_rows_keys_NoDup rooms batches subjects X v :
  NoDup rooms -> NoDup batches -> NoDup subjects.*1 ->
  NoDup (row_key <$> expected_rows rooms batches subjects X v).
Proof.
  intros Hr Hb Hs. apply NoDup_fmap_2_strong;
    [|by apply expected_rows_NoDup].
  intros r1 r2 H1 H2 Hk.
  apply elem_of_expected_rows in H1
    as (d1 & s1 & b1 & subj1 & info1 & ro1 & i1 & _ & _ & _ & Hin1 & _ & _ & _ & ->).
  apply elem_of_expected_rows in H2
    as (d2 & s2 & b2 & subj2 & info2 & ro2 & i2 & _ & _ & _ & Hin2 & _ & _ & _ & ->).
  unfold row_key in Hk. simpl in Hk. simplify_eq.
  by rewrite (dict_functional subjects subj2 info1 info2 Hs Hin1 Hin2).
Qed.

(** ** The returned table *)

(** X10 — A table that is returned is not empty, is in nondecreasing order
    of (Batch, Day, Slot), and holds the rows collected in [timetable], each
    as often as it was collected. *)
Theorem returned_table_sorted solver rooms batches subjects teachers
    fixed_classes max_classes_per_day df :
  returned (solve_timetable_debug solver rooms batches subjects teachers
              fixed_classes max_classes_per_day init) = Some (Some df) ->
  df <> []
  /\ Sorted (fun a b => row_leb a b = true) df
  /\ df ≡ₚ timetable (final_state
                        (solve_timetable_debug solver rooms batches subjects
                           teachers fixed_classes max_classes_per_day init)).
Proof.
  intros E.
  destruct (build_model rooms batches subjects teachers fixed_classes
              max_classes_per_day init) as [[] st|e st] eqn:Hb.
  2:{ by rewrite (solve_build_raise _ _ _ _ _ _ _ _ _ Hb) in E. }
  destruct (solver (model st)) as [status v] eqn:Hs.
  destruct (solve_returns_inv solver rooms batches subjects teachers
              fixed_classes max_classes_per_day st status v df Hb Hs E)
    as (Hacc & Hne & -> & Hx).
  destruct (build_timetable_total rooms batches subjects v
              (with_stdout (stdout st ++ report v (slack_vars st)) st) Hx)
    as (st2 & E1).
  destruct (solve_accepted_table solver rooms batches subjects teachers
              fixed_classes max_classes_per_day st status v Hb Hs Hacc tt st2 E1)
    as [Ht Hsolve].
  rewrite Hsolve.
  destruct (expected_rows rooms batches subjects (x st) v) as [|row rest]
    eqn:Hrows; [done|].
  simpl final_state. rewrite Ht. split_and!.
  - intros Hnil. pose proof (sort_rows_perm (row :: rest)) as Hp.
    rewrite Hnil in Hp. by apply Permutation_nil_cons in Hp.
  - apply sort_rows_sorted.
  - apply sort_rows_perm.
Qed.

(** The table of the reference scenario under [main_schedule]. *)
Definition main_table : list Row :=
  [MkRow "Mon" 1 "B1" "Math" "T1" "R1"; MkRow "Mon" 2 "B1" "Math" "T1" "R1";
   MkRow "Mon" 3 "B1" "Math" "T1" "R1"; MkRow "Mon" 4 "B1" "Math" "T1" "R1";
   MkRow "Mon" 5 "B1" "Math" "T1" "R1"; MkRow "Tue" 1 "B1" "Math" "T1" "R1";
   MkRow "Tue" 2 "B1" "Physics" "T1" "R1";
   MkRow "Tue" 3 "B1" "Physics" "T1" "R1";
   MkRow "Tue" 4 "B1" "Physics" "T1" "R1";
   MkRow "Tue" 5 "B1" "Physics" "T1" "R1";
   MkRow "Wed" 1 "B1" "Physics" "T1" "R1";
   MkRow "Wed" 2 "B1" "Physics" "T1" "R1"].

Lemma main_returns :
  returned (solve_timetable_debug (fun _ => (OPTIMAL, main_schedule))
              main_rooms main_batches main_subjects main_teachers main_fixed
              5 init) = Some (Some main_table).
Proof. vm_compute. reflexivity. Qed.

Lemma returned_table_sorted_witness :
  main_table <> []
  /\ Sorted (fun a b => row_leb a b = true) main_table
  /\ main_table
     ≡ₚ timetable (final_state
                     (solve_timetable_debug (fun _ => (OPTIMAL, main_schedule))
                        main_rooms main_batches main_subjects main_teachers
                        main_fixed 5 init)).
Proof.
  exact (returned_table_sorted (fun _ => (OPTIMAL, main_schedule))
           main_rooms main_batches main_subjects main_teachers main_fixed 5
           main_table main_returns).
Defined.

(** X11 — With no room, batch or subject listed twice, the rows of a
    returned table are the true decision variables, one row for each, and a
    row carries the teacher and the batch its subject is declared with. *)
Theorem returned_rows_are_true_variables solver rooms batches subjects
    teachers fixed_classes max_classes_per_day st status v df :
  NoDup rooms -> NoDup batches -> NoDup subjects.*1 ->
  build_model rooms batches subjects teachers fixed_classes
              max_classes_per_day init = Ok tt st ->
  solver (model st) = (status, v) ->
  returned (solve_timetable_debug solver rooms batches subjects teachers
              fixed_classes max_classes_per_day init) = Some (Some df) ->
  row_key <$> df ≡ₚ true_keys (x st) v (fun _ => true)
  /\ forall row, row ∈ df ->
       exists info, (Subject row, info) ∈ subjects
                    /\ Teacher row = info.(teacher_of)
                    /\ Batch row = info.(batch_of).
Proof.
  intros Hr Hbt Hsub Hb Hs E.
  destruct (solve_returns_inv solver rooms batches subjects teachers
              fixed_classes max_classes_per_day st status v df Hb Hs E)
    as (Hacc & Hne & -> & Hx).
  pose proof Hb as Hb'.
  apply build_model_inv in Hb' as [(V0 & X & HX & HR) _].
  pose proof (Rep_x _ _ _ _ _ _ _ _ HR) as HxX.
  destruct HX as (_ & HX1 & HX2).
  (* a visited key is a key of [x] under the batch of its subject *)
  assert (Hown : forall batch subj info,
            batch ∈ batches -> (subj, info) ∈ subjects -> rooms <> [] ->
            info.(batch_of) = batch).
  { intros batch subj info Hin Hsi Hrooms.
    destruct rooms as [|r rooms']; [done|].
    destruct (Hx "Mon" 1 batch subj info r) as [i Hi];
      [by left | by left | done | done | by left |].
    rewrite HxX in Hi. apply HX1 in Hi as [Hi _].
    apply elem_of_all_keys in Hi
      as (subj' & info' & ? & ? & ? & Hin' & _ & _ & _ & Heq).
    simplify_eq.
    by rewrite (dict_functional subjects subj' info info' Hsub Hsi Hin'). }
  split.
  - rewrite sort_rows_perm.
    apply NoDup_Permutation;
      [by apply expected_rows_keys_NoDup | apply true_keys_NoDup |].
    intros k. rewrite true_keys_spec, list_elem_of_fmap. split.
    + intros (row & -> & Hrow). apply elem_of_expected_rows in Hrow
        as (d & s & batch & subj & info & r & i & _ & _ & _ & _ & _ & Hi & Hv
            & ->).
      by exists i.
    + intros (i & Hi & _ & Hv).
      destruct (expected_rows rooms batches subjects (x st) v)
        as [|row0 rest] eqn:Hrows; [done|].
      assert (H0 : row0 ∈ expected_rows rooms batches subjects (x st) v)
        by (rewrite Hrows; by left).
      apply elem_of_expected_rows in H0
        as (d0 & s0 & batch0 & subj0 & info0 & r0 & i0 & _ & _ & Hb0 & _ & Hr0
            & _).
      rewrite <- Hrows.
      pose proof Hi as Hk. rewrite HxX in Hk. apply HX1 in Hk as [Hk _].
      apply elem_of_all_keys in Hk
        as (subj & info & d & s & r & Hsi & Hd & Hsl & Hro & ->).
      exists (MkRow d s info.(batch_of) subj info.(teacher_of) r).
      split; [done|]. apply elem_of_expected_rows.
      exists d, s, info.(batch_of), subj, info, r, i. split_and!; try done.
      rewrite (Hown batch0 subj info Hb0 Hsi); [done|].
      intros ->. by apply elem_of_nil in Hr0.
  - intros row Hrow. rewrite sort_rows_perm in Hrow.
    apply elem_of_expected_rows in Hrow
      as (d & s & batch & subj & info & r & i & _ & _ & Hbin & Hsi & Hro & _
          & _ & ->).
    exists info. simpl. split_and!; [done..|].
    symmetry. apply (Hown batch subj info Hbin Hsi).
    intros ->. by apply elem_of_nil in Hro.
Qed.

Lemma main_rooms_NoDup : NoDup main_rooms.
Proof. apply (bool_decide_unpack _). vm_compute. exact I. Qed.

Lemma main_batches_NoDup : NoDup main_batches.
Proof. apply (bool_decide_unpack _). vm_compute. exact I. Qed.

Lemma returned_rows_are_true_variables_witness :
  row_key <$> main_table ≡ₚ true_keys (x main_state) main_schedule (fun _ => true)
  /\ forall row, row ∈ main_table ->
       exists info, (Subject row, info) ∈ main_subjects
                    /\ Teacher row = info.(teacher_of)
                    /\ Batch row = info.(batch_of).
Proof.
  exact (returned_rows_are_true_variables (fun _ => (OPTIMAL, main_schedule))
           main_rooms main_batches main_subjects main_teachers main_fixed 5
           main_state OPTIMAL main_schedule main_table
           main_rooms_NoDup main_batches_NoDup main_subjects_NoDup
           main_state_built eq_refl main_returns).
Defined.

(** *** A single batch that owns the catalog *)

(** Every batch of [batches] is the batch of every subject: the inputs on
    which no lookup of line 123 can fail. *)
Definition batches_own_subjects (batches : list string)
    (subjects : Dict SubjectInfo) : Prop :=
  Forall (fun batch => Forall (fun si => si.2.(batch_of) = batch) subjects)
         batches.

Lemma owned_lookups rooms batches subjects V0 X :
  XSpec rooms subjects V0 X -> batches_own_subjects batches subjects ->
  forall d s batch subj info r,
    d ∈ days -> s ∈ slots -> batch ∈ batches -> (subj, info) ∈ subjects ->
    r ∈ rooms -> is_Some (X !! (batch, subj, d, s, r)).
Proof.
  intros (_ & _ & HX) Hown d s batch subj info r Hd Hs Hb Hsi Hr.
  apply HX, elem_of_all_keys. exists subj, info, d, s, r.
  split_and!; [done..|].
  unfold batches_own_subjects in Hown.
  rewrite Forall_forall in Hown. specialize (Hown batch Hb).
  rewrite Forall_forall in Hown. specialize (Hown (subj, info) Hsi).
  simpl in Hown. by rewrite Hown.
Qed.

(** X12 — When the batch owns every subject and the accepted answer
    schedules no class, the call prints the constraint check and then raises
    [KeyError: 'Batch'] from the sort of the empty frame: it returns no
    empty table. *)
Theorem empty_timetable_raises_key_error solver rooms batches subjects
    teachers fixed_classes max_classes_per_day st status v :
  build_model rooms batches subjects teachers fixed_classes
              max_classes_per_day init = Ok tt st ->
  solver (model st) = (status, v) -> accepted status = true ->
  batches_own_subjects batches subjects ->
  (forall k i, x st !! k = Some i -> v i = 0) ->
  exists st',
    solve_timetable_debug solver rooms batches subjects teachers
      fixed_classes max_classes_per_day init
    = Raise (KeyErrorLabel "Batch") st'
    /\ stdout st' = report v (slack_vars st)
    /\ timetable st' = [].
Proof.
  intros Hb Hs Hacc Hown Hzero.
  pose proof Hb as Hb'.
  apply build_model_inv in Hb' as [(V0 & X & HX & HR) _].
  pose proof (Rep_x _ _ _ _ _ _ _ _ HR) as HxX.
  assert (Hout : stdout st = []) by (by destruct HR as (_ & _ & ? & _)).
  set (st1 := with_stdout (stdout st ++ report v (slack_vars st)) st).
  destruct (build_timetable_total rooms batches subjects v st1) as (st2 & E1).
  { simpl. rewrite HxX. by apply (owned_lookups rooms batches subjects V0 X). }
  destruct (solve_accepted_table solver rooms batches subjects teachers
              fixed_classes max_classes_per_day st status v Hb Hs Hacc tt st2 E1)
    as [Ht Hsolve].
  assert (Hrows : expected_rows rooms batches subjects (x st) v = []).
  { destruct (expected_rows rooms batches subjects (x st) v) as [|row rest]
      eqn:Hrows; [done|].
    assert (H0 : row ∈ expected_rows rooms batches subjects (x st) v)
      by (rewrite Hrows; by left).
    apply elem_of_expected_rows in H0
      as (d & s & batch & subj & info & r & i & _ & _ & _ & _ & _ & Hi & Hv & _).
    by apply Hzero in Hi. }
  rewrite Hrows in Hsolve, Ht. exists st2. split_and!; [done| |done].
  apply build_timetable_rows in E1 as (_ & Hout2 & _).
  rewrite Hout2. simpl. by rewrite Hout.
Qed.

(** A catalog whose only subject asks for no session. *)
Definition idle_subjects : Dict SubjectInfo := [("Math", MkSubject 0 "T1" "B1")].
Definition idle_teachers : Dict TeacherInfo := [("T1", MkTeacher 5)].

Definition idle_state : Locals :=
  final_state (build_model ["R1"] ["B1"] idle_subjects idle_teachers None 5
                 init).

Lemma idle_state_built :
  build_model ["R1"] ["B1"] idle_subjects idle_teachers None 5 init
  = Ok tt idle_state.
Proof. apply build_model_final. vm_compute. reflexivity. Qed.

Lemma idle_owned : batches_own_subjects ["B1"] idle_subjects.
Proof. apply (bool_decide_unpack _). vm_compute. exact I. Qed.

Lemma empty_timetable_raises_key_error_witness :
  exists st',
    solve_timetable_debug (fun _ => (OPTIMAL, fun _ => 0))
      ["R1"] ["B1"] idle_subjects idle_teachers None 5 init
    = Raise (KeyErrorLabel "Batch") st'
    /\ stdout st' = report (fun _ => 0) (slack_vars idle_state)
    /\ timetable st' = [].
Proof.
  exact (empty_timetable_raises_key_error (fun _ => (OPTIMAL, fun _ => 0))
           ["R1"] ["B1"] idle_subjects idle_teachers None 5
           idle_state OPTIMAL (fun _ => 0)
           idle_state_built eq_refl eq_refl idle_owned
           (fun _ _ _ => eq_refl)).
Defined.

(** X13 — When the batch owns every subject and the accepted answer makes
    some decision variable true, the call returns a table, and the table has
    a row for that variable. *)
Theorem table_returned_when_class_scheduled solver rooms batches subjects
    teachers fixed_classes max_classes_per_day st status v k i :
  build_model rooms batches subjects teachers fixed_classes
              max_classes_per_day init = Ok tt st ->
  solver (model st) = (status, v) -> accepted status = true ->
  batches_own_subjects batches subjects -> batches <> [] ->
  x st !! k = Some i -> v i <> 0 ->
  exists df st',
    solve_timetable_debug solver rooms batches subjects teachers
      fixed_classes max_classes_per_day init = Ok (Some df) st'
    /\ stdout st' = report v (slack_vars st)
    /\ exists row, row ∈ df /\ row_key row = k.
Proof.
  intros Hb Hs Hacc Hown Hne Hi Hv.
  pose proof Hb as Hb'.
  apply build_model_inv in Hb' as [(V0 & X & HX & HR) _].
  pose proof (Rep_x _ _ _ _ _ _ _ _ HR) as HxX.
  assert (Hout : stdout st = []) by (by destruct HR as (_ & _ & ? & _)).
  set (st1 := with_stdout (stdout st ++ report v (slack_vars st)) st).
  destruct (build_timetable_total rooms batches subjects v st1) as (st2 & E1).
  { simpl. rewrite HxX. by apply (owned_lookups rooms batches subjects V0 X). }
  destruct (solve_accepted_table solver rooms batches subjects teachers
              fixed_classes max_classes_per_day st status v Hb Hs Hacc tt st2 E1)
    as [Ht Hsolve].
  (* the row of [k] *)
  assert (Hrow : exists row,
            row ∈ expected_rows rooms batches subjects (x st) v
            /\ row_key row = k).
  { pose proof Hi as Hk. rewrite HxX in Hk.
    destruct HX as (_ & HX1 & _). apply HX1 in Hk as [Hk _].
    apply elem_of_all_keys in Hk
      as (subj & info & d & s & r & Hsi & Hd & Hsl & Hro & ->).
    destruct batches as [|batch0 batches']; [done|].
    assert (Hin0 : batch0 ∈ batch0 :: batches') by (by left).
    assert (Hbo : info.(batch_of) = batch0).
    { unfold batches_own_subjects in Hown. rewrite Forall_forall in Hown.
      specialize (Hown batch0 Hin0). rewrite Forall_forall in Hown.
      exact (Hown (subj, info) Hsi). }
    exists (MkRow d s info.(batch_of) subj info.(teacher_of) r).
    split; [|done]. apply elem_of_expected_rows.
    exists d, s, info.(batch_of), subj, info, r, i.
    split_and!; try done. by rewrite Hbo. }
  destruct Hrow as (row & Hrow & Hkey).
  destruct (expected_rows rooms batches subjects (x st) v) as [|row0 rest]
    eqn:Hrows; [by apply elem_of_nil in Hrow|].
  exists (foldr insert_row [] (row0 :: rest)), st2. split_and!; [done| |].
  - apply build_timetable_rows in E1 as (_ & Hout2 & _).
    rewrite Hout2. simpl. by rewrite Hout.
  - exists row. split; [|done]. by rewrite sort_rows_perm.
Qed.

Lemma main_owned : batches_own_subjects main_batches main_subjects.
Proof. apply (bool_decide_unpack _). vm_compute. exact I. Qed.

Lemma main_first_variable :
  x main_state !! ("B1", "Math", "Mon", 1, "R1") = Some 0%nat.
Proof. vm_compute. reflexivity. Qed.

Lemma table_returned_when_class_scheduled_witness :
  exists df st',
    solve_timetable_debug (fun _ => (OPTIMAL, main_schedule))
      main_rooms main_batches main_subjects main_teachers main_fixed 5 init
    = Ok (Some df) st'
    /\ stdout st' = report main_schedule (slack_vars main_state)
    /\ exists row, row ∈ df /\ row_key row = ("B1", "Math", "Mon", 1, "R1").
Proof.
  exact (table_returned_when_class_scheduled
           (fun _ => (OPTIMAL, main_schedule))
           main_rooms main_batches main_subjects main_teachers main_fixed 5
           main_state OPTIMAL main_schedule ("B1", "Math", "Mon", 1, "R1")
           0%nat main_state_built eq_refl eq_refl main_owned
           ltac:(discriminate) main_first_variable ltac:(discriminate)).
Defined.

(** ** A zero objective (lines 28-99) *)

(** With the objective at zero, a satisfying assignment satisfies every
    constraint with its slack at zero. *)
Lemma zero_objective_instance rooms subjects max_classes_per_day V0 X insts
    st v obj :
  Rep rooms subjects max_classes_per_day
      (Some (lin_sum (entry_slack <$> slack_vars st))) V0 X insts st ->
  satisfies (model st) v ->
  objective (model st) = Some obj -> eval v obj = 0 ->
  forall I, I ∈ insts ->
    inst_holds max_classes_per_day I
      (sum_values v (lookup_vars X (inst_keys rooms subjects I))) 0.
Proof.
  intros HR Hsat Hobj Hzero I [j Hj]%list_elem_of_lookup_1.
  assert (obj = lin_sum (entry_slack <$> slack_vars st)) as ->.
  { destruct HR as (_ & _ & _ & Ho & _). congruence. }
  rewrite eval_lin_sum in Hzero.
  assert (Hpos : forall i, i ∈ entry_slack <$> slack_vars st -> 0 <= v i).
  { intros i (e & -> & He)%list_elem_of_fmap.
    by destruct (slack_range _ _ _ _ _ _ _ _ _ _ HR Hsat He). }
  rewrite (sum_values_zero_iff v _ Hpos) in Hzero.
  destruct (sat_instance _ _ _ _ _ _ _ _ HR v j I Hsat Hj) as [Hh _].
  destruct (Rep_lookup _ _ _ _ _ _ _ _ HR j I Hj) as (_ & _ & Hsl).
  rewrite (Hzero (length V0 + j)%nat) in Hh; [done|].
  apply list_elem_of_fmap. exists (inst_entry I (length V0 + j)%nat).
  split; [by rewrite entry_slack_inst_entry|].
  by eapply list_elem_of_lookup_2.
Qed.

Lemma two_in_NoDup {A} (l : list A) a b :
  NoDup l -> a ∈ l -> b ∈ l -> a <> b -> (2 <= length l)%nat.
Proof.
  intros Hnd Ha Hb Hab. change 2%nat with (length [a; b]).
  apply submseteq_length, NoDup_submseteq.
  - apply NoDup_cons. split; [by intros ->%list_elem_of_singleton|].
    apply NoDup_singleton.
  - intros c [->|Hc]%elem_of_cons; [done|].
    by apply list_elem_of_singleton in Hc as ->.
Qed.

(** Of two different true keys that pass the test [P], the count of true
    keys under [P] is at least two. *)
Lemma two_true_keys X v P k1 k2 i1 i2 :
  X !! k1 = Some i1 -> X !! k2 = Some i2 -> v i1 <> 0 -> v i2 <> 0 ->
  P k1 = true -> P k2 = true -> k1 <> k2 ->
  2 <= Z.of_nat (length (true_keys X v P)).
Proof.
  intros H1 H2 Hv1 Hv2 HP1 HP2 Hne.
  assert (2 <= length (true_keys X v P))%nat; [|lia].
  apply (two_in_NoDup _ k1 k2); [apply true_keys_NoDup | | | done];
    apply true_keys_spec; eauto.
Qed.

(** X14 — Of two different classes on the same day and slot that share a room, or
    a batch of [batches], a satisfying assignment with the objective at zero
    schedules at most one. *)
Theorem zero_objective_clash_free
    (rooms batches : list string) (subjects : Dict SubjectInfo)
    (teachers : Dict TeacherInfo) (fixed_classes : option (list Key))
    (max_classes_per_day : Z) (st : Locals) (v : Valuation) (obj : LinExpr)
    (k1 k2 : Key) (i1 i2 : Var) :
  build_model rooms batches subjects teachers fixed_classes
              max_classes_per_day init = Ok tt st ->
  satisfies (model st) v ->
  objective (model st) = Some obj -> eval v obj = 0 ->
  x st !! k1 = Some i1 -> x st !! k2 = Some i2 -> k1 <> k2 ->
  key_day k1 = key_day k2 -> key_slot k1 = key_slot k2 ->
  key_room k1 = key_room k2
  \/ (key_batch k1 = key_batch k2 /\ key_batch k1 ∈ batches) ->
  v i1 = 0 \/ v i2 = 0.
Proof.
  intros Hb Hsat Hobj Hzero H1 H2 Hne Hday Hslot Hshare.
  apply build_model_inv in Hb as [(V0 & X & HX & HR) _].
  rewrite (Rep_x _ _ _ _ _ _ _ _ HR) in H1, H2.
  destruct (decide (v i1 = 0)) as [|Hv1]; [by left|].
  destruct (decide (v i2 = 0)) as [|Hv2]; [by right|]. exfalso.
  pose proof (fun k i => sat_decision_var _ _ _ _ _ _ _ _ HX HR v k i Hsat)
    as Hbool.
  assert (Hk1 : k1 ∈ all_keys rooms subjects)
    by (destruct HX as (_ & Hx & _); by apply Hx in H1 as [? _]).
  apply elem_of_all_keys in Hk1
    as (subj & info & d & s & r & Hsi & Hd & Hs & Hr & Hk1).
  destruct Hshare as [Hroom|[Hbatch Hin]].
  - set (P := fun k : Key => bool_decide (key_room k = r /\ key_day k = d
                                          /\ key_slot k = s)).
    assert (HP1 : P k1 = true) by (apply bool_decide_eq_true; by subst k1).
    assert (HP2 : P k2 = true).
    { apply bool_decide_eq_true. rewrite <- Hroom, <- Hday, <- Hslot.
      by subst k1. }
    pose proof (two_true_keys X v P k1 k2 i1 i2 H1 H2 Hv1 Hv2 HP1 HP2 Hne).
    assert (HI : IRoom r d s
                 ∈ instances rooms batches subjects teachers fixed_classes)
      by (by apply instances_room).
    pose proof (zero_objective_instance _ _ _ _ _ _ _ _ _ HR Hsat Hobj Hzero
                  _ HI) as Hh.
    cbn [inst_holds] in Hh.
    pose proof (true_count_le_sum X v Hbool P
                  (inst_keys rooms subjects (IRoom r d s))
                  (fun k => room_keys_cover _ _ _ _ v r d s k HX)).
    lia.
  - set (batch := key_batch k1) in *.
    set (P := fun k : Key => bool_decide (key_batch k = batch /\ key_day k = d
                                          /\ key_slot k = s)).
    assert (HP1 : P k1 = true)
      by (apply bool_decide_eq_true; unfold batch; by subst k1).
    assert (HP2 : P k2 = true).
    { apply bool_decide_eq_true. rewrite <- Hbatch, <- Hday, <- Hslot.
      unfold batch. by subst k1. }
    pose proof (two_true_keys X v P k1 k2 i1 i2 H1 H2 Hv1 Hv2 HP1 HP2 Hne).
    assert (HI : IBatch batch d s
                 ∈ instances rooms batches subjects teachers fixed_classes)
      by (by apply instances_batch).
    pose proof (zero_objective_instance _ _ _ _ _ _ _ _ _ HR Hsat Hobj Hzero
                  _ HI) as Hh.
    cbn [inst_holds] in Hh.
    pose proof (true_count_le_sum X v Hbool P
                  (inst_keys rooms subjects (IBatch batch d s))
                  (fun k => batch_keys_cover _ _ _ _ HX v batch d s k)).
    lia.
Qed.

Lemma main_objective :
  objective (model main_state)
  = Some (lin_sum (entry_slack <$> slack_vars main_state)).
Proof. vm_compute. reflexivity. Qed.

Lemma main_objective_zero :
  eval main_schedule (lin_sum (entry_slack <$> slack_vars main_state)) = 0.
Proof. vm_compute. reflexivity. Qed.

Lemma main_physics_variable :
  x main_state !! ("B1", "Physics", "Mon", 1, "R1") = Some 25%nat.
Proof. vm_compute. reflexivity. Qed.

Lemma zero_objective_clash_free_witness :
  main_schedule 0%nat = 0 \/ main_schedule 25%nat = 0.
Proof.
  exact (zero_objective_clash_free
           main_rooms main_batches main_subjects main_teachers main_fixed 5
           main_state main_schedule
           (lin_sum (entry_slack <$> slack_vars main_state))
           ("B1", "Math", "Mon", 1, "R1") ("B1", "Physics", "Mon", 1, "R1")
           0%nat 25%nat
           main_state_built main_schedule_sat main_objective
           main_objective_zero main_first_variable main_physics_variable
           ltac:(discriminate) eq_refl eq_refl (or_introl eq_refl)).
Defined.

Lemma sumZ_count_nonzero {A} (w : A -> Z) (l : list A) :
  (forall a, 0 <= w a <= 1) ->
  sumZ w l = Z.of_nat (length (filter (fun a => w a <> 0) l)).
Proof.
  intros Hw. induction l as [|a l IH]; [done|].
  cbn [sumZ foldr]. fold (sumZ w l). rewrite filter_cons.
  specialize (Hw a). destruct (decide (w a <> 0)); simpl; lia.
Qed.

(** When [keys] lists, once each, keys that pass the test [P] and among
    them every true one, the sum the constraint takes over [keys] is the
    number of true keys under [P]. *)
Lemma true_count_eq_sum X v P keys :
  (forall k i, X !! k = Some i -> 0 <= v i <= 1) -> NoDup keys ->
  (forall k, k ∈ true_keys X v P -> k ∈ keys) ->
  (forall k, k ∈ keys -> P k = true) ->
  Z.of_nat (length (true_keys X v P)) = sum_values v (lookup_vars X keys).
Proof.
  intros Hbool Hnd Hsub HP. rewrite sum_values_lookup_vars.
  rewrite (sumZ_count_nonzero (weight X v) keys)
    by (intros k; by apply weight_range).
  f_equal. apply Permutation_length, NoDup_Permutation;
    [apply true_keys_NoDup | by apply NoDup_filter |].
  intros k. rewrite list_elem_of_filter, true_keys_spec. unfold weight. split.
  - intros (i & Hk & Hp & Hv). split; [by rewrite Hk|].
    apply Hsub, true_keys_spec. eauto.
  - intros [Hv Hk]. destruct (X !! k) as [i|]; [|done].
    exists i. split_and!; [done | by apply HP | done].
Qed.

Lemma subject_keys_NoDup rooms subjects subj info :
  NoDup rooms -> NoDup (inst_keys rooms subjects (ISubject subj info)).
Proof.
  intros Hr. cbn [inst_keys].
  apply (NoDup_bind_by key_day id);
    [by intros d y _ Hy; in_rows | by intros | | exact days_NoDup].
  intros d _. apply (NoDup_bind_by key_slot id);
    [by intros s y _ Hy; in_rows | by intros | | exact slots_NoDup].
  intros s _. apply (NoDup_bind_by key_room id);
    [by intros r y _ Hy; in_rows | by intros | | exact Hr].
  intros r _. apply NoDup_singleton.
Qed.

(** X15 — On inputs whose constants are inside the range of the library
    and with no room listed twice, a satisfying assignment with the
    objective at zero gives every subject exactly its [sessions_per_week]
    classes, keeps every teacher within [max_load] over the week and within
    [max_classes_per_day] on each day, and schedules every fixed class. *)
Theorem zero_objective_meets_requirements
    (rooms batches : list string) (subjects : Dict SubjectInfo)
    (teachers : Dict TeacherInfo) (fixed_classes : option (list Key))
    (max_classes_per_day : Z) (st : Locals) (v : Valuation) (obj : LinExpr) :
  int64_inputs subjects teachers max_classes_per_day ->
  NoDup rooms -> NoDup subjects.*1 ->
  build_model rooms batches subjects teachers fixed_classes
              max_classes_per_day init = Ok tt st ->
  satisfies (model st) v ->
  objective (model st) = Some obj -> eval v obj = 0 ->
  (forall subj info, (subj, info) ∈ subjects ->
     Z.of_nat (length (true_keys (x st) v
                         (fun k => bool_decide (key_subj k = subj))))
     = info.(sessions_per_week))
  /\ (forall teacher tinfo, (teacher, tinfo) ∈ teachers ->
        Z.of_nat (length (true_keys (x st) v (taught_by subjects teacher)))
        <= tinfo.(max_load)
        /\ forall d, d ∈ days ->
             Z.of_nat (length (true_keys (x st) v
                                 (fun k => taught_by subjects teacher k
                                           && bool_decide (key_day k = d))))
             <= max_classes_per_day)
  /\ (forall k, k ∈ pins fixed_classes ->
        exists i, x st !! k = Some i /\ v i = 1).
Proof.
  intros _ Hr Hnd Hb Hsat Hobj Hzero.
  apply build_model_inv in Hb as [(V0 & X & HX & HR) Hvalid].
  rewrite (Rep_x _ _ _ _ _ _ _ _ HR).
  pose proof (fun k i => sat_decision_var _ _ _ _ _ _ _ _ HX HR v k i Hsat)
    as Hbool.
  pose proof (zero_objective_instance _ _ _ _ _ _ _ _ _ HR Hsat Hobj Hzero)
    as Hinst.
  split_and!.
  - intros subj info Hsi.
    assert (HI : ISubject subj info
                 ∈ instances rooms batches subjects teachers fixed_classes).
    { apply list_elem_of_lookup_1 in Hsi as [j Hj].
      apply (list_elem_of_lookup_2 _ j), instances_subject_lookup, Hj. }
    specialize (Hinst _ HI). cbn [inst_holds] in Hinst.
    rewrite (true_count_eq_sum X v _
               (inst_keys rooms subjects (ISubject subj info)) Hbool).
    + lia.
    + by apply subject_keys_NoDup.
    + intros k. by apply (subject_keys_cover _ _ _ _ HX v subj info k).
    + intros k Hk. apply bool_decide_eq_true. cbn [inst_keys] in Hk.
      by in_rows.
  - intros teacher tinfo Hti. split.
    + assert (HI : ITeacherWeek teacher tinfo
                   ∈ instances rooms batches subjects teachers fixed_classes)
        by (by apply instances_teacher_week_iff).
      specialize (Hinst _ HI). cbn [inst_holds] in Hinst.
      pose proof (true_count_le_sum X v Hbool (taught_by subjects teacher)
                    (inst_keys rooms subjects (ITeacherWeek teacher tinfo))
                    (fun k => teacher_week_keys_cover _ _ _ _ v teacher tinfo
                                k HX)).
      lia.
    + intros d Hd.
      assert (HI : ITeacherDay teacher d
                   ∈ instances rooms batches subjects teachers fixed_classes).
      { apply instances_teacher_day. split; [|done].
        apply list_elem_of_fmap. by exists (teacher, tinfo). }
      specialize (Hinst _ HI). cbn [inst_holds] in Hinst.
      pose proof (true_count_le_sum X v Hbool
                    (fun k => taught_by subjects teacher k
                              && bool_decide (key_day k = d))
                    (inst_keys rooms subjects (ITeacherDay teacher d))
                    (fun k => teacher_day_keys_cover _ _ _ _ v teacher d
                                k HX)).
      lia.
  - intros k Hin.
    assert (Hk : valid_key rooms subjects k = true).
    { unfold first_invalid in Hvalid. pose proof Hin as Hin'.
      apply list_elem_of_In in Hin'.
      pose proof (find_none _ _ Hvalid _ Hin') as H. simpl in H.
      by apply negb_false_iff in H. }
    destruct (XSpec_lookup_valid _ _ _ _ _ HX Hk) as [i Hi].
    apply (instances_fixed rooms batches subjects teachers) in Hin.
    specialize (Hinst _ Hin). cbn [inst_holds inst_keys] in Hinst.
    unfold lookup_vars in Hinst. cbn [omap list_omap] in Hinst.
    rewrite Hi in Hinst. simpl in Hinst.
    exists i. split; [done|]. lia.
Qed.

Lemma zero_objective_meets_requirements_witness :
  (forall subj info, (subj, info) ∈ main_subjects ->
     Z.of_nat (length (true_keys (x main_state) main_schedule
                         (fun k => bool_decide (key_subj k = subj))))
     = info.(sessions_per_week))
  /\ (forall teacher tinfo, (teacher, tinfo) ∈ main_teachers ->
        Z.of_nat (length (true_keys (x main_state) main_schedule
                            (taught_by main_subjects teacher)))
        <= tinfo.(max_load)
        /\ forall d, d ∈ days ->
             Z.of_nat (length (true_keys (x main_state) main_schedule
                                 (fun k => taught_by main_subjects teacher k
                                           && bool_decide (key_day k = d))))
             <= 5)
  /\ (forall k, k ∈ pins main_fixed ->
        exists i, x main_state !! k = Some i /\ main_schedule i = 1).
Proof.
  exact (zero_objective_meets_requirements
           main_rooms main_batches main_subjects main_teachers main_fixed 5
           main_state main_schedule
           (lin_sum (entry_slack <$> slack_vars main_state))
           main_int64 main_rooms_NoDup main_subjects_NoDup
           main_state_built main_schedule_sat main_objective
           main_objective_zero).
Defined.
